(** * TempMail control panel: session and message persistence layer

    A shallow embedding of the storage, ingestion and session-lifecycle
    code of [main.py], with the properties its specification states.

    Conventions.
    - A Python [str] is a Rocq [string], one character per code point
      (code points below 256); a Python [int] is a [Z].
    - A value decoded from JSON is a [Py.value].
    - A [datetime] is the number of microseconds since 0001-01-01T00:00:00
      (Python's own resolution and origin).  The [sqlite3] module stores a
      datetime through its ISO text form, whose byte order is the
      chronological order, so a TIMESTAMP column is modelled by the instant
      and SQL comparisons on it by comparisons on [Z].
    - A table is the list of its rows in rowid order.  Table [archives],
      which no route fills or reads, is left out, and so is the global
      [message_cache], which is only ever cleared.
    - Library code (the digests, the text form of floats and containers,
      [json.dumps]) and the clock are variables of the section [Program];
      the replies of the mail gateway and the draws of uuid4 are arguments
      of the functions that use them.  Module [Hashlib] has SHA-256 and
      MD5 themselves, for the examples at the end. *)

From Stdlib Require Import ZArith List String Ascii Bool Lia.
From Stdlib Require Import Permutation Sorted SpecFloat DecimalString.
Import ListNotations.

Local Open Scope string_scope.
Local Open Scope Z_scope.

(* ================================================================== *)
(** * Python strings *)

Module PyStr.

(** [str.isspace] on one character (code points below 256). *)
Definition isspace (c : ascii) : bool :=
  let n := nat_of_ascii c in
  ((9 <=? n) && (n <=? 13) || (28 <=? n) && (n <=? 32)
   || (n =? 133) || (n =? 160))%nat.

Fixpoint lstrip (s : string) : string :=
  match s with
  | String c r => if isspace c then lstrip r else s
  | EmptyString => EmptyString
  end.

Fixpoint rstrip (s : string) : string :=
  match s with
  | String c r =>
      match rstrip r with
      | EmptyString => if isspace c then EmptyString else String c EmptyString
      | r' => String c r'
      end
  | EmptyString => EmptyString
  end.

(** [s.strip()] *)
Definition strip (s : string) : string := rstrip (lstrip s).

(** [s.split('\n')]: a string with n newlines has n+1 pieces. *)
Fixpoint split_lines (s : string) : list string :=
  match s with
  | EmptyString => [EmptyString]
  | String c r =>
      if Ascii.eqb c "010"%char then EmptyString :: split_lines r
      else match split_lines r with
           | h :: t => String c h :: t
           | [] => [String c EmptyString]
           end
  end.

(** [s.replace('NEW', '')]: occurrences are removed left to right,
    without rescanning. *)
Fixpoint remove_NEW (s : string) : string :=
  match s with
  | String "N" (String "E" (String "W" r)) => remove_NEW r
  | String c r => String c (remove_NEW r)
  | EmptyString => EmptyString
  end.

(** [sub in s] for two strings. *)
Fixpoint contains (sub s : string) : bool :=
  String.prefix sub s ||
  match s with
  | String _ r => contains sub r
  | EmptyString => false
  end.

(** [s[:n]] *)
Definition take (n : nat) (s : string) : string := String.substring 0 n s.

(** [s.split('@', 1)] when '@' occurs in [s]: the text before the first
    '@' and the text after it. *)
Fixpoint split_at (s : string) : option (string * string) :=
  match s with
  | EmptyString => None
  | String c r =>
      if Ascii.eqb c "@"%char then Some (EmptyString, r)
      else match split_at r with
           | Some (a, b) => Some (String c a, b)
           | None => None
           end
  end.

(** ["-" * n] and the like. *)
Fixpoint repeat_char (c : ascii) (n : nat) : string :=
  match n with
  | O => EmptyString
  | S k => String c (repeat_char c k)
  end.

(** [sep.join(l)] *)
Fixpoint join (sep : string) (l : list string) : string :=
  match l with
  | [] => EmptyString
  | [x] => x
  | x :: r => x ++ sep ++ join sep r
  end.

(** Decimal text of an integer, as [str(n)] prints it. *)
Definition of_Z (z : Z) : string :=
  NilZero.string_of_int (Z.to_int z).

(** Decimal text of a natural number, padded with zeros to [w] digits. *)
Definition zero_pad (w : nat) (z : Z) : string :=
  let s := of_Z z in
  repeat_char "0" (w - String.length s) ++ s.

End PyStr.

(* ================================================================== *)
(** * Python values *)

Module Py.

(** What [json.loads] can produce. *)
#[warnings="-register-all"]
Inductive value : Type :=
| VNone
| VBool (b : bool)
| VInt (z : Z)
| VFloat (f : spec_float)
| VStr (s : string)
| VList (l : list value)
| VDict (d : list (string * value)).

(** Exceptions the modelled code can meet. *)
Inductive exn : Type :=
| TypeError | AttributeError | KeyError
| ProgrammingError | OverflowError | IntegrityError
| JSONDecodeError | RequestException.

(** A computation that returns or raises. *)
Inductive result (A : Type) : Type :=
| Ok (a : A)
| Raise (e : exn).
Arguments Ok {A} a.
Arguments Raise {A} e.

(** [bool(v)] *)
Definition truthy (v : value) : bool :=
  match v with
  | VNone => false
  | VBool b => b
  | VInt z => negb (z =? 0)
  | VFloat f => match f with S754_zero _ => false | _ => true end
  | VStr s => negb (String.eqb s "")
  | VList l => match l with [] => false | _ => true end
  | VDict d => match d with [] => false | _ => true end
  end.

(** [v == s] for a string [s]. *)
Definition eq_str (v : value) (s : string) : bool :=
  match v with
  | VStr s' => String.eqb s' s
  | _ => false
  end.

(** [d.get(k)] on the items of a dict. *)
Fixpoint lookup (k : string) (d : list (string * value)) : option value :=
  match d with
  | [] => None
  | (k', v) :: r => if String.eqb k' k then Some v else lookup k r
  end.

(** [d.get(k, default)] *)
Definition get (k : string) (default : value) (d : list (string * value)) : value :=
  match lookup k d with
  | Some v => v
  | None => default
  end.

(** [k in v] for a string [k]: key of a dict, element of a list,
    substring of a string, [TypeError] otherwise. *)
Definition contains (k : string) (v : value) : result bool :=
  match v with
  | VDict d => Ok (match lookup k d with Some _ => true | None => false end)
  | VList l => Ok (existsb (fun x => eq_str x k) l)
  | VStr s => Ok (PyStr.contains k s)
  | _ => Raise TypeError
  end.

(** [v[k]] for a string [k]. *)
Definition getitem (k : string) (v : value) : result value :=
  match v with
  | VDict d => match lookup k d with Some x => Ok x | None => Raise KeyError end
  | _ => Raise TypeError
  end.

(** The elements [for x in v] visits. *)
Definition iter (v : value) : result (list value) :=
  match v with
  | VList l => Ok l
  | VDict d => Ok (map (fun kv => VStr (fst kv)) d)
  | VStr s => Ok (map (fun c => VStr (String c EmptyString)) (list_ascii_of_string s))
  | _ => Raise TypeError
  end.

(** Signed 64-bit range, the integers SQLite can hold. *)
Definition int64 (z : Z) : bool :=
  (- 2 ^ 63 <=? z) && (z <? 2 ^ 63).

End Py.

Import Py.

(* ================================================================== *)
(** * Datetimes *)

Module Datetime.

(** Microseconds since 0001-01-01T00:00:00. *)
Definition datetime : Type := Z.

Definition us_per_second : Z := 1000000.
Definition us_per_day : Z := 86400 * us_per_second.

(** [datetime.max]: 9999-12-31T23:59:59.999999. *)
Definition max_datetime : Z := 3652059 * us_per_day - 1.

(** [timedelta(hours=h)] *)
Definition timedelta_hours (h : Z) : Z := h * 3600 * us_per_second.

(** [t - delta]; Python raises [OverflowError] outside year 1..9999. *)
Definition sub (t : datetime) (delta : Z) : result datetime :=
  let r := t - delta in
  if (0 <=? r) && (r <=? max_datetime) then Ok r else Raise OverflowError.

(** Proleptic Gregorian date of day number [d] (day 0 is 0001-01-01):
    year, month, day. *)
Definition civil (d : Z) : Z * Z * Z :=
  let z := d + 306 in
  let era := z / 146097 in
  let doe := z mod 146097 in
  let yoe := (doe - doe / 1460 + doe / 36524 - doe / 146096) / 365 in
  let doy := doe - (365 * yoe + yoe / 4 - yoe / 100) in
  let mp := (5 * doy + 2) / 153 in
  let day := doy - (153 * mp + 2) / 5 + 1 in
  let month := if mp <? 10 then mp + 3 else mp - 9 in
  let year := yoe + era * 400 + (if month <=? 2 then 1 else 0) in
  (year, month, day).

(** [t.isoformat(sep)]: the fraction is left out when it is zero. *)
Definition isoformat_sep (sep : string) (t : datetime) : string :=
  let '(year, month, day) := civil (t / us_per_day) in
  let tod := t mod us_per_day in
  let secs := tod / us_per_second in
  let us := tod mod us_per_second in
  PyStr.zero_pad 4 year ++ "-" ++ PyStr.zero_pad 2 month ++ "-"
    ++ PyStr.zero_pad 2 day ++ sep
    ++ PyStr.zero_pad 2 (secs / 3600) ++ ":"
    ++ PyStr.zero_pad 2 (secs / 60 mod 60) ++ ":"
    ++ PyStr.zero_pad 2 (secs mod 60)
    ++ (if us =? 0 then "" else "." ++ PyStr.zero_pad 6 us).

(** [t.isoformat()] *)
Definition isoformat (t : datetime) : string := isoformat_sep "T" t.

(** The text [sqlite3] stores for a datetime, and hands back on read. *)
Definition adapt (t : datetime) : string := isoformat_sep " " t.

End Datetime.

Import Datetime.

(* ================================================================== *)
(** * hashlib

    SHA-256 and MD5 on byte strings, with 32-bit words as integers
    reduced modulo 2^32.  The program below takes its digests as
    parameters; these are the functions it runs with. *)

Module Hashlib.

Definition w32 (x : Z) : Z := x mod 4294967296.

Definition rotr (n x : Z) : Z :=
  w32 (Z.lor (Z.shiftr x n) (Z.shiftl x (32 - n))).

Definition rotl (n x : Z) : Z :=
  w32 (Z.lor (Z.shiftl x n) (Z.shiftr x (32 - n))).

Definition lnot32 (x : Z) : Z := Z.lxor x 4294967295.

(** [s.encode()]: UTF-8, of code points below 256. *)
Definition bytes_of (s : string) : list Z :=
  flat_map (fun c => let n := Z.of_nat (nat_of_ascii c) in
                     if n <? 128 then [n] else [192 + n / 64; 128 + n mod 64])
           (list_ascii_of_string s).

Fixpoint le_bytes (n : nat) (x : Z) : list Z :=
  match n with
  | O => []
  | S k => x mod 256 :: le_bytes k (x / 256)
  end.

Definition be_bytes (n : nat) (x : Z) : list Z := rev (le_bytes n x).

(** The message, a 1 bit, zeros up to 56 modulo 64 bytes, then the bit
    length on 8 bytes. *)
Definition pad (length_bytes : Z -> list Z) (msg : list Z) : list Z :=
  let l := Z.of_nat (List.length msg) in
  (msg ++ [128] ++ repeat 0 (Z.to_nat ((55 - l) mod 64))
       ++ length_bytes ((8 * l) mod 2 ^ 64))%list.

Fixpoint words_be (l : list Z) : list Z :=
  match l with
  | a :: b :: c :: d :: r => (((a * 256 + b) * 256 + c) * 256 + d) :: words_be r
  | _ => []
  end.

Fixpoint words_le (l : list Z) : list Z :=
  match l with
  | a :: b :: c :: d :: r => (((d * 256 + c) * 256 + b) * 256 + a) :: words_le r
  | _ => []
  end.

(** Blocks of 16 words. *)
Fixpoint blocks (fuel : nat) (l : list Z) : list (list Z) :=
  match fuel, l with
  | O, _ => []
  | _, [] => []
  | S k, _ => firstn 16 l :: blocks k (skipn 16 l)
  end.

Definition hex_digit (d : Z) : ascii :=
  nth (Z.to_nat d) (list_ascii_of_string "0123456789abcdef") "0"%char.

Fixpoint hex_of_bytes (l : list Z) : string :=
  match l with
  | [] => EmptyString
  | b :: r => String (hex_digit (b / 16)) (String (hex_digit (b mod 16)) (hex_of_bytes r))
  end.

(** ** SHA-256 *)

Definition K256 : list Z :=
  [
   1116352408; 1899447441; 3049323471; 3921009573;
   961987163; 1508970993; 2453635748; 2870763221;
   3624381080; 310598401; 607225278; 1426881987;
   1925078388; 2162078206; 2614888103; 3248222580;
   3835390401; 4022224774; 264347078; 604807628;
   770255983; 1249150122; 1555081692; 1996064986;
   2554220882; 2821834349; 2952996808; 3210313671;
   3336571891; 3584528711; 113926993; 338241895;
   666307205; 773529912; 1294757372; 1396182291;
   1695183700; 1986661051; 2177026350; 2456956037;
   2730485921; 2820302411; 3259730800; 3345764771;
   3516065817; 3600352804; 4094571909; 275423344;
   430227734; 506948616; 659060556; 883997877;
   958139571; 1322822218; 1537002063; 1747873779;
   1955562222; 2024104815; 2227730452; 2361852424;
   2428436474; 2756734187; 3204031479; 3329325298
  ].

Definition H256 : list Z :=
  [
   1779033703; 3144134277; 1013904242; 2773480762;
   1359893119; 2600822924; 528734635; 1541459225
  ].

Definition sigma0 (x : Z) : Z := Z.lxor (Z.lxor (rotr 7 x) (rotr 18 x)) (Z.shiftr x 3).
Definition sigma1 (x : Z) : Z := Z.lxor (Z.lxor (rotr 17 x) (rotr 19 x)) (Z.shiftr x 10).
Definition Sigma0 (x : Z) : Z := Z.lxor (Z.lxor (rotr 2 x) (rotr 13 x)) (rotr 22 x).
Definition Sigma1 (x : Z) : Z := Z.lxor (Z.lxor (rotr 6 x) (rotr 11 x)) (rotr 25 x).

(** The message schedule, latest word first. *)
Definition schedule_step (r : list Z) : list Z :=
  w32 (sigma1 (nth 1 r 0) + nth 6 r 0 + sigma0 (nth 14 r 0) + nth 15 r 0) :: r.

Definition schedule (block : list Z) : list Z :=
  rev (Nat.iter 48 schedule_step (rev block)).

Definition round256 (st : list Z) (kw : Z * Z) : list Z :=
  match st with
  | [a; b; c; d; e; f; g; h] =>
      let ch := Z.lxor (Z.land e f) (Z.land (lnot32 e) g) in
      let temp1 := h + Sigma1 e + ch + fst kw + snd kw in
      let maj := Z.lxor (Z.lxor (Z.land a b) (Z.land a c)) (Z.land b c) in
      let temp2 := Sigma0 a + maj in
      [w32 (temp1 + temp2); a; b; c; w32 (d + temp1); e; f; g]
  | _ => st
  end.

Definition add_state (x y : list Z) : list Z :=
  map (fun p => w32 (fst p + snd p)) (combine x y).

Definition compress256 (st block : list Z) : list Z :=
  add_state st (fold_left round256 (combine K256 (schedule block)) st).

(** [hashlib.sha256(s.encode()).hexdigest()] *)
Definition sha256_hexdigest (s : string) : string :=
  let padded := pad (be_bytes 8) (bytes_of s) in
  let st := fold_left compress256 (blocks (List.length padded) (words_be padded)) H256 in
  hex_of_bytes (flat_map (be_bytes 4) st).

(** ** MD5 *)

Definition T5 : list Z :=
  [
   3614090360; 3905402710; 606105819; 3250441966;
   4118548399; 1200080426; 2821735955; 4249261313;
   1770035416; 2336552879; 4294925233; 2304563134;
   1804603682; 4254626195; 2792965006; 1236535329;
   4129170786; 3225465664; 643717713; 3921069994;
   3593408605; 38016083; 3634488961; 3889429448;
   568446438; 3275163606; 4107603335; 1163531501;
   2850285829; 4243563512; 1735328473; 2368359562;
   4294588738; 2272392833; 1839030562; 4259657740;
   2763975236; 1272893353; 4139469664; 3200236656;
   681279174; 3936430074; 3572445317; 76029189;
   3654602809; 3873151461; 530742520; 3299628645;
   4096336452; 1126891415; 2878612391; 4237533241;
   1700485571; 2399980690; 4293915773; 2240044497;
   1873313359; 4264355552; 2734768916; 1309151649;
   4149444226; 3174756917; 718787259; 3951481745
  ].

Definition S5 : list Z :=
  [7; 12; 17; 22; 7; 12; 17; 22; 7; 12; 17; 22; 7; 12; 17; 22;
   5; 9; 14; 20; 5; 9; 14; 20; 5; 9; 14; 20; 5; 9; 14; 20;
   4; 11; 16; 23; 4; 11; 16; 23; 4; 11; 16; 23; 4; 11; 16; 23;
   6; 10; 15; 21; 6; 10; 15; 21; 6; 10; 15; 21; 6; 10; 15; 21].

Definition round5 (block : list Z) (st : list Z) (i : nat) : list Z :=
  match st with
  | [a; b; c; d] =>
      let '(f, g) :=
        if (i <? 16)%nat then
          (Z.lor (Z.land b c) (Z.land (lnot32 b) d), i)
        else if (i <? 32)%nat then
          (Z.lor (Z.land d b) (Z.land (lnot32 d) c), ((5 * i + 1) mod 16)%nat)
        else if (i <? 48)%nat then
          (Z.lxor (Z.lxor b c) d, ((3 * i + 5) mod 16)%nat)
        else
          (Z.lxor c (Z.lor b (lnot32 d)), ((7 * i) mod 16)%nat) in
      let f := w32 (f + a + nth i T5 0 + nth g block 0) in
      [d; w32 (b + rotl (nth i S5 0) f); b; c]
  | _ => st
  end.

Definition compress5 (st block : list Z) : list Z :=
  add_state st (fold_left (round5 block) (seq 0 64) st).

(** [hashlib.md5(s.encode()).hexdigest()] *)
Definition md5_hexdigest (s : string) : string :=
  let padded := pad (le_bytes 8) (bytes_of s) in
  let st := fold_left compress5 (blocks (List.length padded) (words_le padded))
              [1732584193; 4023233417; 2562383102; 271733878] in
  hex_of_bytes (flat_map (le_bytes 4) st).

End Hashlib.

(* ================================================================== *)
(** * Python dicts keyed by strings, in insertion order *)

Module PyDict.
Section Dict.
Context {V : Type}.

Definition t : Type := list (string * V).

(** [d.get(k)] *)
Fixpoint get (k : string) (d : t) : option V :=
  match d with
  | [] => None
  | (k', v) :: r => if String.eqb k' k then Some v else get k r
  end.

(** [k in d] *)
Definition mem (k : string) (d : t) : bool :=
  match get k d with Some _ => true | None => false end.

(** [d[k] = v]: an existing key keeps its place. *)
Fixpoint set (k : string) (v : V) (d : t) : t :=
  match d with
  | [] => [(k, v)]
  | (k', v') :: r =>
      if String.eqb k' k then (k, v) :: r else (k', v') :: set k v r
  end.

(** [del d[k]] *)
Fixpoint del (k : string) (d : t) : t :=
  match d with
  | [] => []
  | (k', v') :: r => if String.eqb k' k then r else (k', v') :: del k r
  end.

(** [list(d.keys())] *)
Definition keys (d : t) : list string := map fst d.
End Dict.
Arguments t V : clear implicits.
End PyDict.

(* ================================================================== *)
(** * The store and the live handles *)

(** A row of table [sessions]. *)
Record SessionRow : Type := mkSessionRow {
  s_session_id : string;        (* TEXT PRIMARY KEY *)
  s_email : string;             (* TEXT NOT NULL *)
  s_created_at : datetime;      (* TIMESTAMP NOT NULL *)
  s_last_activity : datetime;   (* TIMESTAMP NOT NULL *)
  s_is_active : Z               (* INTEGER DEFAULT 1 *)
}.

(** A row of table [messages]; a TEXT column that may hold NULL is an
    [option string]. *)
Record MessageRow : Type := mkMessageRow {
  message_id : string;          (* TEXT PRIMARY KEY *)
  m_session_id : string;        (* TEXT NOT NULL *)
  sender : option string;
  recipient : string;
  subject : option string;
  body_preview : option string;
  full_content : string;
  received_at : datetime;       (* TIMESTAMP NOT NULL *)
  is_read : Z                   (* INTEGER DEFAULT 0 *)
}.

(** An object of class [TempMailSession]. *)
Record TempMailSession : Type := mkTempMailSession {
  email : value;
  session_id : string;
  created_at : datetime;
  last_check : datetime;
  message_count : Z;
  is_active : bool;
  custom_alias : value
}.

(** The database file, the global [active_sessions] and the number of
    clock readings taken so far. *)
Record World : Type := mkWorld {
  sessions : list SessionRow;
  messages : list MessageRow;
  active_sessions : PyDict.t TempMailSession;
  ticks : nat
}.

Definition set_sessions (f : list SessionRow -> list SessionRow) (w : World) : World :=
  mkWorld (f (sessions w)) (messages w) (active_sessions w) (ticks w).

Definition set_messages (f : list MessageRow -> list MessageRow) (w : World) : World :=
  mkWorld (sessions w) (f (messages w)) (active_sessions w) (ticks w).

Definition set_active_sessions
    (f : PyDict.t TempMailSession -> PyDict.t TempMailSession) (w : World) : World :=
  mkWorld (sessions w) (messages w) (f (active_sessions w)) (ticks w).

(** The state after [init_db()] on a fresh file. *)
Definition init_world : World := mkWorld [] [] [] 0.

(** What one request to the mail gateway can come to: the transport
    fails, or a response arrives with a status code and a body that
    [response.json()] decodes ([Some]) or rejects ([None]). *)
Inductive HttpOutcome : Type :=
| TransportError
| Response (status_code : Z) (json : option value).

(** ** SQL statements of the program, on tables as lists *)

Module Sql.

Definition session_is (sid : string) (r : SessionRow) : bool :=
  String.eqb (s_session_id r) sid.

Definition of_session (sid : string) (m : MessageRow) : bool :=
  String.eqb (m_session_id m) sid.

Definition message_is (mid sid : string) (m : MessageRow) : bool :=
  String.eqb (message_id m) mid && String.eqb (m_session_id m) sid.

Definition unread_row (m : MessageRow) : bool := is_read m =? 0.

(** INSERT OR REPLACE INTO sessions: the row with the same primary key
    is deleted, the new row is appended. *)
Definition insert_or_replace_session (row : SessionRow) (t : list SessionRow)
  : list SessionRow :=
  (filter (fun r => negb (session_is (s_session_id row) r)) t ++ [row])%list.

(** UPDATE sessions SET last_activity = ? WHERE session_id = ? *)
Definition update_last_activity (t' : datetime) (sid : string) (t : list SessionRow)
  : list SessionRow :=
  map (fun r => if session_is sid r
                then mkSessionRow (s_session_id r) (s_email r) (s_created_at r) t' (s_is_active r)
                else r) t.

Definition inactive (r : SessionRow) : SessionRow :=
  mkSessionRow (s_session_id r) (s_email r) (s_created_at r) (s_last_activity r) 0.

(** UPDATE sessions SET is_active = 0 WHERE session_id = ? *)
Definition set_inactive (sid : string) (t : list SessionRow) : list SessionRow :=
  map (fun r => if session_is sid r then inactive r else r) t.

(** UPDATE sessions SET is_active = 0 *)
Definition set_all_inactive (t : list SessionRow) : list SessionRow :=
  map inactive t.

(** DELETE FROM sessions WHERE session_id = ? *)
Definition delete_session (sid : string) (t : list SessionRow) : list SessionRow :=
  filter (fun r => negb (session_is sid r)) t.

(** SELECT email FROM sessions WHERE session_id = ?, [fetchone()] *)
Definition select_email (sid : string) (t : list SessionRow) : option string :=
  option_map s_email (find (session_is sid) t).

(** SELECT message_id FROM messages WHERE message_id = ?, [fetchone()] *)
Definition message_exists (mid : string) (t : list MessageRow) : bool :=
  existsb (fun m => String.eqb (message_id m) mid) t.

(** INSERT INTO messages: the primary key must be new. *)
Definition insert_message (row : MessageRow) (t : list MessageRow)
  : result (list MessageRow) :=
  if message_exists (message_id row) t then Raise IntegrityError
  else Ok (t ++ [row])%list.

(** DELETE FROM messages WHERE session_id = ? *)
Definition delete_messages_of (sid : string) (t : list MessageRow) : list MessageRow :=
  filter (fun m => negb (of_session sid m)) t.

(** DELETE FROM messages WHERE message_id = ? AND session_id = ? *)
Definition delete_message (mid sid : string) (t : list MessageRow) : list MessageRow :=
  filter (fun m => negb (message_is mid sid m)) t.

Definition read (m : MessageRow) : MessageRow :=
  mkMessageRow (message_id m) (m_session_id m) (sender m) (recipient m) (subject m)
               (body_preview m) (full_content m) (received_at m) 1.

(** UPDATE messages SET is_read = 1 WHERE message_id = ? AND session_id = ? *)
Definition set_read (mid sid : string) (t : list MessageRow) : list MessageRow :=
  map (fun m => if message_is mid sid m then read m else m) t.

(** UPDATE messages SET is_read = 1 WHERE session_id = ? *)
Definition set_all_read (sid : string) (t : list MessageRow) : list MessageRow :=
  map (fun m => if of_session sid m then read m else m) t.

(** SELECT COUNT( * ) FROM messages WHERE session_id = ? *)
Definition count_of (sid : string) (t : list MessageRow) : Z :=
  Z.of_nat (List.length (filter (of_session sid) t)).

(** SELECT COUNT( * ) FROM messages WHERE session_id = ? AND is_read = 0 *)
Definition count_unread_of (sid : string) (t : list MessageRow) : Z :=
  Z.of_nat (List.length (filter (fun m => of_session sid m && unread_row m) t)).

(** ORDER BY received_at DESC.  The sort has one key; SQLite hands rows
    with equal keys back in the order of the scan, so the sort is the
    stable one. *)
Fixpoint insert_desc (r : MessageRow) (l : list MessageRow) : list MessageRow :=
  match l with
  | [] => [r]
  | x :: t => if received_at r <? received_at x then x :: insert_desc r t
              else r :: l
  end.

Definition order_by_received_at_desc (l : list MessageRow) : list MessageRow :=
  fold_right insert_desc [] l.

(** LIMIT ? OFFSET ?: a negative offset counts as 0, a negative limit
    as no limit. *)
Definition limit_offset {A : Type} (limit offset : Z) (l : list A) : list A :=
  let rest := skipn (Z.to_nat offset) l in
  if limit <? 0 then rest else firstn (Z.to_nat limit) rest.

End Sql.

(* ================================================================== *)
(** * The program *)

(** One message of a listing, the dict [get_session_messages] builds. *)
Record MessageView : Type := mkMessageView {
  msg_id : string;
  msg_sender : option string;
  msg_recipient : string;
  msg_subject : option string;
  msg_preview : option string;
  msg_content : string;
  msg_time : string;
  msg_is_read : bool
}.

(** The dict [get_session_messages] returns. *)
Record Listing : Type := mkListing {
  listed : list MessageView;    (* 'messages' *)
  total : Z;
  unread : Z;
  has_more : bool
}.

(** A request field that is absent, null or a string: [given x] is the
    string when [not x] is false. *)
Definition given (x : option string) : option string :=
  match x with
  | Some s => if String.eqb s "" then None else Some s
  | None => None
  end.

(** The dict of one listed message, as it goes into a JSON body. *)
Definition view_value (m : MessageView) : value :=
  let of_text (x : option string) :=
    match x with Some s => VStr s | None => VNone end in
  VDict [("id", VStr (msg_id m)); ("sender", of_text (msg_sender m));
         ("recipient", VStr (msg_recipient m)); ("subject", of_text (msg_subject m));
         ("preview", of_text (msg_preview m)); ("content", VStr (msg_content m));
         ("time", VStr (msg_time m)); ("is_read", VBool (msg_is_read m))].

(* ================================================================== *)
(** * Sample data for the examples *)

Module Sample.

(** A clock that reads 2024-01-02T00:00:00 first and one second more at
    every later reading. *)
Definition clock (n : nat) : datetime :=
  63839750400000000 + Z.of_nat n * us_per_second.

(** Stand-ins for library text that no example reaches. *)
Definition repr (v : value) : string := "<object>".
Definition real_text (f : spec_float) : string := "<real>".
Definition json_dumps (l : list MessageView) : string := "<json>".

Definition str_exn (e : exn) : string :=
  match e with
  | TypeError => "TypeError"
  | AttributeError => "AttributeError"
  | KeyError => "KeyError"
  | ProgrammingError => "ProgrammingError"
  | OverflowError => "OverflowError"
  | IntegrityError => "IntegrityError"
  | JSONDecodeError => "JSONDecodeError"
  | RequestException => "RequestException"
  end.

(** A raw message as the gateway sends it. *)
Definition raw : value :=
  VDict [("sender", VStr "alice@example.com"); ("subject", VStr "Hello");
         ("preview", VStr "Hi there"); ("text", VStr "Hi there, how are you?")].

(** A gateway that is down. *)
Definition api_down (strategy : list Z) : HttpOutcome := Response 503 None.

Definition uuid_str : string := "123e4567-e89b-42d3-a456-426614174000".
Definition uuid_hex : string := "123e4567e89b42d3a456426614174000".

Definition row (mid sid : string) (t : datetime) (is_read : Z) : MessageRow :=
  mkMessageRow mid sid (Some "alice@example.com") "box@example.com" (Some "Hello")
               (Some "Hi there") "Hi there, how are you?" t is_read.

(** Two messages of one session that arrived at the same instant, stored
    in either order. *)
Definition tied_ba : World :=
  mkWorld [] [row "b" "s" 63839750400000000 0; row "a" "s" 63839750400000000 0] [] 0.

Definition tied_ab : World :=
  mkWorld [] [row "a" "s" 63839750400000000 0; row "b" "s" 63839750400000000 0] [] 0.

(** A store with three sessions: one inactive for two days, one inactive
    for an hour, one live for two days; and their messages. *)
Definition world : World :=
  mkWorld
    [mkSessionRow "s_old" "old@example.com" 63839400000000000 63839577600000000 0;
     mkSessionRow "s_recent" "recent@example.com" 63839400000000000 63839746800000000 0;
     mkSessionRow "s_live" "live@example.com" 63839400000000000 63839577600000000 1]
    [row "m1" "s_old" 63839500000000000 0;
     row "m2" "s_live" 63839500000000000 0;
     row "m3" "s_recent" 63839600000000000 1;
     row "m4" "s_live" 63839600000000000 0;
     row "m5" "s_live" 63839500000000000 1]
    [("s_live", mkTempMailSession (VStr "live@example.com") "s_live"
                  63839400000000000 63839577600000000 0 true VNone)]
    0.

End Sample.

(** Proves [NoDup] of a list of distinct string literals. *)
Ltac distinct_strings :=
  repeat (constructor; [cbn; intuition discriminate|]); constructor.

Section Program.

(** ** Library functions and the outside world *)

(** [hashlib.sha256(s.encode()).hexdigest()] and the same for md5. *)
Variable sha256_hexdigest : string -> string.
Variable md5_hexdigest : string -> string.
(** [repr] of a float, a list or a dict. *)
Variable repr : value -> string.
(** The text SQLite keeps for a float bound to a TEXT column. *)
Variable real_text : spec_float -> string.
(** [str(e)] of a caught exception. *)
Variable str_exn : exn -> string.
(** The n-th reading of [datetime.utcnow()]. *)
Variable clock : nat -> datetime.
(** [json.dumps(messages, indent=2, default=str)] *)
Variable json_dumps : list MessageView -> string.

(** [datetime.utcnow()] *)
Definition utcnow (w : World) : datetime * World :=
  (clock (ticks w),
   mkWorld (sessions w) (messages w) (active_sessions w) (S (ticks w))).

(** [str(v)], also what an f-string prints for [v]. *)
Definition str (v : value) : string :=
  match v with
  | VStr s => s
  | VNone => "None"
  | VBool true => "True"
  | VBool false => "False"
  | VInt z => PyStr.of_Z z
  | _ => repr v
  end.

Definition str_opt (x : option string) : string :=
  match x with
  | Some s => s
  | None => "None"
  end.

(** Binding a Python value to a parameter that lands in a TEXT column:
    the stored text, [None] for NULL, or the exception [sqlite3] raises.
    SQLite keeps no NaN: a float that is NaN is stored as NULL. *)
Definition bind_text (v : value) : result (option string) :=
  match v with
  | VNone => Ok None
  | VBool b => Ok (Some (if b then "1" else "0"))
  | VInt z => if int64 z then Ok (Some (PyStr.of_Z z)) else Raise OverflowError
  | VFloat S754_nan => Ok None
  | VFloat f => Ok (Some (real_text f))
  | VStr s => Ok (Some s)
  | VList _ | VDict _ => Raise ProgrammingError
  end.

(** ** class TempMailSession *)

(** [TempMailSession(email, session_id)] *)
Definition TempMailSession_init (email : value) (session_id : string) (w : World)
  : result unit * World :=
  let (created_at, w) := utcnow w in
  let (last_check, w) := utcnow w in
  let self := mkTempMailSession email session_id created_at last_check 0 true VNone in
  match bind_text email with
  | Ok (Some e) =>
      let row := mkSessionRow session_id e created_at created_at 1 in
      let w := set_sessions (Sql.insert_or_replace_session row) w in
      (Ok tt, set_active_sessions (PyDict.set session_id self) w)
  | Ok None => (Raise IntegrityError, w)    (* email TEXT NOT NULL *)
  | Raise e => (Raise e, w)
  end.

(** [active_sessions[key].update_activity()]: the object is reached
    through the dict, so the dict sees the new [last_check]. *)
Definition update_activity (key : string) (self : TempMailSession) (w : World) : World :=
  let (now, w) := utcnow w in
  let self' := mkTempMailSession (email self) (session_id self) (created_at self)
                 now (message_count self) (is_active self) (custom_alias self) in
  let w := set_active_sessions (PyDict.set key self') w in
  set_sessions (Sql.update_last_activity now (session_id self)) w.

(** [active_sessions[key].deactivate()] *)
Definition deactivate (key : string) (self : TempMailSession) (w : World) : World :=
  let self' := mkTempMailSession (email self) (session_id self) (created_at self)
                 (last_check self) (message_count self) false (custom_alias self) in
  let w := set_active_sessions (PyDict.set key self') w in
  let w := set_sessions (Sql.set_inactive (session_id self)) w in
  if PyDict.mem (session_id self) (active_sessions w)
  then set_active_sessions (PyDict.del (session_id self)) w
  else w.

(** ** generate_email *)

Definition strategies : list (list Z) := [[1; 2; 3]; [2; 3]; [1]].

(** The loop over the strategies: the address of the first response
    with status 200 and a body holding key 'email', [None] when no
    strategy gives one.  An exception inside one attempt moves on to the
    next. *)
Fixpoint try_strategies (api : list Z -> HttpOutcome) (l : list (list Z)) : value :=
  match l with
  | [] => VNone
  | strategy :: rest =>
      match api strategy with
      | Response status (Some data) =>
          if status =? 200 then
            match contains "email" data with
            | Ok true =>
                match getitem "email" data with
                | Ok e => e                          (* break *)
                | Raise _ => try_strategies api rest
                end
            | Ok false => try_strategies api rest
            | Raise _ => try_strategies api rest
            end
          else try_strategies api rest
      | Response status None =>
          try_strategies api rest
      | TransportError => try_strategies api rest
      end
  end.

(** "Apply custom prefix if requested" *)
Definition apply_prefix (custom_prefix email : value) : result value :=
  if truthy custom_prefix then
    match contains "@" email with
    | Ok true =>
        match email with
        | VStr s =>
            match PyStr.split_at s with
            | Some (local_part, domain) =>
                Ok (VStr (str custom_prefix ++ "_" ++ local_part ++ "@" ++ domain))
            | None => Ok email
            end
        | _ => Raise AttributeError       (* only a str has split *)
        end
    | Ok false => Ok email
    | Raise e => Raise e
    end
  else Ok email.

Definition is_not_None (v : value) : bool :=
  match v with VNone => false | _ => true end.

(** [generate_email(custom_prefix=custom_prefix)].  [api] is the
    gateway's reply to each strategy, [uuid_str] and [uuid_hex] are
    [str(uuid4())] and [uuid4().hex], [time_time] is [int(time.time())]. *)
Definition generate_email (api : list Z -> HttpOutcome) (uuid_str uuid_hex : string)
    (time_time : Z) (custom_prefix : value) (w : World)
  : result (list (string * value)) * World :=
  let email := try_strategies api strategies in
  let email :=
    if negb (truthy email)
    then VStr (PyStr.take 10 (md5_hexdigest uuid_str) ++ "@tempmail.tmp")
    else email in
  let attempt : result (list (string * value)) * World :=
    match apply_prefix custom_prefix email with
    | Ok email =>
        let (now, w) := utcnow w in
        let session_id := PyStr.take 12 (sha256_hexdigest (str email ++ isoformat now)) in
        match TempMailSession_init email session_id w with
        | (Ok _, w) =>
            (Ok [("email", email); ("session_id", VStr session_id);
                 ("custom", VBool (is_not_None custom_prefix))], w)
        | (Raise e, w) => (Raise e, w)
        end
    | Raise e => (Raise e, w)
    end in
  match attempt with
  | (Ok r, w) => (Ok r, w)
  | (Raise _, w) =>
      (* except Exception: "Ultimate fallback" *)
      let fallback_email :=
        "temp_" ++ PyStr.of_Z time_time ++ "_" ++ PyStr.take 6 uuid_hex ++ "@fallback.tmp" in
      let session_id := PyStr.take 10 (md5_hexdigest fallback_email) in
      match TempMailSession_init (VStr fallback_email) session_id w with
      | (Ok _, w) =>
          (Ok [("email", VStr fallback_email); ("session_id", VStr session_id);
               ("custom", VBool false); ("fallback", VBool true)], w)
      | (Raise e, w) => (Raise e, w)
      end
  end.

(** ** store_messages_in_db *)

(** The fields taken from one raw message: sender, subject, preview,
    full content. *)
Definition extract (msg : value) : value * value * value * string :=
  match msg with
  | VStr s =>
      let lines := PyStr.split_lines (PyStr.strip s) in
      if (3 <=? List.length lines)%nat then
        (VStr (PyStr.strip (PyStr.remove_NEW (nth 0 lines ""))),
         VStr (PyStr.strip (nth 2 lines "")),
         (if (3 <? List.length lines)%nat
          then VStr (PyStr.strip (nth 3 lines "")) else VStr "No preview"),
         str msg)
      else (VStr "Unknown", VStr "No Subject", VStr "No preview", str msg)
  | VDict d =>
      (Py.get "sender" (VStr "Unknown") d,
       Py.get "subject" (VStr "No Subject") d,
       Py.get "preview" (VStr "No preview") d,
       match Py.lookup "text" d with
       | Some (VStr text) => text
       | _ => str msg
       end)
  | _ => (VStr "Unknown", VStr "No Subject", VStr "No preview", str msg)
  end.

(** "Generate message ID" *)
Definition derive_message_id (sender subject body_preview : value)
    (received_time : datetime) : string :=
  PyStr.take 16 (sha256_hexdigest
    (str sender ++ str subject ++ str body_preview ++ isoformat received_time)).

(** The body of the loop for one message.  An exception (a field that
    cannot be bound) is caught and the message is skipped. *)
Definition store_message (session_id recipient_email : string) (w : World)
    (msg : value) : World :=
  let (received_time, w) := utcnow w in
  let '(sender, subject, body_preview, full_content) := extract msg in
  let msg_id := derive_message_id sender subject body_preview received_time in
  if Sql.message_exists msg_id (messages w) then w
  else
    match bind_text sender, bind_text subject, bind_text body_preview with
    | Ok sender, Ok subject, Ok body_preview =>
        let row := mkMessageRow msg_id session_id sender recipient_email subject
                     body_preview full_content received_time 0 in
        match Sql.insert_message row (messages w) with
        | Ok t => set_messages (fun _ => t) w
        | Raise _ => w
        end
    | _, _, _ => w
    end.

(** [store_messages_in_db(messages, session_id, recipient_email)];
    it raises when [messages] cannot be iterated. *)
Definition store_messages_in_db (msgs : value) (session_id recipient_email : string)
    (w : World) : result unit * World :=
  match iter msgs with
  | Ok l => (Ok tt, fold_left (store_message session_id recipient_email) l w)
  | Raise e => (Raise e, w)
  end.

(** ** get_inbox *)

Definition inbox_error (extra : string * value) : value :=
  VDict [("messages", VList []); ("status", VStr "error"); extra].

(** [get_inbox(email, session_id)], given what the gateway does with
    the one request.  Every exception is caught. *)
Definition get_inbox (outcome : HttpOutcome) (email session_id : string) (w : World)
  : value * World :=
  let failed (e : exn) (w : World) := (inbox_error ("error", VStr (str_exn e)), w) in
  match outcome with
  | TransportError => failed RequestException w
  | Response status body =>
      if negb (status =? 200) then (inbox_error ("code", VInt status), w)
      else
        match body with
        | None => failed JSONDecodeError w
        | Some data =>
            match contains "messages" data with
            | Raise e => failed e w
            | Ok false => (data, w)
            | Ok true =>
                match getitem "messages" data with
                | Raise e => failed e w
                | Ok msgs =>
                    if truthy msgs then
                      match store_messages_in_db msgs session_id email w with
                      | (Ok _, w) => (data, w)
                      | (Raise e, w) => failed e w
                      end
                    else (data, w)
                end
            end
        end
  end.

(** ** get_session_messages *)

Definition view (m : MessageRow) : MessageView :=
  mkMessageView (message_id m) (sender m) (recipient m) (subject m) (body_preview m)
                (full_content m) (adapt (received_at m)) (negb (is_read m =? 0)).

(** The rows the SELECT of [get_session_messages] yields, in order,
    before LIMIT and OFFSET. *)
Definition selected (w : World) (session_id : string) (unread_only : bool)
  : list MessageRow :=
  Sql.order_by_received_at_desc
    (filter (fun m => Sql.of_session session_id m
                      && (if unread_only then Sql.unread_row m else true))
            (messages w)).

(** [get_session_messages(session_id, limit, offset, unread_only)];
    binding a limit or offset outside 64 bits raises. *)
Definition get_session_messages (w : World) (session_id : string) (limit offset : Z)
    (unread_only : bool) : result Listing :=
  if int64 limit && int64 offset then
    let rows := Sql.limit_offset limit offset (selected w session_id unread_only) in
    let total := Sql.count_of session_id (messages w) in
    let unread := Sql.count_unread_of session_id (messages w) in
    Ok (mkListing (map view rows) total unread (total >? offset + limit))
  else Raise OverflowError.

(** ** mark_as_read, delete_message *)

Definition mark_as_read (message_id session_id : string) (w : World) : bool * World :=
  (true, set_messages (Sql.set_read message_id session_id) w).

Definition delete_message (message_id session_id : string) (w : World) : bool * World :=
  (true, set_messages (Sql.delete_message message_id session_id) w).

(** ** export_messages *)

Definition csv_quote : ascii := "034"%char.

Definition csv_special (c : ascii) : bool :=
  Ascii.eqb c ","%char || Ascii.eqb c csv_quote
  || Ascii.eqb c "013"%char || Ascii.eqb c "010"%char.

Fixpoint csv_escape (s : string) : string :=
  match s with
  | EmptyString => EmptyString
  | String c r =>
      if Ascii.eqb c csv_quote then String c (String c (csv_escape r))
      else String c (csv_escape r)
  end.

(** One field as [csv.writer] emits it (minimal quoting). *)
Definition csv_field (s : string) : string :=
  if existsb csv_special (list_ascii_of_string s)
  then String csv_quote (csv_escape s ++ String csv_quote EmptyString)
  else s.

(** [writer.writerow(fields)] *)
Definition csv_row (fields : list string) : string :=
  PyStr.join "," (map csv_field fields) ++ String "013" (String "010" EmptyString).

Definition csv_opt (x : option string) : string :=
  match x with Some s => s | None => "" end.

Definition csv_of (msgs : list MessageView) : string :=
  csv_row ["Sender"; "Recipient"; "Subject"; "Preview"; "Received At"; "Read"]
  ++ String.concat ""
       (map (fun msg => csv_row [csv_opt (msg_sender msg); msg_recipient msg;
                                 csv_opt (msg_subject msg); csv_opt (msg_preview msg);
                                 msg_time msg;
                                 if msg_is_read msg then "Yes" else "No"]) msgs).

Definition txt_of (msgs : list MessageView) : string :=
  PyStr.join (String "010" EmptyString)
    (flat_map (fun msg =>
       ["From: " ++ str_opt (msg_sender msg);
        "To: " ++ msg_recipient msg;
        "Subject: " ++ str_opt (msg_subject msg);
        "Time: " ++ msg_time msg;
        "Preview: " ++ str_opt (msg_preview msg);
        PyStr.repeat_char "-" 50]) msgs).

(** [export_messages(session_id, format_type)] *)
Definition export_messages (w : World) (session_id format_type : string)
  : result string :=
  match get_session_messages w session_id 1000 0 false with
  | Raise e => Raise e
  | Ok messages_data =>
      let msgs := listed messages_data in
      if String.eqb format_type "json" then Ok (json_dumps msgs)
      else if String.eqb format_type "csv" then Ok (csv_of msgs)
      else if String.eqb format_type "txt" then Ok (txt_of msgs)
      else Ok ""
  end.

(** ** Flask routes

    A route takes the fields it reads from the request body and gives
    the JSON body it answers with; [Raise] is an exception that leaves
    the route (Flask answers 500). *)

Definition failure (error : string) : value :=
  VDict [("success", VBool false); ("error", VStr error)].

Definition of_text (x : option string) : value :=
  match x with Some s => VStr s | None => VNone end.

(** POST /generate-email *)
Definition generate_email_endpoint (api : list Z -> HttpOutcome)
    (uuid_str uuid_hex : string) (time_time : Z) (prefix : value) (w : World)
  : result value * World :=
  match generate_email api uuid_str uuid_hex time_time prefix w with
  | (Raise e, w) => (Raise e, w)
  | (Ok result, w) =>
      match result with
      | [] => (Ok (failure "Failed to generate email"), w)
      | _ =>
          match Py.lookup "email" result, Py.lookup "session_id" result with
          | Some e, Some sid =>
              (Ok (VDict [("success", VBool true);
                          ("email", e);
                          ("session_id", sid);
                          ("custom", Py.get "custom" (VBool false) result);
                          ("fallback", Py.get "fallback" (VBool false) result)]), w)
          | _, _ => (Raise KeyError, w)
          end
      end
  end.

(** POST /check-inbox *)
Definition check_inbox_endpoint (outcome : HttpOutcome)
    (email session_id : option string) (w : World) : result value * World :=
  match given email, given session_id with
  | Some email, Some session_id =>
      let w :=
        match PyDict.get session_id (active_sessions w) with
        | Some self => update_activity session_id self w
        | None => w
        end in
      let (raw_data, w) := get_inbox outcome email session_id w in
      let no_messages :=
        VDict [("success", VBool true); ("new_count", VInt 0);
               ("status", VStr "no_messages")] in
      if truthy raw_data then
        match contains "messages" raw_data with
        | Raise e => (Raise e, w)
        | Ok true =>
            match get_session_messages w session_id 50 0 true with
            | Ok messages_data =>
                (Ok (VDict [("success", VBool true);
                            ("new_count", VInt (unread messages_data));
                            ("status", VStr "ok")]), w)
            | Raise e => (Raise e, w)
            end
        | Ok false => (Ok no_messages, w)
        end
      else (Ok no_messages, w)
  | _, _ => (Ok (failure "Missing data"), w)
  end.

(** POST /get-messages; absent fields default to 25, 0 and False. *)
Definition get_messages_endpoint (session_id : option string) (limit offset : Z)
    (unread_only : bool) (w : World) : result value :=
  match given session_id with
  | Some session_id =>
      match get_session_messages w session_id limit offset unread_only with
      | Ok messages_data =>
          Ok (VDict [("success", VBool true);
                     ("messages", VList (map view_value (listed messages_data)));
                     ("total", VInt (total messages_data));
                     ("unread", VInt (unread messages_data));
                     ("has_more", VBool (has_more messages_data))])
      | Raise e => Raise e
      end
  | None => Ok (failure "Missing session ID")
  end.

(** POST /get-message *)
Definition get_message_endpoint (session_id message_id : option string) (w : World)
  : value :=
  match given session_id, given message_id with
  | Some session_id, Some message_id =>
      match find (Sql.message_is message_id session_id) (messages w) with
      | Some row =>
          VDict [("success", VBool true);
                 ("message", VDict [("sender", of_text (sender row));
                                    ("recipient", VStr (recipient row));
                                    ("subject", of_text (subject row));
                                    ("preview", of_text (body_preview row));
                                    ("content", VStr (full_content row));
                                    ("time", VStr (adapt (received_at row)))])]
      | None => failure "Message not found"
      end
  | _, _ => failure "Missing data"
  end.

(** POST /mark-read *)
Definition mark_read_endpoint (session_id message_id : option string) (w : World)
  : value * World :=
  match given session_id, given message_id with
  | Some session_id, Some message_id =>
      let (success, w) := mark_as_read message_id session_id w in
      (VDict [("success", VBool success)], w)
  | _, _ => (failure "Missing data", w)
  end.

(** POST /mark-all-read *)
Definition mark_all_read_endpoint (session_id : option string) (w : World)
  : value * World :=
  match given session_id with
  | Some session_id =>
      (VDict [("success", VBool true)], set_messages (Sql.set_all_read session_id) w)
  | None => (failure "Missing session ID", w)
  end.

(** POST /delete-message *)
Definition delete_message_endpoint (session_id message_id : option string) (w : World)
  : value * World :=
  match given session_id, given message_id with
  | Some session_id, Some message_id =>
      let (success, w) := delete_message message_id session_id w in
      (VDict [("success", VBool success)], w)
  | _, _ => (failure "Missing data", w)
  end.

(** POST /delete-all-messages *)
Definition delete_all_messages_endpoint (session_id : option string) (w : World)
  : value * World :=
  match given session_id with
  | Some session_id =>
      (VDict [("success", VBool true)],
       set_messages (Sql.delete_messages_of session_id) w)
  | None => (failure "Missing session ID", w)
  end.

(** POST /delete-session *)
Definition delete_session_endpoint (session_id : option string) (w : World)
  : value * World :=
  match given session_id with
  | Some session_id =>
      let w :=
        match PyDict.get session_id (active_sessions w) with
        | Some self => deactivate session_id self w
        | None => w
        end in
      let w := set_sessions (Sql.set_inactive session_id) w in
      let w := set_messages (Sql.delete_messages_of session_id) w in
      (VDict [("success", VBool true)], w)
  | None => (failure "Missing session ID", w)
  end.

(** POST /activate-session *)
Definition activate_session_endpoint (session_id : option string) (w : World)
  : result value * World :=
  match given session_id with
  | Some session_id =>
      match Sql.select_email session_id (sessions w) with
      | Some email =>
          match TempMailSession_init (VStr email) session_id w with
          | (Ok _, w) =>
              (Ok (VDict [("success", VBool true); ("email", VStr email);
                          ("session_id", VStr session_id)]), w)
          | (Raise e, w) => (Raise e, w)
          end
      | None => (Ok (failure "Session not found"), w)
      end
  | None => (Ok (failure "Missing session ID"), w)
  end.

(** POST /export-messages; an absent format defaults to 'json'. *)
Definition mime_types : PyDict.t string :=
  [("json", "application/json"); ("csv", "text/csv"); ("txt", "text/plain")].

Definition export_messages_endpoint (session_id : option string) (format_type : string)
    (w : World) : result value :=
  match given session_id with
  | Some session_id =>
      match export_messages w session_id format_type with
      | Ok content =>
          Ok (VDict [("success", VBool true); ("content", VStr content);
                     ("format", VStr format_type);
                     ("mime_type",
                        VStr (match PyDict.get format_type mime_types with
                              | Some m => m
                              | None => "text/plain"
                              end))])
      | Raise e => Raise e
      end
  | None => Ok (failure "Missing session ID")
  end.

(** POST /clear-database *)
Definition clear_database_endpoint (w : World) : value * World :=
  (VDict [("success", VBool true)], mkWorld [] [] [] (ticks w)).

(** POST /delete-inactive *)

(** The WHERE clause of the purge: [is_active = 0 AND last_activity < ?] *)
Definition purgeable (cutoff : datetime) (r : SessionRow) : bool :=
  (s_is_active r =? 0) && (s_last_activity r <? cutoff).

(** The body of the loop over the selected session ids. *)
Definition purge_session (w : World) (session_id : string) : World :=
  let w := set_messages (Sql.delete_messages_of session_id) w in
  let w := set_sessions (Sql.delete_session session_id) w in
  if PyDict.mem session_id (active_sessions w)
  then set_active_sessions (PyDict.del session_id) w
  else w.

Definition delete_inactive_endpoint (w : World) : value * World :=
  let (now, w) := utcnow w in
  match Datetime.sub now (timedelta_hours 24) with
  | Ok cutoff =>
      let inactive_sessions :=
        map s_session_id (filter (purgeable cutoff) (sessions w)) in
      let w := fold_left purge_session inactive_sessions w in
      (VDict [("success", VBool true);
              ("deleted_count", VInt (Z.of_nat (List.length inactive_sessions)))], w)
  | Raise e => (failure (str_exn e), w)
  end.

(** POST /clear-all-sessions *)

(** The loop over [list(active_sessions.keys())]; [active_sessions[k]]
    raises [KeyError] when [k] is gone. *)
Fixpoint deactivate_each (ks : list string) (w : World) : result unit * World :=
  match ks with
  | [] => (Ok tt, w)
  | k :: rest =>
      match PyDict.get k (active_sessions w) with
      | Some self => deactivate_each rest (deactivate k self w)
      | None => (Raise KeyError, w)
      end
  end.

Definition clear_all_sessions_endpoint (w : World) : value * World :=
  match deactivate_each (PyDict.keys (active_sessions w)) w with
  | (Ok _, w) =>
      let w := set_active_sessions (fun _ => []) w in
      let w := set_sessions Sql.set_all_inactive w in
      (VDict [("success", VBool true)], w)
  | (Raise e, w) => (failure (str_exn e), w)
  end.

(** ** get_session_stats *)

(** SUM(CASE WHEN is_read = 0 THEN 1 ELSE 0 END): NULL over no row. *)
Definition sum_unread (rows : list MessageRow) : option Z :=
  match rows with
  | [] => None
  | _ => Some (fold_left (fun acc m => acc + (if is_read m =? 0 then 1 else 0)) rows 0)
  end.

(** MIN(received_at) and MAX(received_at): NULL over no row. *)
Definition min_received_at (rows : list MessageRow) : option datetime :=
  match rows with
  | [] => None
  | m :: rest => Some (fold_left (fun acc x => Z.min acc (received_at x)) rest (received_at m))
  end.

Definition max_received_at (rows : list MessageRow) : option datetime :=
  match rows with
  | [] => None
  | m :: rest => Some (fold_left (fun acc x => Z.max acc (received_at x)) rest (received_at m))
  end.

(** [x if x else 0] for an aggregate that is an integer or NULL. *)
Definition or_zero (x : option Z) : Z :=
  match x with
  | Some n => if n =? 0 then 0 else n
  | None => 0
  end.

(** [get_session_stats(session_id)] *)
Definition get_session_stats (w : World) (session_id : string) : list (string * value) :=
  let rows := filter (Sql.of_session session_id) (messages w) in
  let session_info := find (Sql.session_is session_id) (sessions w) in
  [("total_messages", VInt (or_zero (Some (Z.of_nat (List.length rows)))));
   ("unread_messages", VInt (or_zero (sum_unread rows)));
   ("first_message", of_text (option_map adapt (min_received_at rows)));
   ("last_message", of_text (option_map adapt (max_received_at rows)));
   ("email", VStr (match session_info with
                   | Some r => s_email r
                   | None => "Unknown"
                   end));
   ("created_at", match session_info with
                  | Some r => VStr (adapt (s_created_at r))
                  | None => VNone
                  end);
   ("active", VBool (PyDict.mem session_id (active_sessions w)))].

(** POST /get-session-stats *)
Definition get_session_stats_endpoint (session_id : option string) (w : World) : value :=
  match given session_id with
  | Some session_id =>
      VDict [("success", VBool true); ("stats", VDict (get_session_stats w session_id))]
  | None => failure "Missing session ID"
  end.

(** POST /get-stats *)
Definition get_stats_endpoint (w : World) : value :=
  let total_messages := or_zero (Some (Z.of_nat (List.length (messages w)))) in
  let unread_messages :=
    or_zero (Some (Z.of_nat (List.length (filter Sql.unread_row (messages w))))) in
  let active_sessions_count :=
    or_zero (Some (Z.of_nat (List.length
                               (filter (fun r => s_is_active r =? 1) (sessions w))))) in
  let deleted_messages := Z.max 0 (total_messages - unread_messages - 100) in
  VDict [("success", VBool true);
         ("stats", VDict [("total_messages", VInt total_messages);
                          ("unread_messages", VInt unread_messages);
                          ("active_sessions", VInt active_sessions_count);
                          ("deleted_messages", VInt deleted_messages)])].

(** ** get_sessions *)

(** GROUP BY s.session_id walks the sessions in the order of the primary
    key index, that is by ascending session id. *)
Fixpoint insert_by_id (r : SessionRow) (l : list SessionRow) : list SessionRow :=
  match l with
  | [] => [r]
  | x :: t => if String.ltb (s_session_id x) (s_session_id r)
              then x :: insert_by_id r t
              else r :: l
  end.

(** ORDER BY s.last_activity DESC: one key, rows with equal keys stay
    in the order they come in. *)
Fixpoint insert_by_activity (r : SessionRow) (l : list SessionRow) : list SessionRow :=
  match l with
  | [] => [r]
  | x :: t => if s_last_activity r <? s_last_activity x
              then x :: insert_by_activity r t
              else r :: l
  end.

(** The session rows as the query of /get-sessions yields them (the
    session id is the primary key, so every group is one row). *)
Definition sessions_by_activity (t : list SessionRow) : list SessionRow :=
  fold_right insert_by_activity [] (fold_right insert_by_id [] t).

(** One entry of the answer of /get-sessions. *)
Definition session_entry (w : World) (r : SessionRow) : value :=
  let joined := filter (Sql.of_session (s_session_id r)) (messages w) in
  VDict [("session_id", VStr (s_session_id r));
         ("email", VStr (s_email r));
         ("created_at", VStr (adapt (s_created_at r)));
         ("last_activity", VStr (adapt (s_last_activity r)));
         ("is_active", VBool (negb (s_is_active r =? 0)));
         ("total_messages", VInt (or_zero (Some (Z.of_nat (List.length joined)))));
         ("unread_messages",
          VInt (or_zero (Some (fold_left
                                 (fun acc m => acc + (if is_read m =? 0 then 1 else 0))
                                 joined 0))));
         ("active", VBool (PyDict.mem (s_session_id r) (active_sessions w)))].

(** POST /get-sessions *)
Definition get_sessions_endpoint (w : World) : value :=
  VDict [("success", VBool true);
         ("sessions", VList (map (session_entry w) (sessions_by_activity (sessions w))))].

(** ** Vocabulary of the specification *)

(** One generation strategy failed: the transport failed, the status is
    not 200, the body does not decode, or the decoded body gives no
    ['email'] entry. *)
Definition strategy_fails (outcome : HttpOutcome) : bool :=
  match outcome with
  | TransportError => true
  | Response status None => true
  | Response status (Some data) =>
      negb (status =? 200)
      || match contains "email" data, getitem "email" data with
         | Ok true, Ok _ => false
         | _, _ => true
         end
  end.

(** The inbox fetch failed: the transport failed or the status is not 200. *)
Definition fetch_failed (outcome : HttpOutcome) : bool :=
  match outcome with
  | TransportError => true
  | Response status _ => negb (status =? 200)
  end.

(** A client that fetches [n] pages of [size] messages of a session,
    at offsets [offset], [offset + size], ..., and puts them end to end. *)
Fixpoint fetch_pages (w : World) (session_id : string) (size offset : Z) (n : nat)
  : result (list MessageView) :=
  match n with
  | O => Ok []
  | S k =>
      match get_session_messages w session_id size offset false with
      | Ok page =>
          match fetch_pages w session_id size (offset + size) k with
          | Ok rest => Ok (listed page ++ rest)%list
          | Raise e => Raise e
          end
      | Raise e => Raise e
      end
  end.

(** One figure of the 'stats' dict of an answer. *)
Definition stat (name : string) (answer : value) : option value :=
  match answer with
  | VDict d =>
      match Py.lookup "stats" d with
      | Some (VDict figures) => Py.lookup name figures
      | _ => None
      end
  | _ => None
  end.

(** The number of stored messages that have been read. *)
Definition read_count (w : World) : Z :=
  Z.of_nat (List.length (filter (fun m => negb (is_read m =? 0)) (messages w))).

(** The identifiers of a listing, in order. *)
Definition listed_ids (r : result Listing) : list string :=
  match r with
  | Ok l => map msg_id (listed l)
  | Raise _ => []
  end.

(** Descending arrival order: [a] may stand before [b]. *)
Definition later_first (a b : MessageRow) : Prop := received_at b <= received_at a.

(** Every live handle sits under its own session id, and a key occurs
    once (what a Python dict gives for free). *)
Definition handles_ok (w : World) : Prop :=
  NoDup (PyDict.keys (active_sessions w))
  /\ Forall (fun kv => session_id (snd kv) = fst kv) (active_sessions w).

(** The primary keys of the two tables. *)
Definition sessions_pk (w : World) : Prop :=
  NoDup (map s_session_id (sessions w)).

Definition messages_pk (w : World) : Prop :=
  NoDup (map message_id (messages w)).

Definition wf (w : World) : Prop :=
  handles_ok w /\ sessions_pk w /\ messages_pk w.

(** One request that can change the state, served from [w]. *)
Inductive step (w : World) : World -> Prop :=
| step_generate_email api uuid_str uuid_hex time_time prefix r w' :
    generate_email_endpoint api uuid_str uuid_hex time_time prefix w = (r, w') ->
    step w w'
| step_check_inbox outcome email session_id r w' :
    check_inbox_endpoint outcome email session_id w = (r, w') -> step w w'
| step_mark_read session_id message_id r w' :
    mark_read_endpoint session_id message_id w = (r, w') -> step w w'
| step_mark_all_read session_id r w' :
    mark_all_read_endpoint session_id w = (r, w') -> step w w'
| step_delete_message session_id message_id r w' :
    delete_message_endpoint session_id message_id w = (r, w') -> step w w'
| step_delete_all_messages session_id r w' :
    delete_all_messages_endpoint session_id w = (r, w') -> step w w'
| step_delete_session session_id r w' :
    delete_session_endpoint session_id w = (r, w') -> step w w'
| step_activate_session session_id r w' :
    activate_session_endpoint session_id w = (r, w') -> step w w'
| step_clear_database r w' :
    clear_database_endpoint w = (r, w') -> step w w'
| step_delete_inactive r w' :
    delete_inactive_endpoint w = (r, w') -> step w w'
| step_clear_all_sessions r w' :
    clear_all_sessions_endpoint w = (r, w') -> step w w'.

(** The states the server can be in, starting from a fresh database. *)
Inductive reachable : World -> Prop :=
| reachable_init : reachable init_world
| reachable_step w w' : reachable w -> step w w' -> reachable w'.

(* ================================================================== *)
(** * Properties *)

(** ** Records and request fields *)

Lemma set_messages_id (f : list MessageRow -> list MessageRow) (w : World) :
  f (messages w) = messages w -> set_messages f w = w.
Proof.
  destruct w as [ss ms hs n]; unfold set_messages; simpl.
  intros ->; reflexivity.
Qed.

Lemma given_some (s : string) : s <> "" -> given (Some s) = Some s.
Proof.
  intros H; unfold given.
  destruct (String.eqb_spec s ""); [contradiction | reflexivity].
Qed.

Lemma map_id_when {A : Type} (p : A -> bool) (f : A -> A) (l : list A) :
  find p l = None -> map (fun x => if p x then f x else x) l = l.
Proof.
  induction l as [|x l IH]; simpl; [reflexivity|].
  destruct (p x); [discriminate|].
  intros H; rewrite IH by exact H; reflexivity.
Qed.

Lemma filter_id_when {A : Type} (p : A -> bool) (l : list A) :
  find p l = None -> filter (fun x => negb (p x)) l = l.
Proof.
  induction l as [|x l IH]; simpl; [reflexivity|].
  destruct (p x); [discriminate|]; simpl.
  intros H; rewrite IH by exact H; reflexivity.
Qed.

Lemma filter_none {A : Type} (p : A -> bool) (l : list A) :
  (forall x, In x l -> p x = false) -> filter p l = [].
Proof.
  induction l as [|x l IH]; simpl; intros H; [reflexivity|].
  rewrite (H x (or_introl eq_refl)). apply IH.
  intros y Hy. apply H. right. exact Hy.
Qed.

Lemma find_none_when {A : Type} (p : A -> bool) (l : list A) :
  (forall x, In x l -> p x = false) -> find p l = None.
Proof.
  induction l as [|x l IH]; simpl; intros H; [reflexivity|].
  rewrite (H x (or_introl eq_refl)). apply IH.
  intros y Hy. apply H. right. exact Hy.
Qed.

Lemma set_sessions_id (f : list SessionRow -> list SessionRow) (w : World) :
  f (sessions w) = sessions w -> set_sessions f w = w.
Proof.
  destruct w as [ss ms hs n]; unfold set_sessions; simpl.
  intros ->; reflexivity.
Qed.

Lemma dict_get_cons {V : Type} (k k' : string) (v : V) (d : PyDict.t V) :
  PyDict.get k ((k', v) :: d) = if String.eqb k' k then Some v else PyDict.get k d.
Proof. reflexivity. Qed.

(** ** Listing *)

(** C4. Whenever [get_session_messages] answers, [has_more] is
    [total > offset + limit], where [total] counts every stored message
    of the session, whatever the unread-only flag; and it answers for
    every limit and offset SQLite can bind. *)
Theorem has_more_correct (w : World) (session_id : string) (limit offset : Z)
    (unread_only : bool) :
  match get_session_messages w session_id limit offset unread_only with
  | Ok r =>
      total r = Z.of_nat (List.length
                  (filter (fun m => String.eqb (m_session_id m) session_id) (messages w)))
      /\ has_more r = (total r >? offset + limit)
  | Raise _ => int64 limit && int64 offset = false
  end.
Proof.
  unfold get_session_messages.
  destruct (int64 limit && int64 offset); simpl; [split|]; reflexivity.
Qed.

(** ** Export *)

(** C10. An export in a format other than 'json', 'csv' and 'txt'
    succeeds with the empty string as content and mime type text/plain. *)
Theorem export_unknown_format (w : World) (session_id format_type : string) :
  session_id <> "" ->
  format_type <> "json" -> format_type <> "csv" -> format_type <> "txt" ->
  export_messages_endpoint (Some session_id) format_type w =
    Ok (VDict [("success", VBool true); ("content", VStr "");
               ("format", VStr format_type); ("mime_type", VStr "text/plain")]).
Proof.
  intros Hs Hj Hc Ht.
  unfold export_messages_endpoint, export_messages.
  rewrite (given_some _ Hs).
  change (get_session_messages w session_id 1000 0 false)
    with (Ok (mkListing
                (map view (Sql.limit_offset 1000 0 (selected w session_id false)))
                (Sql.count_of session_id (messages w))
                (Sql.count_unread_of session_id (messages w))
                (Sql.count_of session_id (messages w) >? 0 + 1000))).
  cbv beta iota.
  apply String.eqb_neq in Hj, Hc, Ht.
  rewrite Hj, Hc, Ht.
  unfold mime_types; rewrite !dict_get_cons.
  rewrite (String.eqb_sym "json"), (String.eqb_sym "csv"), (String.eqb_sym "txt").
  rewrite Hj, Hc, Ht.
  reflexivity.
Qed.

(** ** Checking the inbox *)

Lemma int64_defaults : int64 50 && int64 0 = true.
Proof. reflexivity. Qed.

Lemma get_inbox_failed (outcome : HttpOutcome) (email session_id : string) (w : World) :
  fetch_failed outcome = true ->
  exists extra, get_inbox outcome email session_id w = (inbox_error extra, w).
Proof.
  destruct outcome as [|status body]; simpl; intros H.
  - eexists; reflexivity.
  - rewrite H. eexists; reflexivity.
Qed.

(** Whatever the gateway does, [get_inbox] hands back its error dict or
    a decoded body on which ['messages' in ...] is defined. *)
Lemma get_inbox_shape (outcome : HttpOutcome) (email session_id : string) (w : World) :
  (exists extra w', get_inbox outcome email session_id w = (inbox_error extra, w'))
  \/ (exists data b w', get_inbox outcome email session_id w = (data, w')
                        /\ contains "messages" data = Ok b).
Proof.
  unfold get_inbox.
  destruct outcome as [|status body]; [left; eauto|].
  destruct (negb (status =? 200)); [left; eauto|].
  destruct body as [data|]; [|left; eauto].
  destruct (contains "messages" data) as [[|]|e] eqn:Hin; [| right; eauto | left; eauto].
  destruct (getitem "messages" data) as [msgs|e]; [|left; eauto].
  destruct (truthy msgs); [|right; eauto].
  destruct (store_messages_in_db msgs session_id email w) as [[u|e] w'];
    [right; eauto | left; eauto].
Qed.

(** C8. Given an email and a session id, /check-inbox answers
    success=true with status 'ok' or 'no_messages' whatever the gateway
    did; when the fetch failed, [get_inbox] hands back status 'error' and
    the route still answers 'ok'. *)
Theorem check_inbox_never_reports_error (outcome : HttpOutcome)
    (email session_id : string) (w : World) :
  email <> "" -> session_id <> "" ->
  exists (new_count : Z) (status : string) (w' : World),
    check_inbox_endpoint outcome (Some email) (Some session_id) w
      = (Ok (VDict [("success", VBool true); ("new_count", VInt new_count);
                    ("status", VStr status)]), w')
    /\ (status = "ok" \/ status = "no_messages")
    /\ (fetch_failed outcome = true ->
        status = "ok"
        /\ forall w0, getitem "status" (fst (get_inbox outcome email session_id w0))
                       = Ok (VStr "error")).
Proof.
  intros He Hs.
  unfold check_inbox_endpoint.
  rewrite (given_some _ He), (given_some _ Hs).
  set (w1 := match PyDict.get session_id (active_sessions w) with
             | Some self => update_activity session_id self w
             | None => w
             end).
  assert (Hok : forall extra w2,
             truthy (inbox_error extra) = true
             /\ contains "messages" (inbox_error extra) = Ok true
             /\ getitem "status" (inbox_error extra) = Ok (VStr "error")
             /\ exists r, get_session_messages w2 session_id 50 0 true = Ok r).
  { intros extra w2. repeat split.
    unfold get_session_messages. rewrite int64_defaults. eexists; reflexivity. }
  destruct (fetch_failed outcome) eqn:Hf.
  - destruct (get_inbox_failed outcome email session_id w1 Hf) as [extra Hg].
    rewrite Hg.
    destruct (Hok extra w1) as (Ht & Hc & Hst & r & Hr).
    rewrite Ht, Hc, Hr.
    exists (unread r), "ok", w1.
    split; [reflexivity|]. split; [left; reflexivity|].
    intros _. split; [reflexivity|].
    intros w0.
    destruct (get_inbox_failed outcome email session_id w0 Hf) as [extra0 Hg0].
    rewrite Hg0. reflexivity.
  - destruct (get_inbox_shape outcome email session_id w1)
      as [(extra & w2 & Hg) | (data & b & w2 & Hg & Hin)]; rewrite Hg.
    + destruct (Hok extra w2) as (Ht & Hc & _ & r & Hr).
      rewrite Ht, Hc, Hr.
      exists (unread r), "ok", w2.
      split; [reflexivity|]. split; [left; reflexivity | discriminate].
    + destruct (truthy data).
      * rewrite Hin. destruct b.
        -- destruct (Hok ("code", VNone) w2) as (_ & _ & _ & r & Hr).
           rewrite Hr.
           exists (unread r), "ok", w2.
           split; [reflexivity|]. split; [left; reflexivity | discriminate].
        -- exists 0, "no_messages", w2.
           split; [reflexivity|]. split; [right; reflexivity | discriminate].
      * exists 0, "no_messages", w2.
        split; [reflexivity|]. split; [right; reflexivity | discriminate].
Qed.

(** ** Dicts *)

Lemma dict_get_set_same {V : Type} (k : string) (v : V) (d : PyDict.t V) :
  PyDict.get k (PyDict.set k v d) = Some v.
Proof.
  induction d as [|[k' v'] d IH]; simpl.
  - rewrite String.eqb_refl; reflexivity.
  - destruct (String.eqb k' k) eqn:E; simpl.
    + rewrite String.eqb_refl; reflexivity.
    + rewrite E; exact IH.
Qed.

Lemma dict_get_set_other {V : Type} (k k0 : string) (v : V) (d : PyDict.t V) :
  k0 <> k -> PyDict.get k0 (PyDict.set k v d) = PyDict.get k0 d.
Proof.
  intros Hne. induction d as [|[k' v'] d IH]; simpl.
  - destruct (String.eqb_spec k k0); [congruence | reflexivity].
  - destruct (String.eqb_spec k' k) as [->|Hk]; simpl.
    + destruct (String.eqb_spec k k0); [congruence | reflexivity].
    + destruct (String.eqb k' k0); [reflexivity | exact IH].
Qed.

Lemma dict_get_del_other {V : Type} (k k0 : string) (d : PyDict.t V) :
  k0 <> k -> PyDict.get k0 (PyDict.del k d) = PyDict.get k0 d.
Proof.
  intros Hne. induction d as [|[k' v'] d IH]; simpl; [reflexivity|].
  destruct (String.eqb_spec k' k) as [->|Hk]; simpl.
  - destruct (String.eqb_spec k k0); [congruence | reflexivity].
  - destruct (String.eqb k' k0); [reflexivity | exact IH].
Qed.

Lemma dict_get_in {V : Type} (k : string) (v : V) (d : PyDict.t V) :
  PyDict.get k d = Some v -> In (k, v) d.
Proof.
  induction d as [|[k' v'] d IH]; simpl; [discriminate|].
  destruct (String.eqb_spec k' k) as [->|Hk].
  - intros [= ->]; left; reflexivity.
  - intros H; right; exact (IH H).
Qed.

Lemma dict_in_keys_get {V : Type} (k : string) (d : PyDict.t V) :
  In k (PyDict.keys d) -> exists v, PyDict.get k d = Some v.
Proof.
  unfold PyDict.keys.
  induction d as [|[k' v'] d IH]; simpl; [contradiction|].
  destruct (String.eqb_spec k' k) as [->|Hk]; [eauto|].
  intros [H|H]; [contradiction | exact (IH H)].
Qed.

(** ** Deactivating sessions *)

Lemma deactivate_messages (k : string) (self : TempMailSession) (w : World) :
  messages (deactivate k self w) = messages w.
Proof.
  unfold deactivate; simpl.
  destruct (PyDict.mem _ _); reflexivity.
Qed.

Lemma set_inactive_ids (sid : string) (t : list SessionRow) :
  map s_session_id (Sql.set_inactive sid t) = map s_session_id t.
Proof.
  unfold Sql.set_inactive. rewrite map_map. apply map_ext.
  intros r; destruct (Sql.session_is sid r); reflexivity.
Qed.

Lemma deactivate_session_ids (k : string) (self : TempMailSession) (w : World) :
  map s_session_id (sessions (deactivate k self w)) = map s_session_id (sessions w).
Proof.
  unfold deactivate; simpl.
  destruct (PyDict.mem _ _); simpl; apply set_inactive_ids.
Qed.

Lemma deactivate_other_handles (k k0 : string) (self : TempMailSession) (w : World) :
  session_id self = k -> k0 <> k ->
  PyDict.get k0 (active_sessions (deactivate k self w))
    = PyDict.get k0 (active_sessions w).
Proof.
  intros Hself Hne. unfold deactivate; simpl. rewrite Hself.
  destruct (PyDict.mem _ _); simpl.
  - rewrite dict_get_del_other, dict_get_set_other by exact Hne. reflexivity.
  - rewrite dict_get_set_other by exact Hne. reflexivity.
Qed.

(** The loop of /clear-all-sessions runs to its end and touches no
    message. *)
Lemma deactivate_each_ok (ks : list string) :
  NoDup ks ->
  forall w : World,
    (forall k, In k ks ->
       exists self, PyDict.get k (active_sessions w) = Some self /\ session_id self = k) ->
    exists w', deactivate_each ks w = (Ok tt, w')
               /\ messages w' = messages w
               /\ map s_session_id (sessions w') = map s_session_id (sessions w).
Proof.
  induction 1 as [|k ks Hnotin Hnodup IH]; intros w Hall; simpl.
  - eauto.
  - destruct (Hall k (or_introl eq_refl)) as (self & Hget & Hself).
    rewrite Hget.
    destruct (IH (deactivate k self w)) as (w' & Hrun & Hmsgs & Hids).
    + intros k0 Hin.
      assert (k0 <> k) by (intros ->; contradiction).
      rewrite deactivate_other_handles by assumption.
      apply Hall; right; exact Hin.
    + exists w'. split; [exact Hrun|]. split.
      * rewrite Hmsgs. apply deactivate_messages.
      * rewrite Hids. apply deactivate_session_ids.
Qed.

Lemma set_all_inactive_spec (t : list SessionRow) :
  Forall (fun r => s_is_active r = 0) (Sql.set_all_inactive t)
  /\ map s_session_id (Sql.set_all_inactive t) = map s_session_id t.
Proof.
  unfold Sql.set_all_inactive. split.
  - apply Forall_forall. intros r Hin.
    apply in_map_iff in Hin as (r0 & <- & _). reflexivity.
  - rewrite map_map. reflexivity.
Qed.

(** C6. /clear-all-sessions marks every session row inactive and empties
    [active_sessions] but leaves table [messages] as it was;
    /delete-session deletes every message of its session (and only
    those). *)
Theorem clear_all_keeps_messages (w : World) (session_id : string) :
  handles_ok w -> session_id <> "" ->
  (exists w',
      clear_all_sessions_endpoint w = (VDict [("success", VBool true)], w')
      /\ Forall (fun r => s_is_active r = 0) (sessions w')
      /\ map s_session_id (sessions w') = map s_session_id (sessions w)
      /\ active_sessions w' = []
      /\ messages w' = messages w)
  /\ (exists w',
      delete_session_endpoint (Some session_id) w = (VDict [("success", VBool true)], w')
      /\ messages w'
         = filter (fun m => negb (String.eqb (m_session_id m) session_id)) (messages w)
      /\ filter (fun m => String.eqb (m_session_id m) session_id) (messages w') = []).
Proof.
  intros [Hnodup Hkeys] Hsid. split.
  - unfold clear_all_sessions_endpoint.
    destruct (deactivate_each_ok _ Hnodup w) as (w1 & Hrun & Hmsgs & Hids1).
    { intros k Hin.
      destruct (dict_in_keys_get _ _ Hin) as [self Hget].
      exists self. split; [exact Hget|].
      apply dict_get_in in Hget.
      rewrite Forall_forall in Hkeys. exact (Hkeys _ Hget). }
    rewrite Hrun. eexists. split; [reflexivity|]. simpl.
    destruct (set_all_inactive_spec (sessions w1)) as [Hall Hids].
    split; [exact Hall|]. split; [|split; [reflexivity | exact Hmsgs]].
    rewrite Hids. exact Hids1.
  - unfold delete_session_endpoint. rewrite (given_some _ Hsid).
    eexists. split; [reflexivity|]. simpl.
    assert (Hm : messages (match PyDict.get session_id (active_sessions w) with
                           | Some self => deactivate session_id self w
                           | None => w
                           end) = messages w).
    { destruct (PyDict.get _ _); [apply deactivate_messages | reflexivity]. }
    rewrite Hm. clear Hm. unfold Sql.delete_messages_of, Sql.of_session.
    split; [reflexivity|].
    induction (messages w) as [|m t IH]; simpl; [reflexivity|].
    destruct (String.eqb (m_session_id m) session_id) eqn:E; simpl;
      [exact IH | rewrite E; exact IH].
Qed.

(** ** Purging inactive sessions *)

Lemma filter_filter {A : Type} (p q : A -> bool) (l : list A) :
  filter p (filter q l) = filter (fun x => q x && p x) l.
Proof.
  induction l as [|x l IH]; simpl; [reflexivity|].
  destruct (q x); simpl; [destruct (p x)|]; rewrite IH; reflexivity.
Qed.

Lemma filter_all {A : Type} (p : A -> bool) (l : list A) :
  (forall x, In x l -> p x = true) -> filter p l = l.
Proof.
  induction l as [|x l IH]; simpl; intros H; [reflexivity|].
  rewrite (H x (or_introl eq_refl)), IH; [reflexivity|].
  intros y Hy; apply H; right; exact Hy.
Qed.

Lemma purge_session_tables (w : World) (sid : string) :
  sessions (purge_session w sid) = Sql.delete_session sid (sessions w)
  /\ messages (purge_session w sid) = Sql.delete_messages_of sid (messages w).
Proof.
  unfold purge_session; simpl.
  destruct (PyDict.mem _ _); split; reflexivity.
Qed.

(** The loop of /delete-inactive over the selected ids. *)
Lemma purge_fold (ids : list string) (w : World) :
  sessions (fold_left purge_session ids w)
    = filter (fun r => negb (existsb (String.eqb (s_session_id r)) ids)) (sessions w)
  /\ messages (fold_left purge_session ids w)
    = filter (fun m => negb (existsb (String.eqb (m_session_id m)) ids)) (messages w).
Proof.
  revert w. induction ids as [|sid ids IH]; intros w; simpl.
  - split; symmetry; apply filter_all; reflexivity.
  - destruct (IH (purge_session w sid)) as [Hs Hm].
    destruct (purge_session_tables w sid) as [Hs1 Hm1].
    rewrite Hs, Hm, Hs1, Hm1.
    unfold Sql.delete_session, Sql.delete_messages_of, Sql.session_is, Sql.of_session.
    rewrite !filter_filter.
    split; apply filter_ext; intros x; rewrite negb_orb; reflexivity.
Qed.

Lemma pk_unique {A : Type} (key : A -> string) (l : list A) (x y : A) :
  NoDup (map key l) -> In x l -> In y l -> key x = key y -> x = y.
Proof.
  induction l as [|a l IH]; simpl; [contradiction|].
  intros Hnd Hx Hy Hk. inversion Hnd as [|? ? Hnotin Hnd']; subst.
  destruct Hx as [->|Hx], Hy as [->|Hy].
  - reflexivity.
  - exfalso; apply Hnotin. rewrite Hk. apply in_map; exact Hy.
  - exfalso; apply Hnotin. rewrite <- Hk. apply in_map; exact Hx.
  - apply IH; assumption.
Qed.

(** With the primary key in force, a row's id is among the selected ids
    exactly when the row itself was selected. *)
Lemma selected_id_iff (p : SessionRow -> bool) (t : list SessionRow) (r : SessionRow) :
  NoDup (map s_session_id t) -> In r t ->
  existsb (String.eqb (s_session_id r)) (map s_session_id (filter p t)) = p r.
Proof.
  intros Hnd Hin.
  destruct (p r) eqn:Hp.
  - apply existsb_exists. exists (s_session_id r).
    split; [|apply String.eqb_refl].
    apply in_map. apply filter_In. split; assumption.
  - apply not_true_is_false. intros H.
    apply existsb_exists in H as (sid & Hsid & Heq).
    apply String.eqb_eq in Heq.
    apply in_map_iff in Hsid as (r' & Hid & Hr').
    apply filter_In in Hr' as [Hr' Hp'].
    assert (r' = r) by (apply (pk_unique s_session_id t); congruence).
    congruence.
Qed.

(** C7. /delete-inactive removes exactly the session rows with
    [is_active = 0] and [last_activity] before now minus 24 hours
    (24 * 3600 * 1000000 of the microseconds a datetime counts),
    together with the messages of those sessions; every other session row
    and message stays, also a row whose last activity is exactly 24 hours
    old or later; the answer counts the removed sessions. *)
Theorem delete_inactive_purges (w : World) :
  sessions_pk w ->
  24 * 3600 * 1000000 <= clock (ticks w) <= max_datetime ->
  let cutoff := clock (ticks w) - 24 * 3600 * 1000000 in
  let old := fun r => (s_is_active r =? 0) && (s_last_activity r <? cutoff) in
  exists w',
    delete_inactive_endpoint w
      = (VDict [("success", VBool true);
                ("deleted_count", VInt (Z.of_nat (List.length (filter old (sessions w)))))],
         w')
    /\ sessions w' = filter (fun r => negb (old r)) (sessions w)
    /\ messages w'
       = filter (fun m => negb (existsb (fun r => String.eqb (m_session_id m) (s_session_id r))
                                        (filter old (sessions w))))
                (messages w).
Proof.
  intros Hpk Hrange cutoff old.
  unfold delete_inactive_endpoint, utcnow, Datetime.sub.
  change (timedelta_hours 24) with (24 * 3600 * 1000000).
  fold cutoff.
  assert (Hin : (0 <=? cutoff) && (cutoff <=? max_datetime) = true).
  { subst cutoff. apply andb_true_intro.
    split; [apply Z.leb_le | apply Z.leb_le]; lia. }
  rewrite Hin. cbv beta iota zeta.
  change (purgeable cutoff) with old.
  set (w1 := mkWorld (sessions w) (messages w) (active_sessions w) (S (ticks w))).
  change (sessions w1) with (sessions w).
  rewrite length_map.
  eexists. split; [reflexivity|].
  destruct (purge_fold (map s_session_id (filter old (sessions w))) w1) as [Hs Hm].
  rewrite Hs, Hm. simpl sessions. simpl messages.
  split.
  - apply filter_ext_in. intros r Hr.
    rewrite selected_id_iff by assumption. reflexivity.
  - apply filter_ext. intros m. f_equal. clear Hs Hm.
    induction (filter old (sessions w)) as [|r t IH]; simpl; [reflexivity|].
    rewrite IH. reflexivity.
Qed.

(** ** Reactivating a session *)

(** C9. /activate-session on a known session replaces its row: the new
    row keeps the email, has [created_at] and [last_activity] both at the
    current clock reading and [is_active = 1], whatever the old row said;
    a fresh handle is installed. *)
Theorem activate_resets_timestamps (w : World) (session_id email : string) :
  session_id <> "" ->
  Sql.select_email session_id (sessions w) = Some email ->
  let now := clock (ticks w) in
  exists w',
    activate_session_endpoint (Some session_id) w
      = (Ok (VDict [("success", VBool true); ("email", VStr email);
                    ("session_id", VStr session_id)]), w')
    /\ sessions w'
       = (filter (fun r => negb (String.eqb (s_session_id r) session_id)) (sessions w)
          ++ [mkSessionRow session_id email now now 1])%list
    /\ (forall r, In r (sessions w') -> s_session_id r = session_id ->
          s_created_at r = now /\ s_last_activity r = now /\ s_is_active r = 1)
    /\ PyDict.get session_id (active_sessions w')
       = Some (mkTempMailSession (VStr email) session_id now (clock (S (ticks w)))
                                 0 true VNone)
    /\ messages w' = messages w.
Proof.
  intros Hsid Hknown now.
  unfold activate_session_endpoint.
  rewrite (given_some _ Hsid), Hknown.
  unfold TempMailSession_init, utcnow; simpl.
  eexists. split; [reflexivity|]. simpl.
  split; [reflexivity|]. split; [|split; [apply dict_get_set_same | reflexivity]].
  intros r Hin Hid.
  unfold Sql.insert_or_replace_session in Hin.
  apply in_app_or in Hin as [Hin|[<-|[]]].
  - apply filter_In in Hin as [_ Hne].
    unfold Sql.session_is in Hne; simpl in Hne.
    rewrite Hid, String.eqb_refl in Hne. discriminate.
  - repeat split.
Qed.

(** ** Order of a listing and pagination *)

Lemma insert_desc_perm (r : MessageRow) (l : list MessageRow) :
  Permutation (Sql.insert_desc r l) (r :: l).
Proof.
  induction l as [|x l IH]; simpl; [reflexivity|].
  destruct (received_at r <? received_at x); [|reflexivity].
  rewrite IH. apply perm_swap.
Qed.

Lemma order_by_perm (l : list MessageRow) :
  Permutation (Sql.order_by_received_at_desc l) l.
Proof.
  induction l as [|x l IH]; simpl; [reflexivity|].
  rewrite insert_desc_perm. constructor; exact IH.
Qed.

Lemma insert_desc_sorted (r : MessageRow) (l : list MessageRow) :
  Sorted later_first l -> Sorted later_first (Sql.insert_desc r l).
Proof.
  induction l as [|x l IH]; simpl; intros Hs.
  - repeat constructor.
  - destruct (Z.ltb_spec (received_at r) (received_at x)) as [Hlt|Hge].
    + apply Sorted_inv in Hs as [Hs Hhd].
      constructor; [exact (IH Hs)|].
      destruct l as [|y l]; simpl.
      * constructor; unfold later_first; lia.
      * destruct (Z.ltb_spec (received_at r) (received_at y)).
        -- constructor. inversion Hhd; assumption.
        -- constructor; unfold later_first; lia.
    + constructor; [exact Hs|]. constructor; unfold later_first; lia.
Qed.

Lemma order_by_sorted (l : list MessageRow) :
  StronglySorted later_first (Sql.order_by_received_at_desc l).
Proof.
  apply Sorted_StronglySorted.
  - intros a b c; unfold later_first; lia.
  - induction l as [|x l IH]; simpl; [constructor|].
    apply insert_desc_sorted; exact IH.
Qed.

(** The sort is stable: rows of one arrival time keep the order they
    have in the table. *)
Lemma insert_desc_stable (t : datetime) (r : MessageRow) (l : list MessageRow) :
  filter (fun m => received_at m =? t) (Sql.insert_desc r l)
  = filter (fun m => received_at m =? t) (r :: l).
Proof.
  induction l as [|x l IH]; [reflexivity|].
  simpl Sql.insert_desc.
  destruct (Z.ltb_spec (received_at r) (received_at x)) as [Hlt|Hge]; [|reflexivity].
  simpl in *. rewrite IH.
  destruct (Z.eqb_spec (received_at r) t), (Z.eqb_spec (received_at x) t);
    try reflexivity; lia.
Qed.

Lemma order_by_stable (t : datetime) (l : list MessageRow) :
  filter (fun m => received_at m =? t) (Sql.order_by_received_at_desc l)
  = filter (fun m => received_at m =? t) l.
Proof.
  induction l as [|x l IH]; [reflexivity|].
  simpl Sql.order_by_received_at_desc.
  rewrite insert_desc_stable. simpl. rewrite IH. reflexivity.
Qed.

Lemma firstn_add_skipn {A : Type} (a b : nat) (l : list A) :
  firstn (a + b) l = (firstn a l ++ firstn b (skipn a l))%list.
Proof.
  revert l; induction a as [|a IH]; intros l; [reflexivity|].
  destruct l as [|x l]; simpl.
  - rewrite firstn_nil; reflexivity.
  - rewrite IH; reflexivity.
Qed.

Lemma pow63 : 2 ^ 63 = 9223372036854775808.
Proof. reflexivity. Qed.

Lemma int64_range (z : Z) : 0 <= z < 2 ^ 63 -> int64 z = true.
Proof.
  intros H. unfold int64. rewrite pow63 in *.
  apply andb_true_intro; split; [apply Z.leb_le | apply Z.ltb_lt]; lia.
Qed.

(** [n] pages from [offset] on are the next [n * size] rows of the
    listing. *)
Lemma fetch_pages_firstn (w : World) (session_id : string) (size : Z) (n : nat) :
  0 < size ->
  forall offset : Z,
    0 <= offset -> offset + size * Z.of_nat n < 2 ^ 63 ->
    fetch_pages w session_id size offset n
    = Ok (map view (firstn (n * Z.to_nat size)
                           (skipn (Z.to_nat offset) (selected w session_id false)))).
Proof.
  intros Hsize. induction n as [|n IH]; intros offset Hoff Hmax; [reflexivity|].
  simpl fetch_pages. unfold get_session_messages.
  rewrite !int64_range by nia. cbv beta iota zeta. simpl andb. cbv iota.
  rewrite IH by nia. simpl listed.
  unfold Sql.limit_offset.
  destruct (Z.ltb_spec size 0) as [?|_]; [lia|].
  rewrite <- map_app. do 2 f_equal.
  rewrite Z2Nat.inj_add by lia.
  rewrite (Nat.add_comm (Z.to_nat offset)), <- skipn_skipn.
  change (S n * Z.to_nat size)%nat with (Z.to_nat size + n * Z.to_nat size)%nat.
  symmetry. apply firstn_add_skipn.
Qed.

(** C3, as the code has it.  A listing is the session's stored messages
    ordered by arrival time, latest first, and nothing else: messages
    that arrived at the same time come in the order of the table, not in
    the order of their identifiers.  Pages of a fixed size at offsets 0,
    size, 2*size, ... put end to end are exactly that listing: every
    message of the session once, in descending arrival order. *)
Theorem pages_reproduce_listing (w : World) (session_id : string) (size : Z) (n : nat) :
  0 < size -> size * Z.of_nat n < 2 ^ 63 ->
  Z.of_nat (List.length (filter (fun m => String.eqb (m_session_id m) session_id)
                                (messages w))) <= size * Z.of_nat n ->
  exists rows : list MessageRow,
    fetch_pages w session_id size 0 n = Ok (map view rows)
    /\ Permutation rows
         (filter (fun m => String.eqb (m_session_id m) session_id) (messages w))
    /\ StronglySorted (fun a b => received_at b <= received_at a) rows
    /\ (forall t : datetime,
          filter (fun m => received_at m =? t) rows
          = filter (fun m => (received_at m =? t) && String.eqb (m_session_id m) session_id)
                   (messages w)).
Proof.
  intros Hsize Hmax Hcount.
  exists (selected w session_id false).
  assert (Hsel : selected w session_id false
                 = Sql.order_by_received_at_desc
                     (filter (fun m => String.eqb (m_session_id m) session_id) (messages w))).
  { unfold selected. f_equal. apply filter_ext.
    intros m. unfold Sql.of_session. apply andb_true_r. }
  split; [|split; [|split]].
  - rewrite fetch_pages_firstn by lia.
    simpl skipn. do 2 f_equal. apply firstn_all2.
    rewrite Hsel, (Permutation_length (order_by_perm _)). nia.
  - rewrite Hsel. apply order_by_perm.
  - rewrite Hsel. apply order_by_sorted.
  - intros t. rewrite Hsel, order_by_stable, filter_filter.
    apply filter_ext. intros m. apply andb_comm.
Qed.

(** ** Address generation *)

Lemma try_strategies_all_fail (api : list Z -> HttpOutcome) (l : list (list Z)) :
  (forall st, In st l -> strategy_fails (api st) = true) ->
  try_strategies api l = VNone.
Proof.
  induction l as [|st l IH]; intros Hall; simpl; [reflexivity|].
  assert (Hrest : try_strategies api l = VNone)
    by (apply IH; intros st' Hin; apply Hall; right; exact Hin).
  specialize (Hall st (or_introl eq_refl)).
  destruct (api st) as [|status [data|]]; simpl in Hall; try exact Hrest.
  destruct (status =? 200); simpl in Hall; [|exact Hrest].
  destruct (contains "email" data) as [[|]|e]; try exact Hrest.
  destruct (getitem "email" data); [discriminate | exact Hrest].
Qed.

(** On a string the prefix step always goes through and gives a string. *)
Lemma apply_prefix_str (custom_prefix : value) (e : string) :
  exists e', apply_prefix custom_prefix (VStr e) = Ok (VStr e')
             /\ (truthy custom_prefix = false -> e' = e).
Proof.
  unfold apply_prefix.
  destruct (truthy custom_prefix); [|eauto].
  simpl contains.
  destruct (PyStr.contains "@" e); [|exists e; split; [reflexivity | discriminate]].
  destruct (PyStr.split_at e) as [[local_part domain]|];
    eexists; (split; [reflexivity | discriminate]).
Qed.

(** C2, as the code has it.  When every strategy fails, [generate_email]
    returns (no exception) an address made of a random token and the
    placeholder domain, with a session id and a live session, but its
    result has no 'fallback' entry and /generate-email answers
    [fallback: false]; only the except branch sets the flag. *)
Theorem fallback_not_flagged (api : list Z -> HttpOutcome) (uuid_str uuid_hex : string)
    (time_time : Z) (custom_prefix : value) (w : World) :
  (forall st, In st strategies -> strategy_fails (api st) = true) ->
  exists (address sid : string) (w' : World),
    generate_email api uuid_str uuid_hex time_time custom_prefix w
      = (Ok [("email", VStr address); ("session_id", VStr sid);
             ("custom", VBool (is_not_None custom_prefix))], w')
    /\ (truthy custom_prefix = false ->
        address = PyStr.take 10 (md5_hexdigest uuid_str) ++ "@tempmail.tmp")
    /\ PyDict.mem sid (active_sessions w') = true
    /\ generate_email_endpoint api uuid_str uuid_hex time_time custom_prefix w
       = (Ok (VDict [("success", VBool true); ("email", VStr address);
                     ("session_id", VStr sid);
                     ("custom", VBool (is_not_None custom_prefix));
                     ("fallback", VBool false)]), w').
Proof.
  intros Hall.
  unfold generate_email_endpoint, generate_email.
  rewrite (try_strategies_all_fail api strategies Hall).
  simpl truthy. cbv beta iota zeta. simpl negb. cbv iota.
  destruct (apply_prefix_str custom_prefix
              (PyStr.take 10 (md5_hexdigest uuid_str) ++ "@tempmail.tmp"))
    as (address & Hprefix & Hplain).
  rewrite Hprefix.
  unfold TempMailSession_init, utcnow. simpl.
  do 3 eexists. split; [reflexivity|]. split; [exact Hplain|].
  split; [|reflexivity].
  unfold PyDict.mem, set_active_sessions. simpl active_sessions.
  rewrite dict_get_set_same. reflexivity.
Qed.

(** ** Ingestion *)

Lemma message_exists_app (mid : string) (t : list MessageRow) (row : MessageRow) :
  Sql.message_exists mid (t ++ [row])
  = Sql.message_exists mid t || String.eqb (message_id row) mid.
Proof.
  unfold Sql.message_exists. rewrite existsb_app. simpl.
  rewrite orb_false_r. reflexivity.
Qed.

Lemma count_of_app (sid : string) (t : list MessageRow) (row : MessageRow) :
  m_session_id row = sid ->
  Sql.count_of sid (t ++ [row]) = Sql.count_of sid t + 1.
Proof.
  intros Hsid. unfold Sql.count_of, Sql.of_session.
  rewrite filter_app, length_app. simpl.
  rewrite Hsid, String.eqb_refl. simpl. lia.
Qed.

(** One message whose derived id is new and whose fields bind is
    inserted, stamped with the clock reading of that moment. *)
Lemma store_message_fresh (w : World) (msg : value) (session_id recipient_email : string)
    (sender subject preview : value) (full : string) (a b c : option string) :
  extract msg = (sender, subject, preview, full) ->
  bind_text sender = Ok a -> bind_text subject = Ok b -> bind_text preview = Ok c ->
  let now := clock (ticks w) in
  let mid := derive_message_id sender subject preview now in
  Sql.message_exists mid (messages w) = false ->
  store_message session_id recipient_email w msg
  = mkWorld (sessions w)
            (messages w ++ [mkMessageRow mid session_id a recipient_email b c full now 0])
            (active_sessions w) (S (ticks w)).
Proof.
  intros Hex Ha Hb Hc now mid Hnew.
  unfold store_message, utcnow. rewrite Hex. cbv beta iota zeta.
  simpl messages. simpl ticks. fold now. fold mid.
  rewrite Hnew, Ha, Hb, Hc.
  unfold Sql.insert_message. simpl message_id. rewrite Hnew.
  reflexivity.
Qed.

(** One message whose derived id is already stored changes no table. *)
Lemma store_message_known (w : World) (msg : value) (session_id recipient_email : string)
    (sender subject preview : value) (full : string) :
  extract msg = (sender, subject, preview, full) ->
  Sql.message_exists (derive_message_id sender subject preview (clock (ticks w)))
                     (messages w) = true ->
  store_message session_id recipient_email w msg
  = mkWorld (sessions w) (messages w) (active_sessions w) (S (ticks w)).
Proof.
  intros Hex Hknown.
  unfold store_message, utcnow. rewrite Hex. cbv beta iota zeta.
  simpl messages. simpl ticks. rewrite Hknown. reflexivity.
Qed.

(** C1, as the code has it.  The derived id contains the clock reading
    taken while the message is processed, so a second ingestion of the
    same batch at another instant derives another id, finds no row with
    it and inserts the message again: the session's count goes up by one
    on each ingestion. *)
Theorem reingestion_duplicates (w : World) (msg : value)
    (session_id recipient_email : string)
    (sender subject preview : value) (full : string) (a b c : option string) :
  extract msg = (sender, subject, preview, full) ->
  bind_text sender = Ok a -> bind_text subject = Ok b -> bind_text preview = Ok c ->
  let id1 := derive_message_id sender subject preview (clock (ticks w)) in
  let id2 := derive_message_id sender subject preview (clock (S (ticks w))) in
  Sql.message_exists id1 (messages w) = false ->
  Sql.message_exists id2 (messages w) = false ->
  id1 <> id2 ->
  exists once twice : World,
    store_messages_in_db (VList [msg]) session_id recipient_email w = (Ok tt, once)
    /\ store_messages_in_db (VList [msg]) session_id recipient_email once = (Ok tt, twice)
    /\ Sql.count_of session_id (messages once) = Sql.count_of session_id (messages w) + 1
    /\ Sql.count_of session_id (messages twice) = Sql.count_of session_id (messages w) + 2.
Proof.
  intros Hex Ha Hb Hc id1 id2 Hnew1 Hnew2 Hdiff.
  pose proof (store_message_fresh w msg session_id recipient_email _ _ _ _ _ _ _
                Hex Ha Hb Hc Hnew1) as H1.
  fold id1 in H1.
  set (row1 := mkMessageRow id1 session_id a recipient_email b c full (clock (ticks w)) 0)
    in H1.
  set (once := mkWorld (sessions w) (messages w ++ [row1]) (active_sessions w) (S (ticks w)))
    in H1.
  assert (Hnew : Sql.message_exists
                   (derive_message_id sender subject preview (clock (ticks once)))
                   (messages once) = false).
  { simpl. fold id2. rewrite message_exists_app, Hnew2. simpl.
    apply String.eqb_neq. exact Hdiff. }
  pose proof (store_message_fresh once msg session_id recipient_email _ _ _ _ _ _ _
                Hex Ha Hb Hc Hnew) as H2.
  exists once. eexists.
  unfold store_messages_in_db, iter. cbn [fold_left].
  rewrite H1, H2.
  split; [reflexivity|]. split; [reflexivity|].
  simpl messages. rewrite !count_of_app by reflexivity.
  split; lia.
Qed.

(** The existence check only helps when the second ingestion reads the
    very same instant off the clock. *)
Lemma reingestion_same_instant (w : World) (msg : value)
    (session_id recipient_email : string)
    (sender subject preview : value) (full : string) (a b c : option string) :
  extract msg = (sender, subject, preview, full) ->
  bind_text sender = Ok a -> bind_text subject = Ok b -> bind_text preview = Ok c ->
  Sql.message_exists (derive_message_id sender subject preview (clock (ticks w)))
                     (messages w) = false ->
  clock (S (ticks w)) = clock (ticks w) ->
  exists once twice : World,
    store_messages_in_db (VList [msg]) session_id recipient_email w = (Ok tt, once)
    /\ store_messages_in_db (VList [msg]) session_id recipient_email once = (Ok tt, twice)
    /\ messages twice = messages once.
Proof.
  intros Hex Ha Hb Hc Hnew1 Hsame.
  pose proof (store_message_fresh w msg session_id recipient_email _ _ _ _ _ _ _
                Hex Ha Hb Hc Hnew1) as H1.
  cbv zeta in H1.
  set (once := mkWorld _ _ _ _) in H1.
  assert (H2 : store_message session_id recipient_email once msg
               = mkWorld (sessions once) (messages once) (active_sessions once)
                         (S (ticks once))).
  { apply (store_message_known once msg session_id recipient_email _ _ _ _ Hex).
    simpl. rewrite Hsame, message_exists_app. simpl.
    rewrite String.eqb_refl. apply orb_true_r. }
  exists once. eexists.
  unfold store_messages_in_db, iter. cbn [fold_left].
  rewrite H1, H2.
  split; [reflexivity|]. split; reflexivity.
Qed.

(** ** The invariants hold in every reachable state *)

Lemma dict_set_keys {V : Type} (k k0 : string) (v : V) (d : PyDict.t V) :
  In k0 (PyDict.keys (PyDict.set k v d)) -> k0 = k \/ In k0 (PyDict.keys d).
Proof.
  unfold PyDict.keys.
  induction d as [|[k' v'] d IH]; simpl.
  - intros [<-|[]]; left; reflexivity.
  - destruct (String.eqb_spec k' k) as [->|Hk]; simpl.
    + intros [<-|H]; [left; reflexivity | right; right; exact H].
    + intros [<-|H]; [right; left; reflexivity|].
      destruct (IH H); [left | right; right]; assumption.
Qed.

Lemma dict_set_nodup {V : Type} (k : string) (v : V) (d : PyDict.t V) :
  NoDup (PyDict.keys d) -> NoDup (PyDict.keys (PyDict.set k v d)).
Proof.
  induction d as [|[k' v'] d IH]; simpl; intros Hnd.
  - constructor; [intros [] | constructor].
  - inversion Hnd as [|? ? Hnotin Hnd']; subst.
    destruct (String.eqb_spec k' k) as [->|Hk]; simpl.
    + constructor; assumption.
    + constructor; [|exact (IH Hnd')].
      intros Hin. apply dict_set_keys in Hin as [->|Hin]; [congruence | contradiction].
Qed.

Lemma dict_set_forall {V : Type} (P : string * V -> Prop) (k : string) (v : V)
    (d : PyDict.t V) :
  Forall P d -> P (k, v) -> Forall P (PyDict.set k v d).
Proof.
  intros Hd Hkv. induction Hd as [|[k' v'] d Hx Hd IH]; simpl.
  - constructor; [exact Hkv | constructor].
  - destruct (String.eqb k' k); constructor; assumption.
Qed.

Lemma dict_del_keys {V : Type} (k k0 : string) (d : PyDict.t V) :
  In k0 (PyDict.keys (PyDict.del k d)) -> In k0 (PyDict.keys d).
Proof.
  unfold PyDict.keys.
  induction d as [|[k' v'] d IH]; simpl; [intros []|].
  destruct (String.eqb k' k); simpl.
  - intros H; right; exact H.
  - intros [<-|H]; [left; reflexivity | right; exact (IH H)].
Qed.

Lemma dict_del_nodup {V : Type} (k : string) (d : PyDict.t V) :
  NoDup (PyDict.keys d) -> NoDup (PyDict.keys (PyDict.del k d)).
Proof.
  induction d as [|[k' v'] d IH]; simpl; intros Hnd; [constructor|].
  inversion Hnd as [|? ? Hnotin Hnd']; subst.
  destruct (String.eqb k' k); simpl; [exact Hnd'|].
  constructor; [|exact (IH Hnd')].
  intros Hin. apply Hnotin. exact (dict_del_keys _ _ _ Hin).
Qed.

Lemma dict_del_forall {V : Type} (P : string * V -> Prop) (k : string) (d : PyDict.t V) :
  Forall P d -> Forall P (PyDict.del k d).
Proof.
  intros Hd. induction Hd as [|[k' v'] d Hx Hd IH]; simpl; [constructor|].
  destruct (String.eqb k' k); [exact Hd | constructor; assumption].
Qed.

Lemma nodup_map_filter {A B : Type} (f : A -> B) (p : A -> bool) (l : list A) :
  NoDup (map f l) -> NoDup (map f (filter p l)).
Proof.
  induction l as [|x l IH]; simpl; intros Hnd; [constructor|].
  inversion Hnd as [|? ? Hnotin Hnd']; subst.
  destruct (p x); simpl; [|exact (IH Hnd')].
  constructor; [|exact (IH Hnd')].
  intros Hin. apply Hnotin.
  apply in_map_iff in Hin as (y & Hy & Hin).
  apply filter_In in Hin as [Hin _].
  rewrite <- Hy. apply in_map; exact Hin.
Qed.

Lemma insert_or_replace_pk (row : SessionRow) (t : list SessionRow) :
  NoDup (map s_session_id t) ->
  NoDup (map s_session_id (Sql.insert_or_replace_session row t)).
Proof.
  intros Hnd. unfold Sql.insert_or_replace_session.
  rewrite map_app. apply NoDup_app.
  - apply nodup_map_filter; exact Hnd.
  - constructor; [intros [] | constructor].
  - intros sid Hin [<-|[]].
    apply in_map_iff in Hin as (r & Hid & Hin).
    apply filter_In in Hin as [_ Hne].
    unfold Sql.session_is in Hne. rewrite Hid, String.eqb_refl in Hne.
    discriminate.
Qed.

Lemma update_last_activity_ids (t' : datetime) (sid : string) (t : list SessionRow) :
  map s_session_id (Sql.update_last_activity t' sid t) = map s_session_id t.
Proof.
  unfold Sql.update_last_activity. rewrite map_map. apply map_ext.
  intros r; destruct (Sql.session_is sid r); reflexivity.
Qed.

Lemma set_read_ids (mid sid : string) (t : list MessageRow) :
  map message_id (Sql.set_read mid sid t) = map message_id t.
Proof.
  unfold Sql.set_read. rewrite map_map. apply map_ext.
  intros m; destruct (Sql.message_is mid sid m); reflexivity.
Qed.

Lemma set_all_read_ids (sid : string) (t : list MessageRow) :
  map message_id (Sql.set_all_read sid t) = map message_id t.
Proof.
  unfold Sql.set_all_read. rewrite map_map. apply map_ext.
  intros m; destruct (Sql.of_session sid m); reflexivity.
Qed.

Lemma insert_message_pk (row : MessageRow) (t t' : list MessageRow) :
  NoDup (map message_id t) -> Sql.insert_message row t = Ok t' ->
  NoDup (map message_id t').
Proof.
  intros Hnd. unfold Sql.insert_message.
  destruct (Sql.message_exists (message_id row) t) eqn:Hex; [discriminate|].
  intros [= <-]. rewrite map_app. apply NoDup_app.
  - exact Hnd.
  - constructor; [intros [] | constructor].
  - intros mid Hin [<-|[]].
    apply in_map_iff in Hin as (m & Hid & Hin).
    assert (Sql.message_exists (message_id row) t = true); [|congruence].
    apply existsb_exists. exists m. split; [exact Hin|].
    rewrite Hid. apply String.eqb_refl.
Qed.

Lemma TempMailSession_init_wf (e : value) (sid : string) (w : World) :
  wf w -> wf (snd (TempMailSession_init e sid w)).
Proof.
  intros ((Hnd & Hall) & Hs & Hm).
  unfold TempMailSession_init, utcnow.
  destruct (bind_text e) as [[a|]|ex]; simpl;
    (split; [split|split]); simpl; try assumption.
  - apply dict_set_nodup; exact Hnd.
  - apply dict_set_forall; [exact Hall | reflexivity].
  - apply insert_or_replace_pk; exact Hs.
Qed.

Lemma handle_under_key (w : World) (k : string) (self : TempMailSession) :
  wf w -> PyDict.get k (active_sessions w) = Some self -> session_id self = k.
Proof.
  intros ((_ & Hall) & _) Hget.
  apply dict_get_in in Hget. rewrite Forall_forall in Hall.
  exact (Hall _ Hget).
Qed.

Lemma update_activity_wf (k : string) (self : TempMailSession) (w : World) :
  wf w -> PyDict.get k (active_sessions w) = Some self ->
  wf (update_activity k self w).
Proof.
  intros Hwf Hget. pose proof (handle_under_key w k self Hwf Hget) as Hk.
  destruct Hwf as ((Hnd & Hall) & Hs & Hm).
  unfold update_activity, utcnow; simpl.
  (split; [split|split]); simpl; try assumption.
  - apply dict_set_nodup; exact Hnd.
  - apply dict_set_forall; [exact Hall | exact Hk].
  - unfold sessions_pk; simpl. rewrite update_last_activity_ids. exact Hs.
Qed.

Lemma deactivate_wf (k : string) (self : TempMailSession) (w : World) :
  wf w -> PyDict.get k (active_sessions w) = Some self ->
  wf (deactivate k self w).
Proof.
  intros Hwf Hget. pose proof (handle_under_key w k self Hwf Hget) as Hk.
  destruct Hwf as ((Hnd & Hall) & Hs & Hm).
  unfold deactivate; simpl.
  destruct (PyDict.mem _ _); (split; [split|split]); simpl; try assumption;
    try (unfold sessions_pk; simpl; rewrite set_inactive_ids; exact Hs).
  - apply dict_del_nodup, dict_set_nodup; exact Hnd.
  - apply dict_del_forall, dict_set_forall; [exact Hall | exact Hk].
  - apply dict_set_nodup; exact Hnd.
  - apply dict_set_forall; [exact Hall | exact Hk].
Qed.

Lemma store_message_wf (sid rcpt : string) (w : World) (msg : value) :
  wf w -> wf (store_message sid rcpt w msg).
Proof.
  intros (Hh & Hs & Hm).
  unfold store_message, utcnow.
  destruct (extract msg) as [[[sender subject] preview] full].
  cbv beta iota zeta. simpl messages.
  destruct (Sql.message_exists _ _); [exact (conj Hh (conj Hs Hm))|].
  destruct (bind_text sender) as [a|]; [|exact (conj Hh (conj Hs Hm))].
  destruct (bind_text subject) as [b|]; [|exact (conj Hh (conj Hs Hm))].
  destruct (bind_text preview) as [c|]; [|exact (conj Hh (conj Hs Hm))].
  destruct (Sql.insert_message _ _) as [t|] eqn:Hins; [|exact (conj Hh (conj Hs Hm))].
  (split; [|split]); try assumption.
  unfold messages_pk; simpl. exact (insert_message_pk _ _ _ Hm Hins).
Qed.

Lemma store_messages_in_db_wf (msgs : value) (sid rcpt : string) (w : World) :
  wf w -> wf (snd (store_messages_in_db msgs sid rcpt w)).
Proof.
  unfold store_messages_in_db.
  destruct (iter msgs) as [l|]; simpl; [|trivial].
  revert w. induction l as [|msg l IH]; simpl; intros w Hwf; [exact Hwf|].
  apply IH. apply store_message_wf; exact Hwf.
Qed.

Lemma get_inbox_wf (outcome : HttpOutcome) (e sid : string) (w : World) :
  wf w -> wf (snd (get_inbox outcome e sid w)).
Proof.
  intros Hwf. unfold get_inbox.
  destruct outcome as [|status body]; [exact Hwf|].
  destruct (negb (status =? 200)); [exact Hwf|].
  destruct body as [data|]; [|exact Hwf].
  destruct (contains "messages" data) as [[|]|]; try exact Hwf.
  destruct (getitem "messages" data) as [msgs|]; [|exact Hwf].
  destruct (truthy msgs); [|exact Hwf].
  pose proof (store_messages_in_db_wf msgs sid e w Hwf) as H.
  destruct (store_messages_in_db msgs sid e w) as [[u|ex] w']; exact H.
Qed.

Lemma purge_session_wf (w : World) (sid : string) : wf w -> wf (purge_session w sid).
Proof.
  intros ((Hnd & Hall) & Hs & Hm).
  unfold purge_session; simpl.
  destruct (PyDict.mem _ _); (split; [split|split]); simpl; try assumption;
    try (apply nodup_map_filter; assumption).
  - apply dict_del_nodup; exact Hnd.
  - apply dict_del_forall; exact Hall.
Qed.

Lemma purge_fold_wf (ids : list string) (w : World) :
  wf w -> wf (fold_left purge_session ids w).
Proof.
  revert w. induction ids as [|sid ids IH]; simpl; intros w Hwf; [exact Hwf|].
  apply IH. apply purge_session_wf; exact Hwf.
Qed.

Lemma deactivate_each_wf (ks : list string) (w : World) :
  wf w -> wf (snd (deactivate_each ks w)).
Proof.
  revert w. induction ks as [|k ks IH]; simpl; intros w Hwf; [exact Hwf|].
  destruct (PyDict.get k (active_sessions w)) as [self|] eqn:Hget; [|exact Hwf].
  apply IH. apply deactivate_wf; assumption.
Qed.

Lemma generate_email_endpoint_state (api : list Z -> HttpOutcome)
    (uuid_str uuid_hex : string) (time_time : Z) (prefix : value) (w : World) :
  snd (generate_email_endpoint api uuid_str uuid_hex time_time prefix w)
  = snd (generate_email api uuid_str uuid_hex time_time prefix w).
Proof.
  unfold generate_email_endpoint.
  destruct (generate_email api uuid_str uuid_hex time_time prefix w) as [[res|ex] w1];
    [|reflexivity].
  destruct res as [|kv res]; [reflexivity|].
  destruct (Py.lookup "email" (kv :: res)); [|reflexivity].
  destruct (Py.lookup "session_id" (kv :: res)); reflexivity.
Qed.

Lemma step_wf (w w' : World) : wf w -> step w w' -> wf w'.
Proof.
  intros Hwf Hstep.
  destruct Hstep as
    [api u1 u2 tt p r w' H | o e sid r w' H | sid mid r w' H | sid r w' H
     | sid mid r w' H | sid r w' H | sid r w' H | sid r w' H | r w' H
     | r w' H | r w' H].
  - (* /generate-email *)
    assert (Hgen : wf (snd (generate_email api u1 u2 tt p w))).
    { unfold generate_email.
      destruct (apply_prefix p _) as [e|ex].
      - unfold utcnow at 1. cbv beta iota zeta.
        match goal with
        | |- context [TempMailSession_init ?a ?b ?c] =>
            pose proof (TempMailSession_init_wf a b c) as H1;
            destruct (TempMailSession_init a b c) as [[u|ex] w1]
        end.
        + apply H1. exact Hwf.
        + simpl in H1.
          match goal with
          | |- context [TempMailSession_init ?a ?b w1] =>
              pose proof (TempMailSession_init_wf a b w1 (H1 Hwf)) as H2;
              destruct (TempMailSession_init a b w1) as [[u'|ex'] w2]; exact H2
          end.
      - match goal with
        | |- context [TempMailSession_init ?a ?b w] =>
            pose proof (TempMailSession_init_wf a b w Hwf) as H2;
            destruct (TempMailSession_init a b w) as [[u'|ex'] w2]; exact H2
        end. }
    rewrite <- generate_email_endpoint_state, H in Hgen. exact Hgen.
  - (* /check-inbox *)
    unfold check_inbox_endpoint in H.
    destruct (given e) as [e'|]; [|injection H as _ <-; exact Hwf].
    destruct (given sid) as [sid'|]; [|injection H as _ <-; exact Hwf].
    assert (Hw1 : wf (match PyDict.get sid' (active_sessions w) with
                      | Some self => update_activity sid' self w
                      | None => w
                      end)).
    { destruct (PyDict.get sid' (active_sessions w)) eqn:Hget;
        [apply update_activity_wf; assumption | exact Hwf]. }
    apply (get_inbox_wf o e' sid') in Hw1.
    destruct (get_inbox o e' sid' _) as [raw w2]; simpl in Hw1.
    destruct (truthy raw); [|injection H as _ <-; exact Hw1].
    destruct (contains "messages" raw) as [[|]|];
      [|injection H as _ <-; exact Hw1 | injection H as _ <-; exact Hw1].
    destruct (get_session_messages _ _ _ _ _); injection H as _ <-; exact Hw1.
  - (* /mark-read *)
    unfold mark_read_endpoint, mark_as_read in H.
    destruct (given sid) as [sid'|]; [|injection H as _ <-; exact Hwf].
    destruct (given mid) as [mid'|]; injection H as _ <-; [|exact Hwf].
    destruct Hwf as (Hh & Hs & Hm). repeat split; try apply Hh; try assumption.
    unfold messages_pk; simpl. rewrite set_read_ids. exact Hm.
  - (* /mark-all-read *)
    unfold mark_all_read_endpoint in H.
    destruct (given sid) as [sid'|]; injection H as _ <-; [|exact Hwf].
    destruct Hwf as (Hh & Hs & Hm). repeat split; try apply Hh; try assumption.
    unfold messages_pk; simpl. rewrite set_all_read_ids. exact Hm.
  - (* /delete-message *)
    unfold delete_message_endpoint, delete_message in H.
    destruct (given sid) as [sid'|]; [|injection H as _ <-; exact Hwf].
    destruct (given mid) as [mid'|]; injection H as _ <-; [|exact Hwf].
    destruct Hwf as (Hh & Hs & Hm). repeat split; try apply Hh; try assumption.
    apply nodup_map_filter; exact Hm.
  - (* /delete-all-messages *)
    unfold delete_all_messages_endpoint in H.
    destruct (given sid) as [sid'|]; injection H as _ <-; [|exact Hwf].
    destruct Hwf as (Hh & Hs & Hm). repeat split; try apply Hh; try assumption.
    apply nodup_map_filter; exact Hm.
  - (* /delete-session *)
    unfold delete_session_endpoint in H.
    destruct (given sid) as [sid'|]; injection H as _ <-; [|exact Hwf].
    assert (Hw1 : wf (match PyDict.get sid' (active_sessions w) with
                      | Some self => deactivate sid' self w
                      | None => w
                      end)).
    { destruct (PyDict.get sid' (active_sessions w)) eqn:Hget;
        [apply deactivate_wf; assumption | exact Hwf]. }
    destruct Hw1 as (Hh & Hs & Hm). repeat split; try apply Hh.
    + unfold sessions_pk; simpl. rewrite set_inactive_ids. exact Hs.
    + apply nodup_map_filter; exact Hm.
  - (* /activate-session *)
    unfold activate_session_endpoint in H.
    destruct (given sid) as [sid'|]; [|injection H as _ <-; exact Hwf].
    destruct (Sql.select_email sid' (sessions w)) as [e|];
      [|injection H as _ <-; exact Hwf].
    pose proof (TempMailSession_init_wf (VStr e) sid' w Hwf) as H1.
    destruct (TempMailSession_init (VStr e) sid' w) as [[u|ex] w1];
      injection H as _ <-; exact H1.
  - (* /clear-database *)
    injection H as _ <-. repeat split; constructor.
  - (* /delete-inactive *)
    unfold delete_inactive_endpoint, utcnow in H.
    destruct (Datetime.sub _ _) as [cutoff|ex]; injection H as _ <-;
      [|exact Hwf].
    apply purge_fold_wf. exact Hwf.
  - (* /clear-all-sessions *)
    unfold clear_all_sessions_endpoint in H.
    pose proof (deactivate_each_wf (PyDict.keys (active_sessions w)) w Hwf) as H1.
    destruct (deactivate_each _ w) as [[u|ex] w1]; injection H as _ <-;
      [|exact H1].
    destruct H1 as (Hh & Hs & Hm). repeat split; simpl; try constructor; try assumption.
    unfold sessions_pk; simpl.
    rewrite (proj2 (set_all_inactive_spec _)). exact Hs.
Qed.

(** X22. From a fresh database on, whatever requests are served, every
    live handle sits under its own session id, no key occurs twice in
    [active_sessions], and both tables keep their primary keys. *)
Lemma reachable_wf (w : World) : reachable w -> wf w.
Proof.
  induction 1 as [|w w' _ IH Hstep].
  - repeat split; constructor.
  - exact (step_wf w w' IH Hstep).
Qed.

(* ================================================================== *)
(** ** Unknown identifiers *)

(** Given an email and a session id, /check-inbox answers success=true. *)
Lemma check_inbox_answers (outcome : HttpOutcome) (e sid : string) (w : World) :
  e <> "" -> sid <> "" ->
  exists (new_count : Z) (status : string) (w' : World),
    check_inbox_endpoint outcome (Some e) (Some sid) w
      = (Ok (VDict [("success", VBool true); ("new_count", VInt new_count);
                    ("status", VStr status)]), w').
Proof.
  intros He Hs. unfold check_inbox_endpoint.
  rewrite (given_some _ He), (given_some _ Hs).
  set (w1 := match PyDict.get sid (active_sessions w) with
             | Some self => update_activity sid self w
             | None => w
             end).
  assert (Hlist : forall w2, exists r, get_session_messages w2 sid 50 0 true = Ok r)
    by (intros w2; eexists; reflexivity).
  destruct (get_inbox_shape outcome e sid w1)
    as [(extra & w2 & Hg) | (data & b & w2 & Hg & Hin)]; rewrite Hg.
  - change (truthy (inbox_error extra)) with true.
    change (contains "messages" (inbox_error extra)) with (@Ok bool true).
    cbv iota. destruct (Hlist w2) as [r Hr]. rewrite Hr.
    do 3 eexists; reflexivity.
  - destruct (truthy data); [|do 3 eexists; reflexivity].
    rewrite Hin. destruct b; [|do 3 eexists; reflexivity].
    destruct (Hlist w2) as [r Hr]. rewrite Hr.
    do 3 eexists; reflexivity.
Qed.

(** C5, as the code has it.  Take a (session_id, message_id) pair that
    matches no stored row, and a session id [unknown] that names nothing:
    no row of [sessions], no message, no live handle.  Of the routes that
    take such identifiers, two answer with a typed failure: /get-message
    with 'Message not found' and /activate-session with 'Session not
    found'.  The others answer success=true: /mark-read and
    /delete-message on the pair, and /mark-all-read, /delete-all-messages
    and /delete-session on the unknown session, leave the store as it
    was; /get-messages answers with an empty listing, /get-session-stats
    with zero counts and email 'Unknown', /export-messages with the
    export of no message, and /check-inbox with a count and a status. *)
Theorem unknown_message_outcomes (w : World)
    (session_id message_id unknown email : string) (outcome : HttpOutcome)
    (limit offset : Z) (unread_only : bool) (format_type : string) :
  session_id <> "" -> message_id <> "" -> unknown <> "" -> email <> "" ->
  find (Sql.message_is message_id session_id) (messages w) = None ->
  (forall r, In r (sessions w) -> s_session_id r <> unknown) ->
  (forall m, In m (messages w) -> m_session_id m <> unknown) ->
  PyDict.mem unknown (active_sessions w) = false ->
  (* the two typed failures *)
  get_message_endpoint (Some session_id) (Some message_id) w
    = failure "Message not found"
  /\ activate_session_endpoint (Some unknown) w
     = (Ok (failure "Session not found"), w)
  (* acknowledged, the store left as it was *)
  /\ mark_read_endpoint (Some session_id) (Some message_id) w
     = (VDict [("success", VBool true)], w)
  /\ delete_message_endpoint (Some session_id) (Some message_id) w
     = (VDict [("success", VBool true)], w)
  /\ mark_all_read_endpoint (Some unknown) w = (VDict [("success", VBool true)], w)
  /\ delete_all_messages_endpoint (Some unknown) w = (VDict [("success", VBool true)], w)
  /\ delete_session_endpoint (Some unknown) w = (VDict [("success", VBool true)], w)
  (* answered as for a session that has no message *)
  /\ get_messages_endpoint (Some unknown) limit offset unread_only w
     = (if int64 limit && int64 offset
        then Ok (VDict [("success", VBool true); ("messages", VList []);
                        ("total", VInt 0); ("unread", VInt 0);
                        ("has_more", VBool (0 >? offset + limit))])
        else Raise OverflowError)
  /\ get_session_stats_endpoint (Some unknown) w
     = VDict [("success", VBool true);
              ("stats", VDict [("total_messages", VInt 0); ("unread_messages", VInt 0);
                               ("first_message", VNone); ("last_message", VNone);
                               ("email", VStr "Unknown"); ("created_at", VNone);
                               ("active", VBool false)])]
  /\ (exists mime : string,
        export_messages_endpoint (Some unknown) format_type w
        = Ok (VDict [("success", VBool true);
                     ("content",
                      VStr (if String.eqb format_type "json" then json_dumps []
                            else if String.eqb format_type "csv" then csv_of []
                            else ""));
                     ("format", VStr format_type); ("mime_type", VStr mime)]))
  /\ (exists (new_count : Z) (status : string) (w' : World),
        check_inbox_endpoint outcome (Some email) (Some unknown) w
        = (Ok (VDict [("success", VBool true); ("new_count", VInt new_count);
                      ("status", VStr status)]), w')).
Proof.
  intros Hs Hm Hu He Hpair Hrows Hmsgs Hlive.
  assert (Hof : forall m, In m (messages w) -> Sql.of_session unknown m = false).
  { intros m Hin. apply String.eqb_neq. exact (Hmsgs m Hin). }
  assert (Hnorow : find (Sql.session_is unknown) (sessions w) = None).
  { apply find_none_when. intros r Hr. apply String.eqb_neq. exact (Hrows r Hr). }
  assert (Hnomsg : find (Sql.of_session unknown) (messages w) = None)
    by (apply find_none_when; exact Hof).
  assert (Hnone : filter (Sql.of_session unknown) (messages w) = [])
    by (apply filter_none; exact Hof).
  assert (Hget : PyDict.get unknown (active_sessions w) = None).
  { unfold PyDict.mem in Hlive.
    destruct (PyDict.get unknown (active_sessions w)); [discriminate | reflexivity]. }
  split.
  { unfold get_message_endpoint.
    rewrite (given_some _ Hs), (given_some _ Hm), Hpair. reflexivity. }
  split.
  { unfold activate_session_endpoint, Sql.select_email.
    rewrite (given_some _ Hu), Hnorow. reflexivity. }
  split.
  { unfold mark_read_endpoint, mark_as_read.
    rewrite (given_some _ Hs), (given_some _ Hm).
    rewrite set_messages_id; [reflexivity|].
    unfold Sql.set_read. apply map_id_when; exact Hpair. }
  split.
  { unfold delete_message_endpoint, delete_message.
    rewrite (given_some _ Hs), (given_some _ Hm).
    rewrite set_messages_id; [reflexivity|].
    unfold Sql.delete_message. apply filter_id_when; exact Hpair. }
  split.
  { unfold mark_all_read_endpoint. rewrite (given_some _ Hu).
    rewrite set_messages_id; [reflexivity|].
    unfold Sql.set_all_read. apply map_id_when; exact Hnomsg. }
  split.
  { unfold delete_all_messages_endpoint. rewrite (given_some _ Hu).
    rewrite set_messages_id; [reflexivity|].
    unfold Sql.delete_messages_of. apply filter_id_when; exact Hnomsg. }
  split.
  { unfold delete_session_endpoint. rewrite (given_some _ Hu), Hget.
    cbv zeta.
    rewrite (set_sessions_id (Sql.set_inactive unknown) w)
      by (unfold Sql.set_inactive; apply map_id_when; exact Hnorow).
    rewrite set_messages_id; [reflexivity|].
    unfold Sql.delete_messages_of. apply filter_id_when; exact Hnomsg. }
  split.
  { unfold get_messages_endpoint, get_session_messages.
    rewrite (given_some _ Hu).
    destruct (int64 limit && int64 offset); [|reflexivity].
    cbn [listed total unread has_more].
    unfold selected, Sql.count_of, Sql.count_unread_of.
    rewrite Hnone.
    rewrite !filter_none
      by (intros m Hin; rewrite (Hof m Hin); reflexivity).
    unfold Sql.limit_offset. cbn [Sql.order_by_received_at_desc].
    rewrite skipn_nil, firstn_nil.
    destruct (limit <? 0); reflexivity. }
  split.
  { unfold get_session_stats_endpoint, get_session_stats.
    rewrite (given_some _ Hu), Hnone, Hnorow, Hlive. reflexivity. }
  split.
  { unfold export_messages_endpoint, export_messages, get_session_messages.
    rewrite (given_some _ Hu).
    change (int64 1000 && int64 0) with true. cbv iota.
    assert (Hsel : selected w unknown false = []).
    { unfold selected. rewrite filter_none; [reflexivity|].
      intros m Hin. rewrite (Hof m Hin). reflexivity. }
    cbn [listed]. rewrite Hsel.
    destruct (String.eqb format_type "json"); [eexists; reflexivity|].
    destruct (String.eqb format_type "csv"); [eexists; reflexivity|].
    destruct (String.eqb format_type "txt"); eexists; reflexivity. }
  exact (check_inbox_answers outcome email unknown w He Hu).
Qed.

(** * Further properties of the code *)

(** ** Address generation *)

Lemma TempMailSession_init_cases (e : value) (sid : string) (w : World) :
  (exists a,
      bind_text e = Ok (Some a)
      /\ TempMailSession_init e sid w
         = (Ok tt,
            mkWorld
              (Sql.insert_or_replace_session
                 (mkSessionRow sid a (clock (ticks w)) (clock (ticks w)) 1) (sessions w))
              (messages w)
              (PyDict.set sid
                 (mkTempMailSession e sid (clock (ticks w)) (clock (S (ticks w)))
                                    0 true VNone)
                 (active_sessions w))
              (S (S (ticks w)))))
  \/ (exists ex,
        TempMailSession_init e sid w
        = (Raise ex,
           mkWorld (sessions w) (messages w) (active_sessions w) (S (S (ticks w))))).
Proof.
  unfold TempMailSession_init, utcnow.
  destruct (bind_text e) as [[a|]|ex]; cbv beta iota zeta.
  - left. exists a. split; reflexivity.
  - right. eexists; reflexivity.
  - right. eexists; reflexivity.
Qed.

Lemma TempMailSession_init_str (s sid : string) (w : World) :
  TempMailSession_init (VStr s) sid w
  = (Ok tt,
     mkWorld
       (Sql.insert_or_replace_session
          (mkSessionRow sid s (clock (ticks w)) (clock (ticks w)) 1) (sessions w))
       (messages w)
       (PyDict.set sid
          (mkTempMailSession (VStr s) sid (clock (ticks w)) (clock (S (ticks w)))
                             0 true VNone)
          (active_sessions w))
       (S (S (ticks w)))).
Proof. reflexivity. Qed.

Lemma in_insert_or_replace (row : SessionRow) (t : list SessionRow) :
  In row (Sql.insert_or_replace_session row t).
Proof.
  unfold Sql.insert_or_replace_session.
  apply in_or_app. right. left. reflexivity.
Qed.

(** X1. /generate-email always answers success=true, whatever the gateway
    does and whatever prefix is asked for: no exception leaves the route
    and its 'Failed to generate email' answer is never given.  The
    session of the answer is live and has an active row; no message is
    touched. *)
Theorem generate_email_always_answers (api : list Z -> HttpOutcome)
    (uuid_str uuid_hex : string) (time_time : Z) (custom_prefix : value) (w : World) :
  exists (address : value) (sid : string) (custom fallback : bool) (w' : World),
    generate_email_endpoint api uuid_str uuid_hex time_time custom_prefix w
      = (Ok (VDict [("success", VBool true); ("email", address);
                    ("session_id", VStr sid); ("custom", VBool custom);
                    ("fallback", VBool fallback)]), w')
    /\ PyDict.mem sid (active_sessions w') = true
    /\ (exists row, In row (sessions w') /\ s_session_id row = sid /\ s_is_active row = 1)
    /\ messages w' = messages w.
Proof.
  unfold generate_email_endpoint, generate_email.
  set (email0 := if negb (truthy (try_strategies api strategies)) then _ else _).
  assert (Hmem : forall (s : string) (obj : TempMailSession) (d : PyDict.t TempMailSession),
             PyDict.mem s (PyDict.set s obj d) = true).
  { intros s obj d. unfold PyDict.mem. rewrite dict_get_set_same. reflexivity. }
  assert (Hrow : forall (s a : string) (tm : datetime) (t : list SessionRow),
             exists row, In row (Sql.insert_or_replace_session
                                   (mkSessionRow s a tm tm 1) t)
                         /\ s_session_id row = s /\ s_is_active row = 1).
  { intros s a tm t. eexists. split; [apply in_insert_or_replace|]. split; reflexivity. }
  destruct (apply_prefix custom_prefix email0) as [e|ex].
  - unfold utcnow at 1. cbv beta iota zeta.
    match goal with
    | |- context [TempMailSession_init e ?sid ?w1] =>
        destruct (TempMailSession_init_cases e sid w1) as [(a & _ & Hinit) | (ex & Hinit)];
        rewrite Hinit
    end.
    + do 5 eexists. split; [reflexivity|].
      cbn [sessions messages active_sessions ticks].
      split; [apply Hmem|]. split; [apply Hrow | reflexivity].
    + rewrite TempMailSession_init_str.
      do 5 eexists. split; [reflexivity|].
      cbn [sessions messages active_sessions ticks].
      split; [apply Hmem|]. split; [apply Hrow | reflexivity].
  - rewrite TempMailSession_init_str.
    do 5 eexists. split; [reflexivity|].
    cbn [sessions messages active_sessions ticks].
    split; [apply Hmem|]. split; [apply Hrow | reflexivity].
Qed.

Lemma try_strategies_first (api : list Z -> HttpOutcome) (l1 l2 : list (list Z))
    (st : list Z) (d : list (string * value)) (e : value) :
  (forall s, In s l1 -> strategy_fails (api s) = true) ->
  api st = Response 200 (Some (VDict d)) ->
  Py.lookup "email" d = Some e ->
  try_strategies api (l1 ++ st :: l2) = e.
Proof.
  intros Hfail Hst He.
  induction l1 as [|s l1 IH]; simpl.
  - rewrite Hst. simpl. rewrite He. reflexivity.
  - assert (Hrest : try_strategies api (l1 ++ st :: l2) = e)
      by (apply IH; intros s' Hin; apply Hfail; right; exact Hin).
    specialize (Hfail s (or_introl eq_refl)).
    destruct (api s) as [|status [data|]]; simpl in Hfail; try exact Hrest.
    destruct (status =? 200); simpl in Hfail; [|exact Hrest].
    destruct (contains "email" data) as [[|]|ex]; try exact Hrest.
    destruct (getitem "email" data); [discriminate | exact Hrest].
Qed.

(** X2. The first strategy the gateway answers with status 200 and an
    'email' entry wins: when the strategies before it fail, the address
    is the one of that answer, whatever the gateway would say to the
    later strategies.  With no prefix asked for the result carries that
    address, the session id is the first 12 hex digits of the SHA-256 of
    the address followed by the time of the call, and the session row is
    written active with both timestamps at the next clock reading. *)
Theorem first_success_wins (api : list Z -> HttpOutcome) (uuid_str uuid_hex : string)
    (time_time : Z) (w : World) (l1 l2 : list (list Z)) (st : list Z)
    (d : list (string * value)) (address : string) :
  strategies = (l1 ++ st :: l2)%list ->
  (forall s, In s l1 -> strategy_fails (api s) = true) ->
  api st = Response 200 (Some (VDict d)) ->
  Py.lookup "email" d = Some (VStr address) ->
  address <> "" ->
  let sid := PyStr.take 12 (sha256_hexdigest (address ++ isoformat (clock (ticks w)))) in
  exists w',
    generate_email api uuid_str uuid_hex time_time VNone w
      = (Ok [("email", VStr address); ("session_id", VStr sid); ("custom", VBool false)],
         w')
    /\ In (mkSessionRow sid address (clock (S (ticks w))) (clock (S (ticks w))) 1)
          (sessions w')
    /\ PyDict.mem sid (active_sessions w') = true.
Proof.
  intros Hsplit Hfail Hst He Hne sid.
  unfold generate_email.
  rewrite Hsplit, (try_strategies_first api l1 l2 st d (VStr address) Hfail Hst He).
  simpl truthy. apply String.eqb_neq in Hne. rewrite Hne.
  cbv beta iota zeta. simpl negb. cbv iota.
  unfold apply_prefix. simpl truthy. cbv iota.
  unfold utcnow at 1. cbv beta iota zeta.
  rewrite TempMailSession_init_str. simpl str. fold sid.
  eexists. split; [reflexivity|]. simpl.
  split; [apply in_insert_or_replace|].
  unfold PyDict.mem. rewrite dict_get_set_same. reflexivity.
Qed.

Lemma contains_at_cons (c : ascii) (r : string) :
  PyStr.contains "@" (String c r) = Ascii.eqb c "@"%char || PyStr.contains "@" r.
Proof.
  change (PyStr.contains "@" (String c r))
    with (String.prefix "@" (String c r) || PyStr.contains "@" r).
  f_equal.
  change (String.prefix "@" (String c r))
    with (if ascii_dec "@" c then String.prefix "" r else false).
  destruct (ascii_dec "@" c) as [<-|Hne].
  - destruct r; reflexivity.
  - destruct (Ascii.eqb_spec c "@"%char); [congruence | reflexivity].
Qed.

Lemma split_at_cons (c : ascii) (r : string) :
  PyStr.split_at (String c r)
  = if Ascii.eqb c "@"%char then Some (EmptyString, r)
    else match PyStr.split_at r with
         | Some (a, b) => Some (String c a, b)
         | None => None
         end.
Proof. reflexivity. Qed.

Lemma split_at_local (local_part domain : string) :
  PyStr.contains "@" local_part = false ->
  PyStr.split_at (local_part ++ "@" ++ domain) = Some (local_part, domain)
  /\ PyStr.contains "@" (local_part ++ "@" ++ domain) = true.
Proof.
  induction local_part as [|c r IH]; intros Hno.
  - change ("" ++ "@" ++ domain) with (String "@"%char domain).
    split; [reflexivity|]. rewrite contains_at_cons. reflexivity.
  - rewrite contains_at_cons in Hno. apply orb_false_elim in Hno as [Hc Hr].
    destruct (IH Hr) as [Hsplit Hin].
    change (String c r ++ "@" ++ domain) with (String c (r ++ "@" ++ domain)).
    split.
    + rewrite split_at_cons, Hc, Hsplit. reflexivity.
    + rewrite contains_at_cons, Hin. apply orb_true_r.
Qed.

Lemma split_at_none (e : string) :
  PyStr.contains "@" e = false -> PyStr.split_at e = None.
Proof.
  induction e as [|c r IH]; intros Hno; [reflexivity|].
  rewrite contains_at_cons in Hno. apply orb_false_elim in Hno as [Hc Hr].
  rewrite split_at_cons, Hc, (IH Hr). reflexivity.
Qed.

Lemma apply_prefix_strings (p e : string) :
  apply_prefix (VStr p) (VStr e)
  = if negb (String.eqb p "") then
      if PyStr.contains "@" e then
        match PyStr.split_at e with
        | Some (local_part, domain) => Ok (VStr (p ++ "_" ++ local_part ++ "@" ++ domain))
        | None => Ok (VStr e)
        end
      else Ok (VStr e)
    else Ok (VStr e).
Proof. reflexivity. Qed.

(** X3. A prefix is spliced in front of the local part: an address
    local@domain becomes prefix_local@domain, the split being at the
    first '@'.  An address without '@' is left as it is, and so is any
    address when the prefix is the empty string. *)
Theorem prefix_goes_before_local_part (custom_prefix local_part domain : string) :
  custom_prefix <> "" ->
  PyStr.contains "@" local_part = false ->
  apply_prefix (VStr custom_prefix) (VStr (local_part ++ "@" ++ domain))
    = Ok (VStr (custom_prefix ++ "_" ++ local_part ++ "@" ++ domain))
  /\ apply_prefix (VStr custom_prefix) (VStr local_part) = Ok (VStr local_part)
  /\ apply_prefix (VStr "") (VStr (local_part ++ "@" ++ domain))
     = Ok (VStr (local_part ++ "@" ++ domain)).
Proof.
  intros Hp Hno.
  destruct (split_at_local local_part domain Hno) as [Hsplit Hin].
  apply String.eqb_neq in Hp.
  rewrite !apply_prefix_strings, Hp, Hin, Hno, Hsplit.
  repeat split.
Qed.

(** ** Ingestion *)

Lemma store_message_appends (sid rcpt : string) (w : World) (msg : value) :
  exists added : list MessageRow,
    messages (store_message sid rcpt w msg) = (messages w ++ added)%list
    /\ sessions (store_message sid rcpt w msg) = sessions w
    /\ active_sessions (store_message sid rcpt w msg) = active_sessions w
    /\ ticks (store_message sid rcpt w msg) = S (ticks w)
    /\ Forall (fun m => m_session_id m = sid /\ recipient m = rcpt /\ is_read m = 0) added
    /\ (List.length added <= 1)%nat.
Proof.
  assert (Hnone : exists added : list MessageRow,
             messages w = (messages w ++ added)%list
             /\ sessions w = sessions w /\ active_sessions w = active_sessions w
             /\ S (ticks w) = S (ticks w)
             /\ Forall (fun m => m_session_id m = sid /\ recipient m = rcpt /\ is_read m = 0)
                       added
             /\ (List.length added <= 1)%nat).
  { exists []. rewrite app_nil_r. repeat split; auto. }
  unfold store_message, utcnow.
  destruct (extract msg) as [[[sender subject] preview] full].
  cbv beta iota zeta. cbn [messages].
  destruct (Sql.message_exists _ _); [exact Hnone|].
  destruct (bind_text sender) as [a|]; [|exact Hnone].
  destruct (bind_text subject) as [b|]; [|exact Hnone].
  destruct (bind_text preview) as [c|]; [|exact Hnone].
  unfold Sql.insert_message. cbn [message_id].
  destruct (Sql.message_exists _ _); [exact Hnone|].
  eexists [_]. cbn [set_messages messages sessions active_sessions ticks].
  repeat split; auto.
Qed.

(** X4. Ingestion only appends.  Whatever the batch is, the rows that
    were in table [messages] stay as they were and in place (a read
    message stays read), [sessions] and the live handles are not touched,
    and every row that is added belongs to the session and recipient of
    the call and is unread. *)
Theorem ingestion_only_appends (msgs : value) (sid rcpt : string) (w : World) :
  exists added : list MessageRow,
    messages (snd (store_messages_in_db msgs sid rcpt w)) = (messages w ++ added)%list
    /\ sessions (snd (store_messages_in_db msgs sid rcpt w)) = sessions w
    /\ active_sessions (snd (store_messages_in_db msgs sid rcpt w)) = active_sessions w
    /\ Forall (fun m => m_session_id m = sid /\ recipient m = rcpt /\ is_read m = 0) added
    /\ (forall l, iter msgs = Ok l ->
          (List.length added <= List.length l)%nat
          /\ ticks (snd (store_messages_in_db msgs sid rcpt w))
             = (ticks w + List.length l)%nat).
Proof.
  unfold store_messages_in_db.
  destruct (iter msgs) as [l|ex]; cbn [snd].
  - assert (Hgen : forall w0 : World, exists added : list MessageRow,
               messages (fold_left (store_message sid rcpt) l w0)
               = (messages w0 ++ added)%list
               /\ sessions (fold_left (store_message sid rcpt) l w0) = sessions w0
               /\ active_sessions (fold_left (store_message sid rcpt) l w0)
                  = active_sessions w0
               /\ Forall (fun m => m_session_id m = sid /\ recipient m = rcpt
                                   /\ is_read m = 0) added
               /\ (List.length added <= List.length l)%nat
               /\ ticks (fold_left (store_message sid rcpt) l w0)
                  = (ticks w0 + List.length l)%nat).
    { induction l as [|msg l IH]; intros w0; cbn [fold_left List.length].
      - exists []. rewrite app_nil_r. repeat split; auto.
      - destruct (store_message_appends sid rcpt w0 msg)
          as (a1 & Hm1 & Hs1 & Hh1 & Ht1 & Hall1 & Hlen1).
        destruct (IH (store_message sid rcpt w0 msg))
          as (a2 & Hm2 & Hs2 & Hh2 & Hall2 & Hlen2 & Ht2).
        exists (a1 ++ a2)%list.
        rewrite Hm2, Hm1, Hs2, Hs1, Hh2, Hh1, Ht2, Ht1, app_assoc, length_app.
        repeat split; auto; try lia.
        apply Forall_app; split; assumption. }
    destruct (Hgen w) as (added & Hm & Hs & Hh & Hall & Hlen & Ht).
    exists added. repeat split; auto; injection H as <-; assumption.
  - exists []. rewrite app_nil_r. repeat split; auto; discriminate.
Qed.

(** X5. A message with a field SQLite cannot bind (a list, a dict, an
    integer outside 64 bits) is skipped without stopping the batch: the
    rest is ingested as if the message had not been there, one clock
    reading later. *)
Theorem unbindable_message_is_skipped (bad : value) (rest : list value)
    (sid rcpt : string) (w : World) (sender subject preview : value) (full : string) :
  extract bad = (sender, subject, preview, full) ->
  (exists ex, bind_text sender = Raise ex \/ bind_text subject = Raise ex
              \/ bind_text preview = Raise ex) ->
  store_messages_in_db (VList (bad :: rest)) sid rcpt w
  = store_messages_in_db (VList rest) sid rcpt
      (mkWorld (sessions w) (messages w) (active_sessions w) (S (ticks w))).
Proof.
  intros Hex (ex & Hbad).
  unfold store_messages_in_db, iter. cbn [fold_left]. do 2 f_equal.
  unfold store_message, utcnow. rewrite Hex. cbv beta iota zeta. cbn [messages].
  destruct (Sql.message_exists _ _); [reflexivity|].
  destruct Hbad as [H|[H|H]]; rewrite H.
  - reflexivity.
  - destruct (bind_text sender); reflexivity.
  - destruct (bind_text sender); [|reflexivity].
    destruct (bind_text subject); reflexivity.
Qed.

(** X6. Two copies of a message in one batch give one row when the clock
    reads the same instant for both: the second derives the id of the
    first and is not inserted. *)
Theorem same_instant_duplicates_collapse (w : World) (msg : value) (sid rcpt : string)
    (sender subject preview : value) (full : string) (a b c : option string) :
  extract msg = (sender, subject, preview, full) ->
  bind_text sender = Ok a -> bind_text subject = Ok b -> bind_text preview = Ok c ->
  Sql.message_exists (derive_message_id sender subject preview (clock (ticks w)))
                     (messages w) = false ->
  clock (S (ticks w)) = clock (ticks w) ->
  messages (snd (store_messages_in_db (VList [msg; msg]) sid rcpt w))
  = (messages w
     ++ [mkMessageRow (derive_message_id sender subject preview (clock (ticks w)))
                      sid a rcpt b c full (clock (ticks w)) 0])%list.
Proof.
  intros Hex Ha Hb Hc Hnew Hsame.
  pose proof (store_message_fresh w msg sid rcpt _ _ _ _ _ _ _ Hex Ha Hb Hc Hnew) as H1.
  cbv zeta in H1.
  set (once := mkWorld _ _ _ _) in H1.
  assert (H2 : store_message sid rcpt once msg
               = mkWorld (sessions once) (messages once) (active_sessions once)
                         (S (ticks once))).
  { apply (store_message_known once msg sid rcpt _ _ _ _ Hex).
    simpl. rewrite Hsame, message_exists_app. simpl.
    rewrite String.eqb_refl. apply orb_true_r. }
  unfold store_messages_in_db, iter. cbn [fold_left snd].
  rewrite H1, H2. reflexivity.
Qed.

(** ** Marking and deleting messages *)

Lemma no_row_with_fresh_id (mid sid : string) (l : list MessageRow) :
  ~ In mid (map message_id l) -> find (Sql.message_is mid sid) l = None.
Proof.
  induction l as [|x l IH]; simpl; intros Hnotin; [reflexivity|].
  unfold Sql.message_is at 1.
  destruct (String.eqb_spec (message_id x) mid) as [Heq|Hne]; simpl.
  - exfalso. apply Hnotin. left. exact Heq.
  - apply IH. intros Hin. apply Hnotin. right. exact Hin.
Qed.

Lemma unique_match (mid sid : string) (l : list MessageRow) (m : MessageRow) :
  NoDup (map message_id l) -> In m l -> Sql.message_is mid sid m = true ->
  exists l1 l2, l = (l1 ++ m :: l2)%list
                /\ find (Sql.message_is mid sid) l1 = None
                /\ find (Sql.message_is mid sid) l2 = None.
Proof.
  intros Hnd Hin Hm.
  assert (Hid : message_id m = mid).
  { unfold Sql.message_is in Hm. apply andb_prop in Hm as [Hm _].
    apply String.eqb_eq. exact Hm. }
  apply in_split in Hin as (l1 & l2 & ->).
  exists l1, l2. split; [reflexivity|].
  rewrite map_app in Hnd. simpl in Hnd.
  pose proof (NoDup_remove_2 _ _ _ Hnd) as Hnotin. rewrite Hid in Hnotin.
  split; apply no_row_with_fresh_id; intros H; apply Hnotin; apply in_or_app; auto.
Qed.

Lemma set_read_split (mid sid : string) (l1 l2 : list MessageRow) (m : MessageRow) :
  Sql.message_is mid sid m = true ->
  find (Sql.message_is mid sid) l1 = None ->
  find (Sql.message_is mid sid) l2 = None ->
  Sql.set_read mid sid (l1 ++ m :: l2) = (l1 ++ Sql.read m :: l2)%list.
Proof.
  intros Hm H1 H2. unfold Sql.set_read.
  rewrite map_app. simpl. rewrite Hm.
  rewrite (map_id_when _ Sql.read l1 H1), (map_id_when _ Sql.read l2 H2).
  reflexivity.
Qed.

Lemma delete_message_split (mid sid : string) (l1 l2 : list MessageRow) (m : MessageRow) :
  Sql.message_is mid sid m = true ->
  find (Sql.message_is mid sid) l1 = None ->
  find (Sql.message_is mid sid) l2 = None ->
  Sql.delete_message mid sid (l1 ++ m :: l2) = (l1 ++ l2)%list.
Proof.
  intros Hm H1 H2. unfold Sql.delete_message.
  rewrite filter_app. simpl. rewrite Hm. simpl.
  rewrite (filter_id_when _ l1 H1), (filter_id_when _ l2 H2).
  reflexivity.
Qed.

Lemma set_read_idempotent (mid sid : string) (l : list MessageRow) :
  Sql.set_read mid sid (Sql.set_read mid sid l) = Sql.set_read mid sid l.
Proof.
  unfold Sql.set_read. rewrite map_map. apply map_ext.
  intros m. destruct (Sql.message_is mid sid m) eqn:Hm; [|rewrite Hm; reflexivity].
  change (Sql.message_is mid sid (Sql.read m)) with (Sql.message_is mid sid m).
  rewrite Hm. reflexivity.
Qed.

(** X7. Marking an unread message of a session as read lowers the
    session's unread count by one and changes nothing else that is
    counted or listed: the total and the stored ids stay.  Marking it
    again changes nothing. *)
Theorem mark_read_lowers_unread (w : World) (session_id mid : string) (m : MessageRow) :
  session_id <> "" -> mid <> "" ->
  messages_pk w ->
  In m (messages w) ->
  message_id m = mid -> m_session_id m = session_id -> is_read m = 0 ->
  exists w',
    mark_read_endpoint (Some session_id) (Some mid) w = (VDict [("success", VBool true)], w')
    /\ Sql.count_unread_of session_id (messages w')
       = Sql.count_unread_of session_id (messages w) - 1
    /\ Sql.count_of session_id (messages w') = Sql.count_of session_id (messages w)
    /\ map message_id (messages w') = map message_id (messages w)
    /\ mark_read_endpoint (Some session_id) (Some mid) w'
       = (VDict [("success", VBool true)], w').
Proof.
  intros Hs Hmid Hpk Hin Hid Hsid Hunread.
  assert (Hm : Sql.message_is mid session_id m = true).
  { unfold Sql.message_is. rewrite Hid, Hsid, !String.eqb_refl. reflexivity. }
  destruct (unique_match mid session_id _ m Hpk Hin Hm) as (l1 & l2 & Hl & H1 & H2).
  unfold mark_read_endpoint, mark_as_read.
  rewrite (given_some _ Hs), (given_some _ Hmid).
  eexists. split; [reflexivity|].
  unfold set_messages. cbn [messages sessions active_sessions ticks].
  rewrite set_read_idempotent.
  split; [|split; [|split; [apply set_read_ids | reflexivity]]].
  - rewrite Hl, (set_read_split _ _ _ _ _ Hm H1 H2).
    unfold Sql.count_unread_of, Sql.of_session, Sql.unread_row.
    rewrite !filter_app, !length_app. simpl.
    rewrite Hsid, String.eqb_refl, Hunread. simpl. lia.
  - rewrite Hl, (set_read_split _ _ _ _ _ Hm H1 H2).
    unfold Sql.count_of, Sql.of_session.
    rewrite !filter_app, !length_app. simpl.
    rewrite Hsid, String.eqb_refl. simpl. reflexivity.
Qed.

Lemma filter_map_same {A : Type} (p : A -> bool) (f : A -> A) (l : list A) :
  (forall x, p (f x) = p x) ->
  List.length (filter p (map f l)) = List.length (filter p l).
Proof.
  intros Hp. induction l as [|x l IH]; simpl; [reflexivity|].
  rewrite Hp. destruct (p x); simpl; rewrite IH; reflexivity.
Qed.

(** X8. /mark-all-read leaves the session with no unread message: its
    unread count is 0, its total is unchanged, a listing of its unread
    messages is empty, and the rows of every other session are what they
    were. *)
Theorem mark_all_read_clears_unread (w : World) (session_id : string) :
  session_id <> "" ->
  exists w',
    mark_all_read_endpoint (Some session_id) w = (VDict [("success", VBool true)], w')
    /\ Sql.count_unread_of session_id (messages w') = 0
    /\ Sql.count_of session_id (messages w') = Sql.count_of session_id (messages w)
    /\ selected w' session_id true = []
    /\ filter (fun m => negb (String.eqb (m_session_id m) session_id)) (messages w')
       = filter (fun m => negb (String.eqb (m_session_id m) session_id)) (messages w).
Proof.
  intros Hs. unfold mark_all_read_endpoint. rewrite (given_some _ Hs).
  eexists. split; [reflexivity|].
  unfold set_messages. cbn [messages sessions active_sessions ticks].
  assert (Hnone : filter (fun m => Sql.of_session session_id m && Sql.unread_row m)
                         (Sql.set_all_read session_id (messages w)) = []).
  { unfold Sql.set_all_read.
    induction (messages w) as [|m l IH]; simpl; [reflexivity|].
    destruct (Sql.of_session session_id m) eqn:Hm.
    - change (Sql.of_session session_id (Sql.read m)) with (Sql.of_session session_id m).
      rewrite Hm. simpl. exact IH.
    - rewrite Hm. simpl. exact IH. }
  split; [|split; [|split]].
  - unfold Sql.count_unread_of. rewrite Hnone. reflexivity.
  - unfold Sql.count_of, Sql.set_all_read. f_equal. apply filter_map_same.
    intros m. destruct (Sql.of_session session_id m) eqn:Hm; [|exact Hm].
    exact Hm.
  - unfold selected. cbn [messages]. rewrite Hnone. reflexivity.
  - clear Hnone. unfold Sql.set_all_read, Sql.of_session.
    induction (messages w) as [|m l IH]; simpl; [reflexivity|].
    destruct (String.eqb (m_session_id m) session_id) eqn:Hm; simpl.
    + rewrite Hm. simpl. exact IH.
    + rewrite Hm. simpl. rewrite IH. reflexivity.
Qed.

Lemma find_filter_out {A : Type} (p : A -> bool) (l : list A) :
  find p (filter (fun x => negb (p x)) l) = None.
Proof.
  induction l as [|x l IH]; simpl; [reflexivity|].
  destruct (p x) eqn:Hp; simpl; [exact IH | rewrite Hp; exact IH].
Qed.

(** X9. After /delete-message, /get-message for the same pair answers
    'Message not found'; every row that is not this message of this
    session stays (also a message with the same id in another session);
    and when the message was there, the session's total goes down by
    one. *)
Theorem delete_message_then_lookup (w : World) (session_id mid : string) :
  session_id <> "" -> mid <> "" ->
  exists w',
    delete_message_endpoint (Some session_id) (Some mid) w
      = (VDict [("success", VBool true)], w')
    /\ get_message_endpoint (Some session_id) (Some mid) w' = failure "Message not found"
    /\ (forall m, In m (messages w) ->
          message_id m <> mid \/ m_session_id m <> session_id -> In m (messages w'))
    /\ (messages_pk w ->
        (exists m, In m (messages w) /\ message_id m = mid /\ m_session_id m = session_id) ->
        Sql.count_of session_id (messages w') = Sql.count_of session_id (messages w) - 1).
Proof.
  intros Hs Hmid.
  unfold delete_message_endpoint, delete_message, get_message_endpoint.
  rewrite (given_some _ Hs), (given_some _ Hmid).
  eexists. split; [reflexivity|].
  unfold set_messages. cbn [messages sessions active_sessions ticks].
  split; [|split].
  - unfold Sql.delete_message. rewrite find_filter_out. reflexivity.
  - intros m Hin Hother. unfold Sql.delete_message.
    apply filter_In. split; [exact Hin|].
    unfold Sql.message_is.
    destruct Hother as [H|H]; apply String.eqb_neq in H; rewrite H;
      [reflexivity | rewrite andb_false_r; reflexivity].
  - intros Hpk (m & Hin & Hid & Hsid).
    assert (Hm : Sql.message_is mid session_id m = true).
    { unfold Sql.message_is. rewrite Hid, Hsid, !String.eqb_refl. reflexivity. }
    destruct (unique_match mid session_id _ m Hpk Hin Hm) as (l1 & l2 & Hl & H1 & H2).
    rewrite Hl, (delete_message_split _ _ _ _ _ Hm H1 H2).
    unfold Sql.count_of, Sql.of_session.
    rewrite !filter_app, !length_app. simpl.
    rewrite Hsid, String.eqb_refl. simpl. lia.
Qed.

(** ** Statistics *)

Lemma dict_get_absent {V : Type} (k : string) (d : PyDict.t V) :
  ~ In k (PyDict.keys d) -> PyDict.get k d = None.
Proof.
  unfold PyDict.keys.
  induction d as [|[k' v'] d IH]; simpl; intros Hnotin; [reflexivity|].
  destruct (String.eqb_spec k' k) as [->|Hk].
  - exfalso. apply Hnotin. left. reflexivity.
  - apply IH. intros Hin. apply Hnotin. right. exact Hin.
Qed.

Lemma dict_get_del_same {V : Type} (k : string) (d : PyDict.t V) :
  NoDup (PyDict.keys d) -> PyDict.get k (PyDict.del k d) = None.
Proof.
  induction d as [|[k' v'] d IH]; simpl; intros Hnd; [reflexivity|].
  inversion Hnd as [|? ? Hnotin Hnd']; subst.
  destruct (String.eqb_spec k' k) as [->|Hk]; simpl.
  - apply dict_get_absent. exact Hnotin.
  - destruct (String.eqb_spec k' k); [contradiction | exact (IH Hnd')].
Qed.

Lemma delete_messages_of_none (sid : string) (l : list MessageRow) :
  filter (Sql.of_session sid) (Sql.delete_messages_of sid l) = [].
Proof.
  unfold Sql.delete_messages_of.
  induction l as [|m l IH]; simpl; [reflexivity|].
  destruct (Sql.of_session sid m) eqn:Hm; simpl; [exact IH | rewrite Hm; exact IH].
Qed.

(** X10. Deleting a session cascades: afterwards /get-session-stats of
    that session reports no message at all (total 0, unread 0, no first
    and no last arrival) and the session is no longer live. *)
Theorem delete_session_then_stats (w : World) (sid : string) :
  handles_ok w -> sid <> "" ->
  exists (w' : World) (email created_at : value),
    delete_session_endpoint (Some sid) w = (VDict [("success", VBool true)], w')
    /\ get_session_stats_endpoint (Some sid) w'
       = VDict [("success", VBool true);
                ("stats", VDict [("total_messages", VInt 0); ("unread_messages", VInt 0);
                                 ("first_message", VNone); ("last_message", VNone);
                                 ("email", email); ("created_at", created_at);
                                 ("active", VBool false)])].
Proof.
  intros [Hnd Hkeys] Hs.
  unfold delete_session_endpoint, get_session_stats_endpoint, get_session_stats.
  rewrite (given_some _ Hs).
  set (w1 := match PyDict.get sid (active_sessions w) with
             | Some self => deactivate sid self w
             | None => w
             end).
  assert (Hmem : PyDict.mem sid (active_sessions w1) = false).
  { unfold w1, PyDict.mem.
    destruct (PyDict.get sid (active_sessions w)) as [self|] eqn:Hget.
    - assert (Hself : session_id self = sid).
      { apply dict_get_in in Hget. rewrite Forall_forall in Hkeys.
        exact (Hkeys _ Hget). }
      unfold deactivate, set_active_sessions, set_sessions.
      cbn [active_sessions sessions messages ticks].
      rewrite Hself. unfold PyDict.mem. rewrite dict_get_set_same.
      cbn [active_sessions].
      rewrite dict_get_del_same; [reflexivity|].
      apply dict_set_nodup. exact Hnd.
    - rewrite Hget. reflexivity. }
  do 3 eexists. split; [reflexivity|].
  unfold set_messages, set_sessions. cbn [messages sessions active_sessions ticks].
  rewrite delete_messages_of_none, Hmem.
  reflexivity.
Qed.

Lemma sum_unread_count (rows : list MessageRow) (acc : Z) :
  fold_left (fun acc m => acc + (if is_read m =? 0 then 1 else 0)) rows acc
  = acc + Z.of_nat (List.length (filter Sql.unread_row rows)).
Proof.
  revert acc. induction rows as [|m l IH]; intros acc; simpl; [lia|].
  rewrite IH. unfold Sql.unread_row at 2.
  destruct (is_read m =? 0); simpl List.length; lia.
Qed.

Lemma or_zero_nat (n : nat) : or_zero (Some (Z.of_nat n)) = Z.of_nat n.
Proof.
  unfold or_zero. destruct (Z.eqb_spec (Z.of_nat n) 0) as [H|H]; [rewrite H|]; reflexivity.
Qed.

Lemma lookup_head (k : string) (v : value) (d : list (string * value)) :
  Py.lookup k ((k, v) :: d) = Some v.
Proof. simpl. rewrite String.eqb_refl. reflexivity. Qed.

Lemma lookup_skip (k k' : string) (v : value) (d : list (string * value)) :
  k' <> k -> Py.lookup k ((k', v) :: d) = Py.lookup k d.
Proof. intros H. simpl. apply String.eqb_neq in H. rewrite H. reflexivity. Qed.

(** X11. The two ways of counting agree: the totals of
    /get-session-stats are the [total] and [unread] of a listing of the
    same session (the SUM over no row, NULL, counts as 0).  A session id
    with no row in [sessions] is no error here: its email is reported as
    'Unknown' and its creation time as null. *)
Theorem stats_agree_with_listing (w : World) (session_id : string) :
  Py.lookup "total_messages" (get_session_stats w session_id)
    = Some (VInt (Sql.count_of session_id (messages w)))
  /\ Py.lookup "unread_messages" (get_session_stats w session_id)
     = Some (VInt (Sql.count_unread_of session_id (messages w)))
  /\ (forall limit offset unread_only r,
        get_session_messages w session_id limit offset unread_only = Ok r ->
        Py.lookup "total_messages" (get_session_stats w session_id) = Some (VInt (total r))
        /\ Py.lookup "unread_messages" (get_session_stats w session_id)
           = Some (VInt (unread r)))
  /\ (Sql.select_email session_id (sessions w) = None ->
      Py.lookup "email" (get_session_stats w session_id) = Some (VStr "Unknown")
      /\ Py.lookup "created_at" (get_session_stats w session_id) = Some VNone).
Proof.
  assert (Ht : Py.lookup "total_messages" (get_session_stats w session_id)
               = Some (VInt (Sql.count_of session_id (messages w)))).
  { unfold get_session_stats. (repeat (rewrite lookup_skip by discriminate); rewrite lookup_head).
    rewrite or_zero_nat. reflexivity. }
  assert (Hu : Py.lookup "unread_messages" (get_session_stats w session_id)
               = Some (VInt (Sql.count_unread_of session_id (messages w)))).
  { unfold get_session_stats. (repeat (rewrite lookup_skip by discriminate); rewrite lookup_head).
    do 2 f_equal. unfold Sql.count_unread_of. rewrite <- filter_filter.
    unfold sum_unread.
    destruct (filter (Sql.of_session session_id) (messages w)) as [|m l] eqn:Hrows;
      [reflexivity|].
    rewrite sum_unread_count, Z.add_0_l, or_zero_nat. reflexivity. }
  split; [exact Ht|]. split; [exact Hu|]. split.
  - intros limit offset unread_only r Hr.
    unfold get_session_messages in Hr.
    destruct (int64 limit && int64 offset); [|discriminate].
    injection Hr as <-. cbn [total unread]. split; assumption.
  - unfold Sql.select_email. intros Hnone.
    unfold get_session_stats.
    destruct (find (Sql.session_is session_id) (sessions w)); [discriminate|].
    split; (repeat (rewrite lookup_skip by discriminate); rewrite lookup_head); reflexivity.
Qed.

Lemma filter_split_length {A : Type} (p : A -> bool) (l : list A) :
  List.length l
  = (List.length (filter p l) + List.length (filter (fun x => negb (p x)) l))%nat.
Proof.
  induction l as [|x l IH]; simpl; [reflexivity|].
  destruct (p x); simpl; lia.
Qed.

Lemma filter_twice_length_le {A : Type} (p q : A -> bool) (l : list A) :
  (List.length (filter p (filter q l)) <= List.length (filter p l))%nat.
Proof.
  induction l as [|x l IH]; simpl; [lia|].
  destruct (q x); simpl; destruct (p x); simpl; lia.
Qed.

(** X12. The 'deleted_messages' figure of /get-stats is no count of
    deletions: it is the number of stored messages that have been read,
    less 100, and 0 when that is negative.  Deleting a message never
    makes it go up. *)
Theorem deleted_figure_counts_read_messages (w : World)
    (session_id message_id : option string) :
  stat "deleted_messages" (get_stats_endpoint w)
    = Some (VInt (Z.max 0 (read_count w - 100)))
  /\ read_count (snd (delete_message_endpoint session_id message_id w)) <= read_count w.
Proof.
  split.
  - unfold get_stats_endpoint, stat.
    repeat (rewrite lookup_skip by discriminate); rewrite lookup_head.
    repeat (rewrite lookup_skip by discriminate); rewrite lookup_head.
    rewrite !or_zero_nat. do 3 f_equal.
    unfold read_count, Sql.unread_row.
    rewrite (filter_split_length (fun m => is_read m =? 0) (messages w)) at 1.
    lia.
  - unfold delete_message_endpoint, delete_message.
    destruct (given session_id) as [sid|]; [|cbn [snd]; lia].
    destruct (given message_id) as [mid|]; cbn [snd]; [|lia].
    unfold read_count, set_messages, Sql.delete_message. cbn [messages].
    apply inj_le. apply filter_twice_length_le.
Qed.

(** ** Deleting, purging and reactivating sessions *)

Lemma select_email_set_inactive (sid sid' : string) (t : list SessionRow) :
  Sql.select_email sid (Sql.set_inactive sid' t) = Sql.select_email sid t.
Proof.
  unfold Sql.select_email, Sql.set_inactive.
  induction t as [|r t IH]; simpl; [reflexivity|].
  assert (Hsame : Sql.session_is sid (if Sql.session_is sid' r then Sql.inactive r else r)
                  = Sql.session_is sid r)
    by (destruct (Sql.session_is sid' r); reflexivity).
  rewrite Hsame.
  destruct (Sql.session_is sid r); [|exact IH].
  destruct (Sql.session_is sid' r); reflexivity.
Qed.

Lemma deactivate_sessions (k : string) (self : TempMailSession) (w : World) :
  sessions (deactivate k self w) = Sql.set_inactive (session_id self) (sessions w).
Proof.
  unfold deactivate; simpl. destruct (PyDict.mem _ _); reflexivity.
Qed.

Lemma set_inactive_marks (sid : string) (t : list SessionRow) (r : SessionRow) :
  In r (Sql.set_inactive sid t) -> s_session_id r = sid -> s_is_active r = 0.
Proof.
  unfold Sql.set_inactive. intros Hin Hid.
  apply in_map_iff in Hin as (r0 & Hr & _).
  destruct (Sql.session_is sid r0) eqn:His; subst r; [reflexivity|].
  unfold Sql.session_is in His. apply String.eqb_neq in His. contradiction.
Qed.

(** X13. /delete-session keeps the row of the session and marks it
    inactive: afterwards table [sessions] has the session ids it had, a
    row of the session with its email is there, and every row of the
    session has [is_active = 0].  So a deleted session can always be
    reactivated: /activate-session then answers with the same email, the
    row is active again, and the deleted messages stay deleted. *)
Theorem deleted_session_can_be_reactivated (w : World) (sid address : string) :
  sid <> "" ->
  Sql.select_email sid (sessions w) = Some address ->
  exists w' w'',
    delete_session_endpoint (Some sid) w = (VDict [("success", VBool true)], w')
    /\ (exists r, In r (sessions w') /\ s_session_id r = sid /\ s_email r = address)
    /\ (forall r, In r (sessions w') -> s_session_id r = sid -> s_is_active r = 0)
    /\ map s_session_id (sessions w') = map s_session_id (sessions w)
    /\ activate_session_endpoint (Some sid) w'
       = (Ok (VDict [("success", VBool true); ("email", VStr address);
                     ("session_id", VStr sid)]), w'')
    /\ In (mkSessionRow sid address (clock (ticks w')) (clock (ticks w')) 1) (sessions w'')
    /\ PyDict.mem sid (active_sessions w'') = true
    /\ filter (fun m => String.eqb (m_session_id m) sid) (messages w'') = [].
Proof.
  intros Hs Hknown.
  unfold delete_session_endpoint, activate_session_endpoint.
  rewrite (given_some _ Hs).
  set (w1 := match PyDict.get sid (active_sessions w) with
             | Some self => deactivate sid self w
             | None => w
             end).
  assert (H1 : Sql.select_email sid (sessions w1) = Some address).
  { unfold w1. destruct (PyDict.get sid (active_sessions w)) as [self|]; [|exact Hknown].
    rewrite deactivate_sessions, select_email_set_inactive. exact Hknown. }
  assert (Hids : map s_session_id (sessions w1) = map s_session_id (sessions w)).
  { unfold w1. destruct (PyDict.get sid (active_sessions w)) as [self|]; [|reflexivity].
    apply deactivate_session_ids. }
  do 2 eexists. split; [reflexivity|].
  unfold set_messages, set_sessions. cbn [sessions messages active_sessions ticks].
  split.
  { pose proof H1 as Hrow. unfold Sql.select_email in Hrow.
    destruct (find (Sql.session_is sid) (sessions w1)) as [r0|] eqn:Hfind; [|discriminate].
    injection Hrow as Hmail.
    apply find_some in Hfind as [Hin His].
    exists (Sql.inactive r0). split.
    - unfold Sql.set_inactive. apply in_map_iff. exists r0.
      rewrite His. split; [reflexivity | exact Hin].
    - unfold Sql.session_is in His. apply String.eqb_eq in His.
      split; [exact His | exact Hmail]. }
  split; [intros r; apply set_inactive_marks|].
  split; [rewrite set_inactive_ids; exact Hids|].
  rewrite select_email_set_inactive, H1, TempMailSession_init_str.
  split; [reflexivity|].
  cbn [sessions messages active_sessions ticks].
  split; [apply in_insert_or_replace|]. split.
  - unfold PyDict.mem. rewrite dict_get_set_same. reflexivity.
  - apply delete_messages_of_none.
Qed.

(** X14. After /delete-inactive, a session whose row was inactive with
    its last activity more than 24 hours (24 * 3600 * 1000000
    microseconds) before the call is forgotten: /activate-session on it
    answers 'Session not found' and no message of it is left.  A session
    that was active, or whose last activity is 24 hours old or later,
    keeps its row and email. *)
Theorem purged_session_is_forgotten (w : World) (r : SessionRow) :
  sessions_pk w ->
  24 * 3600 * 1000000 <= clock (ticks w) <= max_datetime ->
  In r (sessions w) -> s_session_id r <> "" ->
  let w' := snd (delete_inactive_endpoint w) in
  let old := (s_is_active r =? 0)
             && (s_last_activity r <? clock (ticks w) - 24 * 3600 * 1000000) in
  if old
  then activate_session_endpoint (Some (s_session_id r)) w'
       = (Ok (failure "Session not found"), w')
       /\ filter (fun m => String.eqb (m_session_id m) (s_session_id r)) (messages w') = []
  else Sql.select_email (s_session_id r) (sessions w') = Some (s_email r).
Proof.
  intros Hpk Hrange Hin Hne w' old.
  set (cutoff := clock (ticks w) - 24 * 3600 * 1000000).
  assert (Hw' : w' = fold_left purge_session
                       (map s_session_id (filter (purgeable cutoff) (sessions w)))
                       (mkWorld (sessions w) (messages w) (active_sessions w)
                                (S (ticks w)))).
  { unfold w', delete_inactive_endpoint, utcnow, Datetime.sub.
    change (timedelta_hours 24) with (24 * 3600 * 1000000). fold cutoff.
    assert (Hc : (0 <=? cutoff) && (cutoff <=? max_datetime) = true).
    { subst cutoff. apply andb_true_intro.
      split; apply Z.leb_le; lia. }
    rewrite Hc. reflexivity. }
  destruct (purge_fold (map s_session_id (filter (purgeable cutoff) (sessions w)))
              (mkWorld (sessions w) (messages w) (active_sessions w) (S (ticks w))))
    as [Hs Hm].
  rewrite <- Hw' in Hs, Hm. cbn [sessions messages] in Hs, Hm.
  assert (Hsess : sessions w' = filter (fun x => negb (purgeable cutoff x)) (sessions w)).
  { rewrite Hs. apply filter_ext_in. intros x Hx.
    rewrite selected_id_iff by assumption. reflexivity. }
  change old with (purgeable cutoff r).
  destruct (purgeable cutoff r) eqn:Hold.
  - assert (Hgone : Sql.select_email (s_session_id r) (sessions w') = None).
    { unfold Sql.select_email. rewrite Hsess.
      destruct (find _ _) as [x|] eqn:Hfind; [|reflexivity].
      apply find_some in Hfind as [Hx Hid].
      apply filter_In in Hx as [Hx Hkept].
      unfold Sql.session_is in Hid. apply String.eqb_eq in Hid.
      assert (x = r) by (apply (pk_unique s_session_id (sessions w)); assumption).
      subst x. rewrite Hold in Hkept. discriminate. }
    split.
    + unfold activate_session_endpoint. rewrite (given_some _ Hne), Hgone. reflexivity.
    + rewrite Hm, filter_filter.
      apply filter_none. intros m _.
      destruct (String.eqb_spec (m_session_id m) (s_session_id r)) as [Heq|Hneq];
        [|apply andb_false_r].
      rewrite Heq, selected_id_iff, Hold by assumption. reflexivity.
  - unfold Sql.select_email. rewrite Hsess.
    assert (Hfind : forall t : list SessionRow,
               NoDup (map s_session_id t) -> In r t ->
               find (Sql.session_is (s_session_id r))
                    (filter (fun x => negb (purgeable cutoff x)) t) = Some r).
    { induction t as [|x t IH]; simpl; intros Hnd Hr; [contradiction|].
      inversion Hnd as [|? ? Hnotin Hnd']; subst.
      destruct Hr as [->|Hr].
      - rewrite Hold. simpl. unfold Sql.session_is. rewrite String.eqb_refl. reflexivity.
      - assert (Hx : Sql.session_is (s_session_id r) x = false).
        { unfold Sql.session_is. apply String.eqb_neq. intros Heq.
          apply Hnotin. rewrite Heq. apply in_map. exact Hr. }
        destruct (purgeable cutoff x); simpl; [|rewrite Hx]; apply IH; assumption. }
    rewrite (Hfind (sessions w) Hpk Hin). reflexivity.
Qed.

(** ** Checking the inbox *)

Lemma store_messages_frame (msgs : value) (sid rcpt : string) (w : World) :
  sessions (snd (store_messages_in_db msgs sid rcpt w)) = sessions w
  /\ active_sessions (snd (store_messages_in_db msgs sid rcpt w)) = active_sessions w.
Proof.
  unfold store_messages_in_db.
  destruct (iter msgs) as [l|ex]; cbn [snd]; [|split; reflexivity].
  revert w. induction l as [|msg l IH]; intros w; cbn [fold_left]; [split; reflexivity|].
  destruct (store_message_appends sid rcpt w msg) as (a & _ & Hs & Hh & _).
  destruct (IH (store_message sid rcpt w msg)) as [Hs' Hh'].
  rewrite Hs', Hh', Hs, Hh. split; reflexivity.
Qed.

Lemma get_inbox_frame (outcome : HttpOutcome) (e sid : string) (w : World) :
  sessions (snd (get_inbox outcome e sid w)) = sessions w
  /\ active_sessions (snd (get_inbox outcome e sid w)) = active_sessions w.
Proof.
  unfold get_inbox.
  destruct outcome as [|status body]; [split; reflexivity|].
  destruct (negb (status =? 200)); [split; reflexivity|].
  destruct body as [data|]; [|split; reflexivity].
  destruct (contains "messages" data) as [[|]|]; try (split; reflexivity).
  destruct (getitem "messages" data) as [msgs|]; [|split; reflexivity].
  destruct (truthy msgs); [|split; reflexivity].
  pose proof (store_messages_frame msgs sid e w) as H.
  destruct (store_messages_in_db msgs sid e w) as [[u|ex] w']; exact H.
Qed.

Lemma check_inbox_state (outcome : HttpOutcome) (e sid : string) (w : World) :
  e <> "" -> sid <> "" ->
  snd (check_inbox_endpoint outcome (Some e) (Some sid) w)
  = snd (get_inbox outcome e sid
           (match PyDict.get sid (active_sessions w) with
            | Some self => update_activity sid self w
            | None => w
            end)).
Proof.
  intros He Hs. unfold check_inbox_endpoint.
  rewrite (given_some _ He), (given_some _ Hs).
  destruct (get_inbox outcome e sid _) as [raw w2]. cbn [snd].
  destruct (truthy raw); [|reflexivity].
  destruct (contains "messages" raw) as [[|]|]; reflexivity.
Qed.

(** X15. /check-inbox touches the session only when it is live: with a
    live handle the [last_activity] of the session's row becomes the
    clock reading of the call and nothing else in table [sessions]
    changes; without a handle the table is left as it is (no error).
    No handle is added or dropped either way. *)
Theorem check_inbox_touches_live_session (outcome : HttpOutcome) (e sid : string)
    (w : World) :
  e <> "" -> sid <> "" -> handles_ok w ->
  sessions (snd (check_inbox_endpoint outcome (Some e) (Some sid) w))
  = (if PyDict.mem sid (active_sessions w)
     then map (fun r => if String.eqb (s_session_id r) sid
                        then mkSessionRow (s_session_id r) (s_email r) (s_created_at r)
                                          (clock (ticks w)) (s_is_active r)
                        else r) (sessions w)
     else sessions w)
  /\ PyDict.keys (active_sessions (snd (check_inbox_endpoint outcome (Some e) (Some sid) w)))
     = PyDict.keys (active_sessions w).
Proof.
  intros He Hs [Hnd Hkeys].
  rewrite (check_inbox_state outcome e sid w He Hs).
  destruct (get_inbox_frame outcome e sid
              (match PyDict.get sid (active_sessions w) with
               | Some self => update_activity sid self w
               | None => w
               end)) as [Hsess Hact].
  rewrite Hsess, Hact. unfold PyDict.mem.
  destruct (PyDict.get sid (active_sessions w)) as [self|] eqn:Hget; [|split; reflexivity].
  assert (Hself : session_id self = sid).
  { apply dict_get_in in Hget. rewrite Forall_forall in Hkeys. exact (Hkeys _ Hget). }
  unfold update_activity, utcnow, set_sessions, set_active_sessions.
  cbn [sessions messages active_sessions ticks].
  rewrite Hself. split; [reflexivity|].
  clear - Hget. unfold PyDict.keys.
  induction (active_sessions w) as [|[k v] d IH]; simpl in *; [discriminate|].
  destruct (String.eqb_spec k sid) as [->|Hk]; simpl; [reflexivity|].
  rewrite (IH Hget). reflexivity.
Qed.

(** X16. The 'new_count' of /check-inbox is not the number of messages
    that just arrived: with status 'ok' it is the number of unread
    messages the session has in the store after the fetch, and with
    'no_messages' it is 0 whatever the store holds.  When the fetch
    failed the store's messages are what they were. *)
Theorem new_count_is_unread_in_store (outcome : HttpOutcome) (e sid : string) (w : World) :
  e <> "" -> sid <> "" ->
  exists (new_count : Z) (status : string) (w' : World),
    check_inbox_endpoint outcome (Some e) (Some sid) w
      = (Ok (VDict [("success", VBool true); ("new_count", VInt new_count);
                    ("status", VStr status)]), w')
    /\ (status = "ok" -> new_count = Sql.count_unread_of sid (messages w'))
    /\ (status = "no_messages" -> new_count = 0)
    /\ (fetch_failed outcome = true -> messages w' = messages w).
Proof.
  intros He Hs.
  unfold check_inbox_endpoint.
  rewrite (given_some _ He), (given_some _ Hs).
  set (w1 := match PyDict.get sid (active_sessions w) with
             | Some self => update_activity sid self w
             | None => w
             end).
  assert (Hm1 : messages w1 = messages w).
  { unfold w1. destruct (PyDict.get sid (active_sessions w)); reflexivity. }
  assert (Hlist : forall w2, get_session_messages w2 sid 50 0 true
                             = Ok (mkListing
                                     (map view (Sql.limit_offset 50 0 (selected w2 sid true)))
                                     (Sql.count_of sid (messages w2))
                                     (Sql.count_unread_of sid (messages w2))
                                     (Sql.count_of sid (messages w2) >? 0 + 50)))
    by reflexivity.
  destruct (fetch_failed outcome) eqn:Hf.
  - destruct (get_inbox_failed outcome e sid w1 Hf) as [extra Hg].
    rewrite Hg.
    change (truthy (inbox_error extra)) with true.
    change (contains "messages" (inbox_error extra)) with (@Ok bool true).
    cbv iota. rewrite Hlist.
    do 3 eexists. split; [reflexivity|]. cbn [unread].
    split; [reflexivity|]. split; [discriminate|]. intros _. exact Hm1.
  - destruct (get_inbox_shape outcome e sid w1)
      as [(extra & w2 & Hg) | (data & b & w2 & Hg & Hin)]; rewrite Hg.
    + change (truthy (inbox_error extra)) with true.
      change (contains "messages" (inbox_error extra)) with (@Ok bool true).
      cbv iota. rewrite Hlist.
      do 3 eexists. split; [reflexivity|]. cbn [unread].
      split; [reflexivity|]. split; discriminate.
    + destruct (truthy data).
      * rewrite Hin. destruct b.
        -- rewrite Hlist.
           do 3 eexists. split; [reflexivity|]. cbn [unread].
           split; [reflexivity|]. split; discriminate.
        -- do 3 eexists. split; [reflexivity|].
           split; [discriminate|]. split; [reflexivity | discriminate].
      * do 3 eexists. split; [reflexivity|].
        split; [discriminate|]. split; [reflexivity | discriminate].
Qed.

(** ** Listing and export *)

Lemma limit_offset_incl {A : Type} (limit offset : Z) (l : list A) :
  incl (Sql.limit_offset limit offset l) l.
Proof.
  unfold Sql.limit_offset. intros x Hx.
  destruct (limit <? 0).
  - apply (In_nth _ _ x) in Hx as (n & Hn & Hnth).
    rewrite <- (firstn_skipn (Z.to_nat offset) l). apply in_or_app. right.
    rewrite <- Hnth. apply nth_In. exact Hn.
  - assert (Hin : In x (skipn (Z.to_nat offset) l)).
    { rewrite <- (firstn_skipn (Z.to_nat limit) (skipn (Z.to_nat offset) l)).
      apply in_or_app. left. exact Hx. }
    rewrite <- (firstn_skipn (Z.to_nat offset) l). apply in_or_app. right. exact Hin.
Qed.

Lemma limit_offset_length {A : Type} (limit offset : Z) (l : list A) :
  (List.length (Sql.limit_offset limit offset l) <= List.length l)%nat
  /\ (0 <= limit -> Z.of_nat (List.length (Sql.limit_offset limit offset l)) <= limit).
Proof.
  unfold Sql.limit_offset.
  pose proof (length_skipn (Z.to_nat offset) l) as Hskip.
  destruct (Z.ltb_spec limit 0).
  - split; lia.
  - rewrite length_firstn. split; lia.
Qed.

(** X17. A page never holds more than [limit] messages (for a limit that
    is not negative) nor more than the session has; the unread count
    never exceeds the total; and with the unread-only flag every listed
    message is unread. *)
Theorem page_within_limit (w : World) (sid : string) (limit offset : Z)
    (unread_only : bool) (r : Listing) :
  get_session_messages w sid limit offset unread_only = Ok r ->
  (0 <= limit -> Z.of_nat (List.length (listed r)) <= limit)
  /\ Z.of_nat (List.length (listed r)) <= total r
  /\ 0 <= unread r <= total r
  /\ (unread_only = true -> Forall (fun v => msg_is_read v = false) (listed r)).
Proof.
  unfold get_session_messages.
  destruct (int64 limit && int64 offset); [|discriminate].
  intros [= <-]. cbn [listed total unread].
  rewrite length_map.
  destruct (limit_offset_length limit offset (selected w sid unread_only)) as [Hlen Hlim].
  assert (Hsel : (List.length (selected w sid unread_only)
                  <= List.length (filter (Sql.of_session sid) (messages w)))%nat).
  { unfold selected. rewrite (Permutation_length (order_by_perm _)).
    rewrite <- (filter_filter (fun m => if unread_only then Sql.unread_row m else true)).
    apply List.filter_length_le. }
  split; [exact Hlim|]. split; [unfold Sql.count_of; lia|]. split.
  - unfold Sql.count_unread_of, Sql.count_of.
    rewrite <- (filter_filter Sql.unread_row (Sql.of_session sid)).
    pose proof (List.filter_length_le Sql.unread_row
                  (filter (Sql.of_session sid) (messages w))).
    lia.
  - intros ->. apply Forall_forall. intros v Hv.
    apply in_map_iff in Hv as (m & <- & Hm).
    apply limit_offset_incl in Hm. unfold selected in Hm.
    apply (Permutation_in _ (order_by_perm _)) in Hm.
    apply filter_In in Hm as [_ Hm]. apply andb_prop in Hm as [_ Hm].
    unfold view. cbn [msg_is_read]. unfold Sql.unread_row in Hm. rewrite Hm. reflexivity.
Qed.

(** X18. Exporting a session that has no message is no error: as 'csv'
    the content is the header row alone, as 'txt' it is the empty
    string, and as 'json' it is the serialisation of the empty list. *)
Theorem export_of_empty_session (w : World) (sid : string) :
  filter (fun m => String.eqb (m_session_id m) sid) (messages w) = [] ->
  export_messages w sid "csv"
    = Ok ("Sender,Recipient,Subject,Preview,Received At,Read"
          ++ String "013" (String "010" EmptyString))
  /\ export_messages w sid "txt" = Ok ""
  /\ export_messages w sid "json" = Ok (json_dumps []).
Proof.
  intros Hnone.
  assert (Hsel : selected w sid false = []).
  { unfold selected.
    rewrite (filter_ext _ (fun m => String.eqb (m_session_id m) sid)), Hnone;
      [reflexivity|].
    intros m. unfold Sql.of_session. apply andb_true_r. }
  unfold export_messages.
  change (get_session_messages w sid 1000 0 false)
    with (Ok (mkListing
                (map view (Sql.limit_offset 1000 0 (selected w sid false)))
                (Sql.count_of sid (messages w))
                (Sql.count_unread_of sid (messages w))
                (Sql.count_of sid (messages w) >? 0 + 1000))).
  cbv beta iota. cbn [listed]. rewrite Hsel.
  repeat split.
Qed.

(** ** Text messages *)

Lemma split_lines_cons (c : ascii) (r : string) :
  PyStr.split_lines (String c r)
  = if Ascii.eqb c "010"%char then EmptyString :: PyStr.split_lines r
    else match PyStr.split_lines r with
         | h :: t => String c h :: t
         | [] => [String c EmptyString]
         end.
Proof. reflexivity. Qed.

Lemma split_lines_nonempty (s : string) : PyStr.split_lines s <> [].
Proof.
  destruct s as [|c r]; [discriminate|].
  rewrite split_lines_cons.
  destruct (Ascii.eqb c "010"%char); [discriminate|].
  destruct (PyStr.split_lines r); discriminate.
Qed.

(** A text that is one line, followed by a newline and more text. *)
Lemma split_lines_line (a b : string) :
  PyStr.split_lines a = [a] ->
  PyStr.split_lines (a ++ String "010"%char b) = a :: PyStr.split_lines b.
Proof.
  induction a as [|c r IH]; intros Hone.
  - reflexivity.
  - rewrite split_lines_cons in Hone.
    change (String c r ++ String "010"%char b) with (String c (r ++ String "010"%char b)).
    rewrite split_lines_cons.
    destruct (Ascii.eqb c "010"%char); [discriminate|].
    destruct (PyStr.split_lines r) as [|h t] eqn:Hr.
    + exfalso. exact (split_lines_nonempty r Hr).
    + injection Hone as -> ->. rewrite (IH eq_refl). reflexivity.
Qed.

(** X19. The line convention for a text message.  The lines are those
    of the text once it is stripped of surrounding white space, leading
    and trailing blank lines included.  When these are four or more,
    the sender is the first of them with every 'NEW' taken out, the
    subject is the third and the preview the fourth, each stripped of
    surrounding white space; the second line and everything after the
    fourth are ignored.  The full content is the text as it came, not
    stripped. *)
Theorem text_message_fields (msg l0 l1 l2 rest : string) :
  PyStr.split_lines l0 = [l0] -> PyStr.split_lines l1 = [l1] ->
  PyStr.split_lines l2 = [l2] ->
  PyStr.strip msg = l0 ++ String "010"%char (l1 ++ String "010"%char
                                               (l2 ++ String "010"%char rest)) ->
  extract (VStr msg)
  = (VStr (PyStr.strip (PyStr.remove_NEW l0)),
     VStr (PyStr.strip l2),
     VStr (PyStr.strip (nth 0 (PyStr.split_lines rest) "")),
     msg).
Proof.
  intros H0 H1 H2 Hstrip.
  unfold extract. rewrite Hstrip.
  rewrite (split_lines_line l0 _ H0), (split_lines_line l1 _ H1),
    (split_lines_line l2 _ H2).
  destruct (PyStr.split_lines rest) as [|l3 more] eqn:Hrest.
  - exfalso. exact (split_lines_nonempty rest Hrest).
  - reflexivity.
Qed.

(** X20. Short text messages, the lines again being those of the
    stripped text.  With three lines there is no preview line: sender
    and subject come from the first and third line and the preview is
    'No preview'.  With two lines or one the text is not parsed at all
    and gets 'Unknown', 'No Subject' and 'No preview'.  The full content
    is the text as it came in each case. *)
Theorem short_text_message_fields (three two one l0 l1 l2 : string) :
  PyStr.split_lines l0 = [l0] -> PyStr.split_lines l1 = [l1] ->
  PyStr.split_lines l2 = [l2] ->
  PyStr.strip three = l0 ++ String "010"%char (l1 ++ String "010"%char l2) ->
  PyStr.strip two = l0 ++ String "010"%char l1 ->
  PyStr.strip one = l0 ->
  extract (VStr three)
    = (VStr (PyStr.strip (PyStr.remove_NEW l0)), VStr (PyStr.strip l2),
       VStr "No preview", three)
  /\ extract (VStr two) = (VStr "Unknown", VStr "No Subject", VStr "No preview", two)
  /\ extract (VStr one) = (VStr "Unknown", VStr "No Subject", VStr "No preview", one).
Proof.
  intros H0 H1 H2 Hs3 Hs2 Hs1.
  unfold extract. rewrite Hs3, Hs2, Hs1.
  rewrite !(split_lines_line l0 _ H0), !(split_lines_line l1 _ H1), H0, H1, H2.
  repeat split.
Qed.

(** ** The list of sessions *)

Lemma insert_by_id_perm (r : SessionRow) (l : list SessionRow) :
  Permutation (insert_by_id r l) (r :: l).
Proof.
  induction l as [|x l IH]; simpl; [reflexivity|].
  destruct (String.ltb (s_session_id x) (s_session_id r)); [|reflexivity].
  rewrite IH. apply perm_swap.
Qed.

Lemma insert_by_activity_perm (r : SessionRow) (l : list SessionRow) :
  Permutation (insert_by_activity r l) (r :: l).
Proof.
  induction l as [|x l IH]; simpl; [reflexivity|].
  destruct (s_last_activity r <? s_last_activity x); [|reflexivity].
  rewrite IH. apply perm_swap.
Qed.

Lemma sessions_by_activity_perm (t : list SessionRow) :
  Permutation (sessions_by_activity t) t.
Proof.
  unfold sessions_by_activity.
  assert (H1 : forall l, Permutation (fold_right insert_by_activity [] l) l).
  { induction l as [|x l IH]; simpl; [reflexivity|].
    rewrite insert_by_activity_perm. constructor. exact IH. }
  assert (H2 : forall l, Permutation (fold_right insert_by_id [] l) l).
  { induction l as [|x l IH]; simpl; [reflexivity|].
    rewrite insert_by_id_perm. constructor. exact IH. }
  rewrite H1. apply H2.
Qed.

Lemma insert_by_activity_sorted (r : SessionRow) (l : list SessionRow) :
  Sorted (fun a b => s_last_activity b <= s_last_activity a) l ->
  Sorted (fun a b => s_last_activity b <= s_last_activity a) (insert_by_activity r l).
Proof.
  induction l as [|x l IH]; simpl; intros Hs.
  - repeat constructor.
  - destruct (Z.ltb_spec (s_last_activity r) (s_last_activity x)) as [Hlt|Hge].
    + apply Sorted_inv in Hs as [Hs Hhd].
      constructor; [exact (IH Hs)|].
      destruct l as [|y l]; simpl.
      * constructor; lia.
      * destruct (Z.ltb_spec (s_last_activity r) (s_last_activity y)).
        -- constructor. inversion Hhd; assumption.
        -- constructor; lia.
    + constructor; [exact Hs|]. constructor; lia.
Qed.

(** X21. /get-sessions lists every row of table [sessions] once, the
    inactive ones too, latest activity first; each entry carries the
    session's own message total and unread count, and its 'active' flag
    says whether the session has a live handle, which the stored
    [is_active] flag does not. *)
Theorem get_sessions_lists_every_session (w : World) :
  exists rows : list SessionRow,
    get_sessions_endpoint w
      = VDict [("success", VBool true); ("sessions", VList (map (session_entry w) rows))]
    /\ Permutation rows (sessions w)
    /\ StronglySorted (fun a b => s_last_activity b <= s_last_activity a) rows
    /\ (forall r,
          getitem "session_id" (session_entry w r) = Ok (VStr (s_session_id r))
          /\ getitem "total_messages" (session_entry w r)
             = Ok (VInt (Sql.count_of (s_session_id r) (messages w)))
          /\ getitem "unread_messages" (session_entry w r)
             = Ok (VInt (Sql.count_unread_of (s_session_id r) (messages w)))
          /\ getitem "is_active" (session_entry w r)
             = Ok (VBool (negb (s_is_active r =? 0)))
          /\ getitem "active" (session_entry w r)
             = Ok (VBool (PyDict.mem (s_session_id r) (active_sessions w)))).
Proof.
  exists (sessions_by_activity (sessions w)).
  split; [reflexivity|]. split; [apply sessions_by_activity_perm|]. split.
  - apply Sorted_StronglySorted; [intros a b c; lia|].
    unfold sessions_by_activity.
    induction (fold_right insert_by_id [] (sessions w)) as [|x l IH]; simpl;
      [constructor | apply insert_by_activity_sorted; exact IH].
  - intros r. unfold session_entry, getitem.
    repeat split;
      repeat (rewrite lookup_skip by discriminate); rewrite lookup_head;
      try reflexivity.
    + rewrite or_zero_nat. reflexivity.
    + rewrite sum_unread_count, Z.add_0_l, or_zero_nat.
      unfold Sql.count_unread_of. rewrite <- filter_filter. reflexivity.
Qed.

(** ** Emptying one session, fetching one message *)

Lemma filter_subsumed {A : Type} (p q : A -> bool) (l : list A) :
  (forall x, p x = true -> q x = true) -> filter p (filter q l) = filter p l.
Proof.
  intros Hpq. induction l as [|x l IH]; simpl; [reflexivity|].
  destruct (q x) eqn:Hq; simpl.
  - rewrite IH. reflexivity.
  - destruct (p x) eqn:Hp; [|exact IH].
    rewrite (Hpq x Hp) in Hq. discriminate.
Qed.

Lemma of_session_other (sid other : string) (m : MessageRow) :
  other <> sid -> Sql.of_session other m = true -> negb (Sql.of_session sid m) = true.
Proof.
  unfold Sql.of_session. intros Hne Hm.
  apply String.eqb_eq in Hm. apply negb_true_iff, String.eqb_neq. congruence.
Qed.

(** X23. /delete-all-messages empties one session and nothing else:
    afterwards a listing of the session is empty with total 0 and
    unread 0, every listing of every other session is what it was, and
    the session itself stays, row and live handle. *)
Theorem delete_all_messages_is_local (w : World) (sid : string) :
  sid <> "" ->
  let w' := snd (delete_all_messages_endpoint (Some sid) w) in
  fst (delete_all_messages_endpoint (Some sid) w) = VDict [("success", VBool true)]
  /\ sessions w' = sessions w
  /\ active_sessions w' = active_sessions w
  /\ (forall limit offset unread_only r,
        get_session_messages w' sid limit offset unread_only = Ok r ->
        listed r = [] /\ total r = 0 /\ unread r = 0 /\ has_more r = (0 >? offset + limit))
  /\ (forall other limit offset unread_only,
        other <> sid ->
        get_session_messages w' other limit offset unread_only
        = get_session_messages w other limit offset unread_only).
Proof.
  intros Hsid w'. unfold w', delete_all_messages_endpoint.
  rewrite (given_some sid Hsid). cbn [fst snd].
  unfold set_messages. cbn [sessions active_sessions messages].
  repeat (split; [reflexivity|]). split.
  - intros limit offset unread_only r. unfold get_session_messages.
    destruct (int64 limit && int64 offset); [|discriminate].
    intros [= <-]. cbn [listed total unread has_more messages].
    assert (Hsel : selected (mkWorld (sessions w) (Sql.delete_messages_of sid (messages w))
                               (active_sessions w) (ticks w)) sid unread_only = []).
    { unfold selected. cbn [messages].
      rewrite <- (filter_filter (fun m => if unread_only then Sql.unread_row m else true)).
      rewrite delete_messages_of_none. reflexivity. }
    rewrite Hsel. unfold Sql.count_of, Sql.count_unread_of.
    rewrite <- (filter_filter Sql.unread_row (Sql.of_session sid)).
    rewrite delete_messages_of_none.
    unfold Sql.limit_offset. rewrite skipn_nil, firstn_nil.
    destruct (limit <? 0); repeat split.
  - intros other limit offset unread_only Hne. unfold get_session_messages, selected.
    cbn [messages]. unfold Sql.count_of, Sql.count_unread_of, Sql.delete_messages_of.
    rewrite !filter_subsumed; [reflexivity| | |].
    + intros m Hm. apply andb_prop in Hm as [Hm _].
      exact (of_session_other sid other m Hne Hm).
    + intros m Hm. exact (of_session_other sid other m Hne Hm).
    + intros m Hm. apply andb_prop in Hm as [Hm _].
      exact (of_session_other sid other m Hne Hm).
Qed.

Lemma find_app_first {A : Type} (p : A -> bool) (l1 l2 : list A) (x : A) :
  find p l1 = None -> p x = true -> find p (l1 ++ x :: l2)%list = Some x.
Proof.
  induction l1 as [|y l1 IH]; simpl; intros Hnone Hx.
  - rewrite Hx. reflexivity.
  - destruct (p y); [discriminate|]. exact (IH Hnone Hx).
Qed.

(** X24. Whatever /get-messages lists can be fetched: for a message on
    any page of a session, /get-message with the listed id answers
    success=true with the sender, recipient, subject, preview, content
    and time of the listing.  The message ids being the primary key of
    the table is what makes the lookup hit the listed row. *)
Theorem listed_message_can_be_fetched (w : World) (sid : string) (limit offset : Z)
    (unread_only : bool) (r : Listing) (v : MessageView) :
  messages_pk w -> sid <> "" -> msg_id v <> "" ->
  get_session_messages w sid limit offset unread_only = Ok r ->
  In v (listed r) ->
  get_message_endpoint (Some sid) (Some (msg_id v)) w
  = VDict [("success", VBool true);
           ("message", VDict [("sender", of_text (msg_sender v));
                              ("recipient", VStr (msg_recipient v));
                              ("subject", of_text (msg_subject v));
                              ("preview", of_text (msg_preview v));
                              ("content", VStr (msg_content v));
                              ("time", VStr (msg_time v))])].
Proof.
  intros Hpk Hsid Hid. unfold get_session_messages.
  destruct (int64 limit && int64 offset); [|discriminate].
  intros [= <-]. cbn [listed]. intros Hv.
  apply in_map_iff in Hv as (m & <- & Hm).
  apply limit_offset_incl in Hm. unfold selected in Hm.
  apply (Permutation_in _ (order_by_perm _)) in Hm.
  apply filter_In in Hm as [Hin Hm]. apply andb_prop in Hm as [Hm _].
  assert (His : Sql.message_is (message_id m) sid m = true).
  { unfold Sql.message_is. rewrite String.eqb_refl. exact Hm. }
  destruct (unique_match (message_id m) sid (messages w) m Hpk Hin His)
    as (l1 & l2 & Hsplit & Hl1 & _).
  unfold get_message_endpoint.
  unfold view in Hid. cbn [msg_id] in Hid.
  rewrite (given_some sid Hsid). unfold view at 1. cbn [msg_id].
  rewrite (given_some (message_id m) Hid).
  rewrite Hsplit, (find_app_first _ l1 l2 m Hl1 His).
  reflexivity.
Qed.

End Program.

(* ================================================================== *)
(** * The properties on the sample data *)

(** Ingesting [Sample.raw] into a fresh store at 00:00:00 and again at
    00:00:01 leaves two rows. *)
Lemma reingestion_duplicates_witness :
  let id1 := derive_message_id Hashlib.sha256_hexdigest Sample.repr
               (VStr "alice@example.com") (VStr "Hello") (VStr "Hi there")
               (Sample.clock 0) in
  let id2 := derive_message_id Hashlib.sha256_hexdigest Sample.repr
               (VStr "alice@example.com") (VStr "Hello") (VStr "Hi there")
               (Sample.clock 1) in
  id1 <> id2
  /\ exists once twice : World,
      store_messages_in_db Hashlib.sha256_hexdigest Sample.repr Sample.real_text
        Sample.clock (VList [Sample.raw]) "s1" "box@example.com" init_world
      = (Ok tt, once)
      /\ store_messages_in_db Hashlib.sha256_hexdigest Sample.repr Sample.real_text
           Sample.clock (VList [Sample.raw]) "s1" "box@example.com" once
         = (Ok tt, twice)
      /\ Sql.count_of "s1" (messages once) = Sql.count_of "s1" (messages init_world) + 1
      /\ Sql.count_of "s1" (messages twice) = Sql.count_of "s1" (messages init_world) + 2.
Proof.
  assert (Hdiff :
    derive_message_id Hashlib.sha256_hexdigest Sample.repr
      (VStr "alice@example.com") (VStr "Hello") (VStr "Hi there") (Sample.clock 0)
    <> derive_message_id Hashlib.sha256_hexdigest Sample.repr
         (VStr "alice@example.com") (VStr "Hello") (VStr "Hi there") (Sample.clock 1)).
  { intros H. vm_compute in H. discriminate H. }
  split; [exact Hdiff|].
  apply (reingestion_duplicates Hashlib.sha256_hexdigest Sample.repr Sample.real_text
           Sample.clock init_world Sample.raw "s1" "box@example.com"
           (VStr "alice@example.com") (VStr "Hello") (VStr "Hi there")
           "Hi there, how are you?"
           (Some "alice@example.com") (Some "Hello") (Some "Hi there"));
    try reflexivity.
  exact Hdiff.
Defined.

(** The two rows of that run, with the ids hashlib gives. *)
Example reingestion_ids :
  let once := snd (store_messages_in_db Hashlib.sha256_hexdigest Sample.repr
                     Sample.real_text Sample.clock (VList [Sample.raw])
                     "s1" "box@example.com" init_world) in
  let twice := snd (store_messages_in_db Hashlib.sha256_hexdigest Sample.repr
                      Sample.real_text Sample.clock (VList [Sample.raw])
                      "s1" "box@example.com" once) in
  map message_id (messages once) = ["cb323df3fd252aa2"]
  /\ map message_id (messages twice) = ["cb323df3fd252aa2"; "2c7f8a0a448e1c1b"]
  /\ map received_at (messages twice) = [Sample.clock 0; Sample.clock 1].
Proof. vm_compute. repeat split. Qed.

(** With the gateway down, the address is synthesised and the answer
    says [fallback: false]. *)
Lemma fallback_not_flagged_witness :
  (forall st, In st strategies -> strategy_fails (Sample.api_down st) = true)
  /\ exists (address sid : string) (w' : World),
      generate_email Hashlib.sha256_hexdigest Hashlib.md5_hexdigest Sample.repr
        Sample.real_text Sample.clock Sample.api_down Sample.uuid_str Sample.uuid_hex
        1704153600 VNone init_world
      = (Ok [("email", VStr address); ("session_id", VStr sid);
             ("custom", VBool (is_not_None VNone))], w')
      /\ (truthy VNone = false ->
          address = PyStr.take 10 (Hashlib.md5_hexdigest Sample.uuid_str) ++ "@tempmail.tmp")
      /\ PyDict.mem sid (active_sessions w') = true
      /\ generate_email_endpoint Hashlib.sha256_hexdigest Hashlib.md5_hexdigest
           Sample.repr Sample.real_text Sample.clock Sample.api_down Sample.uuid_str
           Sample.uuid_hex 1704153600 VNone init_world
         = (Ok (VDict [("success", VBool true); ("email", VStr address);
                       ("session_id", VStr sid);
                       ("custom", VBool (is_not_None VNone));
                       ("fallback", VBool false)]), w').
Proof.
  split; [intros st _; reflexivity|].
  apply (fallback_not_flagged Hashlib.sha256_hexdigest Hashlib.md5_hexdigest
           Sample.repr Sample.real_text Sample.clock Sample.api_down Sample.uuid_str
           Sample.uuid_hex 1704153600 VNone init_world).
  intros st _; reflexivity.
Defined.

(** The answer of that run. *)
Example fallback_answer :
  fst (generate_email_endpoint Hashlib.sha256_hexdigest Hashlib.md5_hexdigest
         Sample.repr Sample.real_text Sample.clock Sample.api_down Sample.uuid_str
         Sample.uuid_hex 1704153600 VNone init_world)
  = Ok (VDict [("success", VBool true); ("email", VStr "834a058332@tempmail.tmp");
               ("session_id", VStr "45d4b3191490"); ("custom", VBool false);
               ("fallback", VBool false)]).
Proof. vm_compute. reflexivity. Qed.

(** The except branch does set the flag: with a prefix asked for and a
    gateway that answers 200 with a number for an address, ['@' in email]
    raises and the answer says [fallback: true]. *)
Example ultimate_fallback_answer :
  fst (generate_email_endpoint Hashlib.sha256_hexdigest Hashlib.md5_hexdigest
         Sample.repr Sample.real_text Sample.clock
         (fun _ => Response 200 (Some (VDict [("email", VInt 5)])))
         Sample.uuid_str Sample.uuid_hex 1704153600 (VStr "me") init_world)
  = Ok (VDict [("success", VBool true);
               ("email", VStr "temp_1704153600_123e45@fallback.tmp");
               ("session_id", VStr "c2c69d2ebf"); ("custom", VBool false);
               ("fallback", VBool true)]).
Proof. vm_compute. reflexivity. Qed.

(** Two pages of two cover the three messages of session s_live. *)
Lemma pages_reproduce_listing_witness :
  0 < 2
  /\ 2 * Z.of_nat 2 < 2 ^ 63
  /\ Z.of_nat (List.length (filter (fun m => String.eqb (m_session_id m) "s_live")
                                   (messages Sample.world))) <= 2 * Z.of_nat 2
  /\ exists rows : list MessageRow,
      fetch_pages Sample.world "s_live" 2 0 2 = Ok (map view rows)
      /\ Permutation rows
           (filter (fun m => String.eqb (m_session_id m) "s_live") (messages Sample.world))
      /\ StronglySorted (fun a b => received_at b <= received_at a) rows
      /\ (forall t : datetime,
            filter (fun m => received_at m =? t) rows
            = filter (fun m => (received_at m =? t) && String.eqb (m_session_id m) "s_live")
                     (messages Sample.world)).
Proof.
  assert (H1 : 0 < 2) by lia.
  assert (H2 : 2 * Z.of_nat 2 < 2 ^ 63) by reflexivity.
  assert (H3 : Z.of_nat (List.length (filter (fun m => String.eqb (m_session_id m) "s_live")
                                             (messages Sample.world))) <= 2 * Z.of_nat 2)
    by (vm_compute; discriminate).
  repeat (split; [assumption|]).
  exact (pages_reproduce_listing Sample.world "s_live" 2 2 H1 H2 H3).
Defined.

(** C3, where it fails.  Two messages of one session with the same
    arrival time are listed in the order they were stored: "b" before
    "a" in one store, "a" before "b" in the other.  The order of ties
    does not come from the identifiers. *)
Lemma ties_follow_table_order :
  map received_at (messages Sample.tied_ba) = map received_at (messages Sample.tied_ab)
  /\ listed_ids (get_session_messages Sample.tied_ba "s" 50 0 false) = ["b"; "a"]
  /\ listed_ids (get_session_messages Sample.tied_ab "s" 50 0 false) = ["a"; "b"].
Proof. repeat split. Qed.

(** No message "nope" in session s_live, and nothing under "s_none". *)
Lemma unknown_message_outcomes_witness :
  "s_live" <> "" /\ "nope" <> "" /\ "s_none" <> "" /\ "box@example.com" <> ""
  /\ find (Sql.message_is "nope" "s_live") (messages Sample.world) = None
  /\ (forall r, In r (sessions Sample.world) -> s_session_id r <> "s_none")
  /\ (forall m, In m (messages Sample.world) -> m_session_id m <> "s_none")
  /\ PyDict.mem "s_none" (active_sessions Sample.world) = false
  /\ get_message_endpoint (Some "s_live") (Some "nope") Sample.world
     = failure "Message not found"
  /\ activate_session_endpoint Sample.real_text Sample.clock (Some "s_none") Sample.world
     = (Ok (failure "Session not found"), Sample.world)
  /\ mark_read_endpoint (Some "s_live") (Some "nope") Sample.world
     = (VDict [("success", VBool true)], Sample.world)
  /\ delete_message_endpoint (Some "s_live") (Some "nope") Sample.world
     = (VDict [("success", VBool true)], Sample.world)
  /\ mark_all_read_endpoint (Some "s_none") Sample.world
     = (VDict [("success", VBool true)], Sample.world)
  /\ delete_all_messages_endpoint (Some "s_none") Sample.world
     = (VDict [("success", VBool true)], Sample.world)
  /\ delete_session_endpoint (Some "s_none") Sample.world
     = (VDict [("success", VBool true)], Sample.world)
  /\ get_messages_endpoint (Some "s_none") 25 0 false Sample.world
     = (if int64 25 && int64 0
        then Ok (VDict [("success", VBool true); ("messages", VList []);
                        ("total", VInt 0); ("unread", VInt 0);
                        ("has_more", VBool (0 >? 0 + 25))])
        else Raise OverflowError)
  /\ get_session_stats_endpoint (Some "s_none") Sample.world
     = VDict [("success", VBool true);
              ("stats", VDict [("total_messages", VInt 0); ("unread_messages", VInt 0);
                               ("first_message", VNone); ("last_message", VNone);
                               ("email", VStr "Unknown"); ("created_at", VNone);
                               ("active", VBool false)])]
  /\ (exists mime : string,
        export_messages_endpoint Sample.json_dumps (Some "s_none") "csv" Sample.world
        = Ok (VDict [("success", VBool true);
                     ("content",
                      VStr (if String.eqb "csv" "json" then Sample.json_dumps []
                            else if String.eqb "csv" "csv" then csv_of []
                            else ""));
                     ("format", VStr "csv"); ("mime_type", VStr mime)]))
  /\ (exists (new_count : Z) (status : string) (w' : World),
        check_inbox_endpoint Hashlib.sha256_hexdigest Sample.repr Sample.real_text
          Sample.str_exn Sample.clock TransportError (Some "box@example.com")
          (Some "s_none") Sample.world
        = (Ok (VDict [("success", VBool true); ("new_count", VInt new_count);
                      ("status", VStr status)]), w')).
Proof.
  assert (H1 : "s_live" <> "") by discriminate.
  assert (H2 : "nope" <> "") by discriminate.
  assert (H3 : "s_none" <> "") by discriminate.
  assert (H4 : "box@example.com" <> "") by discriminate.
  assert (H5 : find (Sql.message_is "nope" "s_live") (messages Sample.world) = None)
    by reflexivity.
  assert (H6 : forall r, In r (sessions Sample.world) -> s_session_id r <> "s_none")
    by (intros r Hr; cbn in Hr; intuition (subst r; discriminate)).
  assert (H7 : forall m, In m (messages Sample.world) -> m_session_id m <> "s_none")
    by (intros m Hm; cbn in Hm; intuition (subst m; discriminate)).
  assert (H8 : PyDict.mem "s_none" (active_sessions Sample.world) = false)
    by reflexivity.
  repeat (split; [assumption|]).
  exact (unknown_message_outcomes Hashlib.sha256_hexdigest Sample.repr Sample.real_text
           Sample.str_exn Sample.clock Sample.json_dumps Sample.world
           "s_live" "nope" "s_none" "box@example.com" TransportError 25 0 false "csv"
           H1 H2 H3 H4 H5 H6 H7 H8).
Defined.

(** C5, where it fails.  No stored row has message id "nope", yet
    /mark-read and /delete-message answer success=true; there is no
    'error' entry in either answer. *)
Lemma unknown_message_acknowledged :
  find (Sql.message_is "nope" "s_live") (messages Sample.world) = None
  /\ fst (mark_read_endpoint (Some "s_live") (Some "nope") Sample.world)
     = VDict [("success", VBool true)]
  /\ fst (delete_message_endpoint (Some "s_live") (Some "nope") Sample.world)
     = VDict [("success", VBool true)].
Proof. repeat split. Qed.

(** The sample store, with its one live handle. *)
Lemma clear_all_keeps_messages_witness :
  handles_ok Sample.world /\ "s_live" <> ""
  /\ (exists w',
        clear_all_sessions_endpoint Sample.str_exn Sample.world
        = (VDict [("success", VBool true)], w')
        /\ Forall (fun r => s_is_active r = 0) (sessions w')
        /\ map s_session_id (sessions w') = map s_session_id (sessions Sample.world)
        /\ active_sessions w' = []
        /\ messages w' = messages Sample.world)
  /\ (exists w',
        delete_session_endpoint (Some "s_live") Sample.world
        = (VDict [("success", VBool true)], w')
        /\ messages w'
           = filter (fun m => negb (String.eqb (m_session_id m) "s_live"))
                    (messages Sample.world)
        /\ filter (fun m => String.eqb (m_session_id m) "s_live") (messages w') = []).
Proof.
  assert (H1 : handles_ok Sample.world).
  { split; [distinct_strings | repeat constructor]. }
  assert (H2 : "s_live" <> "") by discriminate.
  repeat (split; [assumption|]).
  exact (clear_all_keeps_messages Sample.str_exn Sample.world "s_live" H1 H2).
Defined.

(** The sample store at 2024-01-02T00:00:00: only s_old goes. *)
Lemma delete_inactive_purges_witness :
  sessions_pk Sample.world
  /\ 24 * 3600 * 1000000 <= Sample.clock (ticks Sample.world) <= max_datetime
  /\ let cutoff := Sample.clock (ticks Sample.world) - 24 * 3600 * 1000000 in
     let old := fun r => (s_is_active r =? 0) && (s_last_activity r <? cutoff) in
     exists w',
       delete_inactive_endpoint Sample.str_exn Sample.clock Sample.world
       = (VDict [("success", VBool true);
                 ("deleted_count",
                  VInt (Z.of_nat (List.length (filter old (sessions Sample.world)))))],
          w')
       /\ sessions w' = filter (fun r => negb (old r)) (sessions Sample.world)
       /\ messages w'
          = filter (fun m => negb (existsb
                                     (fun r => String.eqb (m_session_id m) (s_session_id r))
                                     (filter old (sessions Sample.world))))
                   (messages Sample.world).
Proof.
  assert (H1 : sessions_pk Sample.world) by (unfold sessions_pk; distinct_strings).
  assert (H2 : 24 * 3600 * 1000000 <= Sample.clock (ticks Sample.world) <= max_datetime)
    by (vm_compute; split; discriminate).
  repeat (split; [assumption|]).
  exact (delete_inactive_purges Sample.str_exn Sample.clock Sample.world H1 H2).
Defined.

(** What that purge leaves. *)
Example delete_inactive_on_sample :
  let '(answer, w') := delete_inactive_endpoint Sample.str_exn Sample.clock Sample.world in
  answer = VDict [("success", VBool true); ("deleted_count", VInt 1)]
  /\ map s_session_id (sessions w') = ["s_recent"; "s_live"]
  /\ map message_id (messages w') = ["m2"; "m3"; "m4"; "m5"].
Proof. vm_compute. repeat split. Qed.

(** The gateway cannot be reached. *)
Lemma check_inbox_never_reports_error_witness :
  "live@example.com" <> "" /\ "s_live" <> ""
  /\ exists (new_count : Z) (status : string) (w' : World),
      check_inbox_endpoint Hashlib.sha256_hexdigest Sample.repr Sample.real_text
        Sample.str_exn Sample.clock TransportError
        (Some "live@example.com") (Some "s_live") Sample.world
      = (Ok (VDict [("success", VBool true); ("new_count", VInt new_count);
                    ("status", VStr status)]), w')
      /\ (status = "ok" \/ status = "no_messages")
      /\ (fetch_failed TransportError = true ->
          status = "ok"
          /\ forall w0,
               getitem "status"
                 (fst (get_inbox Hashlib.sha256_hexdigest Sample.repr Sample.real_text
                         Sample.str_exn Sample.clock TransportError
                         "live@example.com" "s_live" w0))
               = Ok (VStr "error")).
Proof.
  assert (H1 : "live@example.com" <> "") by discriminate.
  assert (H2 : "s_live" <> "") by discriminate.
  repeat (split; [assumption|]).
  exact (check_inbox_never_reports_error Hashlib.sha256_hexdigest Sample.repr
           Sample.real_text Sample.str_exn Sample.clock TransportError
           "live@example.com" "s_live" Sample.world H1 H2).
Defined.

(** Reactivating s_old, created on 2023-12-28, at 2024-01-02T00:00:00. *)
Lemma activate_resets_timestamps_witness :
  "s_old" <> ""
  /\ Sql.select_email "s_old" (sessions Sample.world) = Some "old@example.com"
  /\ let now := Sample.clock (ticks Sample.world) in
     exists w',
       activate_session_endpoint Sample.real_text Sample.clock (Some "s_old") Sample.world
       = (Ok (VDict [("success", VBool true); ("email", VStr "old@example.com");
                     ("session_id", VStr "s_old")]), w')
       /\ sessions w'
          = (filter (fun r => negb (String.eqb (s_session_id r) "s_old"))
                    (sessions Sample.world)
             ++ [mkSessionRow "s_old" "old@example.com" now now 1])%list
       /\ (forall r, In r (sessions w') -> s_session_id r = "s_old" ->
             s_created_at r = now /\ s_last_activity r = now /\ s_is_active r = 1)
       /\ PyDict.get "s_old" (active_sessions w')
          = Some (mkTempMailSession (VStr "old@example.com") "s_old" now
                    (Sample.clock (S (ticks Sample.world))) 0 true VNone)
       /\ messages w' = messages Sample.world.
Proof.
  assert (H1 : "s_old" <> "") by discriminate.
  assert (H2 : Sql.select_email "s_old" (sessions Sample.world) = Some "old@example.com")
    by reflexivity.
  repeat (split; [assumption|]).
  exact (activate_resets_timestamps Sample.real_text Sample.clock Sample.world
           "s_old" "old@example.com" H1 H2).
Defined.

(** An export as 'xml'. *)
Lemma export_unknown_format_witness :
  "s_live" <> "" /\ "xml" <> "json" /\ "xml" <> "csv" /\ "xml" <> "txt"
  /\ export_messages_endpoint Sample.json_dumps (Some "s_live") "xml" Sample.world
     = Ok (VDict [("success", VBool true); ("content", VStr "");
                  ("format", VStr "xml"); ("mime_type", VStr "text/plain")]).
Proof.
  assert (H1 : "s_live" <> "") by discriminate.
  assert (H2 : "xml" <> "json") by discriminate.
  assert (H3 : "xml" <> "csv") by discriminate.
  assert (H4 : "xml" <> "txt") by discriminate.
  repeat (split; [assumption|]).
  exact (export_unknown_format Sample.json_dumps Sample.world "s_live" "xml" H1 H2 H3 H4).
Defined.

(* ================================================================== *)
(** * The further properties on the sample data *)

(** The gateway fails the first strategy and answers the second. *)
Lemma first_success_wins_witness :
  let api := fun st : list Z =>
               if (List.length st =? 2)%nat
               then Response 200 (Some (VDict [("email", VStr "jo.doe@gmail.com")]))
               else Response 200 (Some (VDict [("email", VStr "late@gmail.com")])) in
  let api' := fun st : list Z =>
                if (List.length st =? 3)%nat then TransportError else api st in
  let sid := PyStr.take 12 (Hashlib.sha256_hexdigest
                              ("jo.doe@gmail.com" ++ isoformat (Sample.clock 0))) in
  strategies = ([[1; 2; 3]] ++ [2; 3] :: [[1]])%list
  /\ (forall s, In s [[1; 2; 3]] -> strategy_fails (api' s) = true)
  /\ "jo.doe@gmail.com" <> ""
  /\ exists w',
      generate_email Hashlib.sha256_hexdigest Hashlib.md5_hexdigest Sample.repr
        Sample.real_text Sample.clock api' Sample.uuid_str Sample.uuid_hex 1704153600
        VNone init_world
      = (Ok [("email", VStr "jo.doe@gmail.com"); ("session_id", VStr sid);
             ("custom", VBool false)], w')
      /\ In (mkSessionRow sid "jo.doe@gmail.com" (Sample.clock 1) (Sample.clock 1) 1)
            (sessions w')
      /\ PyDict.mem sid (active_sessions w') = true.
Proof.
  intros api api' sid.
  assert (H1 : strategies = ([[1; 2; 3]] ++ [2; 3] :: [[1]])%list) by reflexivity.
  assert (H2 : forall s, In s [[1; 2; 3]] -> strategy_fails (api' s) = true).
  { intros s [<-|[]]. reflexivity. }
  assert (H3 : "jo.doe@gmail.com" <> "") by discriminate.
  repeat (split; [assumption|]).
  exact (first_success_wins Hashlib.sha256_hexdigest Hashlib.md5_hexdigest Sample.repr
           Sample.real_text Sample.clock api' Sample.uuid_str Sample.uuid_hex 1704153600
           init_world [[1; 2; 3]] [[1]] [2; 3]
           [("email", VStr "jo.doe@gmail.com")] "jo.doe@gmail.com"
           H1 H2 eq_refl eq_refl H3).
Defined.

(** The prefix "me" on jo.doe@gmail.com. *)
Lemma prefix_goes_before_local_part_witness :
  "me" <> "" /\ PyStr.contains "@" "jo.doe" = false
  /\ apply_prefix Sample.repr (VStr "me") (VStr ("jo.doe" ++ "@" ++ "gmail.com"))
     = Ok (VStr ("me" ++ "_" ++ "jo.doe" ++ "@" ++ "gmail.com"))
  /\ apply_prefix Sample.repr (VStr "me") (VStr "jo.doe") = Ok (VStr "jo.doe")
  /\ apply_prefix Sample.repr (VStr "") (VStr ("jo.doe" ++ "@" ++ "gmail.com"))
     = Ok (VStr ("jo.doe" ++ "@" ++ "gmail.com")).
Proof.
  assert (H1 : "me" <> "") by discriminate.
  assert (H2 : PyStr.contains "@" "jo.doe" = false) by reflexivity.
  repeat (split; [assumption|]).
  exact (prefix_goes_before_local_part Sample.repr "me" "jo.doe" "gmail.com" H1 H2).
Defined.

(** A message whose sender is a list, before a good one. *)
Lemma unbindable_message_is_skipped_witness :
  extract Sample.repr (VDict [("sender", VList [])])
    = (VList [], VStr "No Subject", VStr "No preview", "<object>")
  /\ (exists ex, bind_text Sample.real_text (VList []) = Raise ex
                 \/ bind_text Sample.real_text (VStr "No Subject") = Raise ex
                 \/ bind_text Sample.real_text (VStr "No preview") = Raise ex)
  /\ store_messages_in_db Hashlib.sha256_hexdigest Sample.repr Sample.real_text
       Sample.clock (VList [VDict [("sender", VList [])]; Sample.raw])
       "s1" "box@example.com" init_world
     = store_messages_in_db Hashlib.sha256_hexdigest Sample.repr Sample.real_text
         Sample.clock (VList [Sample.raw]) "s1" "box@example.com"
         (mkWorld (sessions init_world) (messages init_world)
                  (active_sessions init_world) (S (ticks init_world))).
Proof.
  assert (H1 : extract Sample.repr (VDict [("sender", VList [])])
               = (VList [], VStr "No Subject", VStr "No preview", "<object>"))
    by reflexivity.
  assert (H2 : exists ex, bind_text Sample.real_text (VList []) = Raise ex
                          \/ bind_text Sample.real_text (VStr "No Subject") = Raise ex
                          \/ bind_text Sample.real_text (VStr "No preview") = Raise ex)
    by (exists ProgrammingError; left; reflexivity).
  repeat (split; [assumption|]).
  exact (unbindable_message_is_skipped Hashlib.sha256_hexdigest Sample.repr
           Sample.real_text Sample.clock (VDict [("sender", VList [])]) [Sample.raw]
           "s1" "box@example.com" init_world _ _ _ _ H1 H2).
Defined.

(** The sample message twice in a batch, with a clock that stands still. *)
Lemma same_instant_duplicates_collapse_witness :
  let still := fun _ : nat => Sample.clock 0 in
  let mid := derive_message_id Hashlib.sha256_hexdigest Sample.repr
               (VStr "alice@example.com") (VStr "Hello") (VStr "Hi there")
               (still (ticks init_world)) in
  Sql.message_exists mid (messages init_world) = false
  /\ still (S (ticks init_world)) = still (ticks init_world)
  /\ messages (snd (store_messages_in_db Hashlib.sha256_hexdigest Sample.repr
                      Sample.real_text still (VList [Sample.raw; Sample.raw])
                      "s1" "box@example.com" init_world))
     = (messages init_world
        ++ [mkMessageRow mid "s1" (Some "alice@example.com") "box@example.com"
              (Some "Hello") (Some "Hi there") "Hi there, how are you?"
              (still (ticks init_world)) 0])%list.
Proof.
  intros still mid.
  assert (H1 : Sql.message_exists mid (messages init_world) = false) by reflexivity.
  assert (H2 : still (S (ticks init_world)) = still (ticks init_world)) by reflexivity.
  repeat (split; [assumption|]).
  exact (same_instant_duplicates_collapse Hashlib.sha256_hexdigest Sample.repr
           Sample.real_text still init_world Sample.raw "s1" "box@example.com"
           (VStr "alice@example.com") (VStr "Hello") (VStr "Hi there")
           "Hi there, how are you?"
           (Some "alice@example.com") (Some "Hello") (Some "Hi there")
           eq_refl eq_refl eq_refl eq_refl H1 H2).
Defined.

(** Message m4 of s_live is unread. *)
Lemma mark_read_lowers_unread_witness :
  let m := Sample.row "m4" "s_live" 63839600000000000 0 in
  "s_live" <> "" /\ "m4" <> ""
  /\ messages_pk Sample.world
  /\ In m (messages Sample.world)
  /\ exists w',
      mark_read_endpoint (Some "s_live") (Some "m4") Sample.world
      = (VDict [("success", VBool true)], w')
      /\ Sql.count_unread_of "s_live" (messages w')
         = Sql.count_unread_of "s_live" (messages Sample.world) - 1
      /\ Sql.count_of "s_live" (messages w') = Sql.count_of "s_live" (messages Sample.world)
      /\ map message_id (messages w') = map message_id (messages Sample.world)
      /\ mark_read_endpoint (Some "s_live") (Some "m4") w'
         = (VDict [("success", VBool true)], w').
Proof.
  intros m.
  assert (H1 : "s_live" <> "") by discriminate.
  assert (H2 : "m4" <> "") by discriminate.
  assert (H3 : messages_pk Sample.world) by (unfold messages_pk; distinct_strings).
  assert (H4 : In m (messages Sample.world)) by (cbn; tauto).
  repeat (split; [assumption|]).
  exact (mark_read_lowers_unread Sample.world "s_live" "m4" m H1 H2 H3 H4
           eq_refl eq_refl eq_refl).
Defined.

(** Session s_live has two unread messages. *)
Lemma mark_all_read_clears_unread_witness :
  "s_live" <> ""
  /\ exists w',
      mark_all_read_endpoint (Some "s_live") Sample.world
      = (VDict [("success", VBool true)], w')
      /\ Sql.count_unread_of "s_live" (messages w') = 0
      /\ Sql.count_of "s_live" (messages w') = Sql.count_of "s_live" (messages Sample.world)
      /\ selected w' "s_live" true = []
      /\ filter (fun m => negb (String.eqb (m_session_id m) "s_live")) (messages w')
         = filter (fun m => negb (String.eqb (m_session_id m) "s_live"))
                  (messages Sample.world).
Proof.
  assert (H1 : "s_live" <> "") by discriminate.
  split; [assumption|].
  exact (mark_all_read_clears_unread Sample.world "s_live" H1).
Defined.

(** Deleting m2 of s_live. *)
Lemma delete_message_then_lookup_witness :
  "s_live" <> "" /\ "m2" <> ""
  /\ exists w',
      delete_message_endpoint (Some "s_live") (Some "m2") Sample.world
      = (VDict [("success", VBool true)], w')
      /\ get_message_endpoint (Some "s_live") (Some "m2") w' = failure "Message not found"
      /\ (forall m, In m (messages Sample.world) ->
            message_id m <> "m2" \/ m_session_id m <> "s_live" -> In m (messages w'))
      /\ (messages_pk Sample.world ->
          (exists m, In m (messages Sample.world) /\ message_id m = "m2"
                     /\ m_session_id m = "s_live") ->
          Sql.count_of "s_live" (messages w')
          = Sql.count_of "s_live" (messages Sample.world) - 1).
Proof.
  assert (H1 : "s_live" <> "") by discriminate.
  assert (H2 : "m2" <> "") by discriminate.
  repeat (split; [assumption|]).
  exact (delete_message_then_lookup Sample.world "s_live" "m2" H1 H2).
Defined.

(** Deleting the live session of the sample store. *)
Lemma delete_session_then_stats_witness :
  handles_ok Sample.world /\ "s_live" <> ""
  /\ exists (w' : World) (email created_at : value),
      delete_session_endpoint (Some "s_live") Sample.world
      = (VDict [("success", VBool true)], w')
      /\ get_session_stats_endpoint (Some "s_live") w'
         = VDict [("success", VBool true);
                  ("stats", VDict [("total_messages", VInt 0); ("unread_messages", VInt 0);
                                   ("first_message", VNone); ("last_message", VNone);
                                   ("email", email); ("created_at", created_at);
                                   ("active", VBool false)])].
Proof.
  assert (H1 : handles_ok Sample.world).
  { split; [distinct_strings | repeat constructor]. }
  assert (H2 : "s_live" <> "") by discriminate.
  repeat (split; [assumption|]).
  exact (delete_session_then_stats Sample.world "s_live" H1 H2).
Defined.

(** Deleting and reactivating s_live. *)
Lemma deleted_session_can_be_reactivated_witness :
  "s_live" <> ""
  /\ Sql.select_email "s_live" (sessions Sample.world) = Some "live@example.com"
  /\ exists w' w'',
      delete_session_endpoint (Some "s_live") Sample.world
      = (VDict [("success", VBool true)], w')
      /\ (exists r, In r (sessions w') /\ s_session_id r = "s_live"
                    /\ s_email r = "live@example.com")
      /\ (forall r, In r (sessions w') -> s_session_id r = "s_live" -> s_is_active r = 0)
      /\ map s_session_id (sessions w') = map s_session_id (sessions Sample.world)
      /\ activate_session_endpoint Sample.real_text Sample.clock (Some "s_live") w'
         = (Ok (VDict [("success", VBool true); ("email", VStr "live@example.com");
                       ("session_id", VStr "s_live")]), w'')
      /\ In (mkSessionRow "s_live" "live@example.com" (Sample.clock (ticks w'))
                          (Sample.clock (ticks w')) 1) (sessions w'')
      /\ PyDict.mem "s_live" (active_sessions w'') = true
      /\ filter (fun m => String.eqb (m_session_id m) "s_live") (messages w'') = [].
Proof.
  assert (H1 : "s_live" <> "") by discriminate.
  assert (H2 : Sql.select_email "s_live" (sessions Sample.world) = Some "live@example.com")
    by reflexivity.
  repeat (split; [assumption|]).
  exact (deleted_session_can_be_reactivated Sample.real_text Sample.clock Sample.world
           "s_live" "live@example.com" H1 H2).
Defined.

(** The purge of the sample store takes s_old. *)
Lemma purged_session_is_forgotten_witness :
  let r := mkSessionRow "s_old" "old@example.com" 63839400000000000 63839577600000000 0 in
  let w' := snd (delete_inactive_endpoint Sample.str_exn Sample.clock Sample.world) in
  sessions_pk Sample.world
  /\ 24 * 3600 * 1000000 <= Sample.clock (ticks Sample.world) <= max_datetime
  /\ In r (sessions Sample.world) /\ s_session_id r <> ""
  /\ activate_session_endpoint Sample.real_text Sample.clock (Some (s_session_id r)) w'
     = (Ok (failure "Session not found"), w')
  /\ filter (fun m => String.eqb (m_session_id m) (s_session_id r)) (messages w') = [].
Proof.
  intros r w'.
  assert (H1 : sessions_pk Sample.world) by (unfold sessions_pk; distinct_strings).
  assert (H2 : 24 * 3600 * 1000000 <= Sample.clock (ticks Sample.world) <= max_datetime)
    by (vm_compute; split; discriminate).
  assert (H3 : In r (sessions Sample.world)) by (left; reflexivity).
  assert (H4 : s_session_id r <> "") by discriminate.
  repeat (split; [assumption|]).
  exact (purged_session_is_forgotten Sample.real_text Sample.str_exn Sample.clock
           Sample.world r H1 H2 H3 H4).
Defined.

(** Checking the inbox of the live session while the gateway is down. *)
Lemma check_inbox_touches_live_session_witness :
  "live@example.com" <> "" /\ "s_live" <> "" /\ handles_ok Sample.world
  /\ sessions (snd (check_inbox_endpoint Hashlib.sha256_hexdigest Sample.repr
                      Sample.real_text Sample.str_exn Sample.clock TransportError
                      (Some "live@example.com") (Some "s_live") Sample.world))
     = (if PyDict.mem "s_live" (active_sessions Sample.world)
        then map (fun r => if String.eqb (s_session_id r) "s_live"
                           then mkSessionRow (s_session_id r) (s_email r) (s_created_at r)
                                             (Sample.clock (ticks Sample.world))
                                             (s_is_active r)
                           else r) (sessions Sample.world)
        else sessions Sample.world)
  /\ PyDict.keys (active_sessions
                    (snd (check_inbox_endpoint Hashlib.sha256_hexdigest Sample.repr
                            Sample.real_text Sample.str_exn Sample.clock TransportError
                            (Some "live@example.com") (Some "s_live") Sample.world)))
     = PyDict.keys (active_sessions Sample.world).
Proof.
  assert (H1 : "live@example.com" <> "") by discriminate.
  assert (H2 : "s_live" <> "") by discriminate.
  assert (H3 : handles_ok Sample.world).
  { split; [distinct_strings | repeat constructor]. }
  repeat (split; [assumption|]).
  exact (check_inbox_touches_live_session Hashlib.sha256_hexdigest Sample.repr
           Sample.real_text Sample.str_exn Sample.clock TransportError
           "live@example.com" "s_live" Sample.world H1 H2 H3).
Defined.

(** The gateway answers with one new message for s_live. *)
Lemma new_count_is_unread_in_store_witness :
  let outcome := Response 200 (Some (VDict [("messages", VList [Sample.raw])])) in
  "live@example.com" <> "" /\ "s_live" <> ""
  /\ exists (new_count : Z) (status : string) (w' : World),
      check_inbox_endpoint Hashlib.sha256_hexdigest Sample.repr Sample.real_text
        Sample.str_exn Sample.clock outcome (Some "live@example.com") (Some "s_live")
        Sample.world
      = (Ok (VDict [("success", VBool true); ("new_count", VInt new_count);
                    ("status", VStr status)]), w')
      /\ (status = "ok" -> new_count = Sql.count_unread_of "s_live" (messages w'))
      /\ (status = "no_messages" -> new_count = 0)
      /\ (fetch_failed outcome = true -> messages w' = messages Sample.world).
Proof.
  intros outcome.
  assert (H1 : "live@example.com" <> "") by discriminate.
  assert (H2 : "s_live" <> "") by discriminate.
  repeat (split; [assumption|]).
  exact (new_count_is_unread_in_store Hashlib.sha256_hexdigest Sample.repr
           Sample.real_text Sample.str_exn Sample.clock outcome
           "live@example.com" "s_live" Sample.world H1 H2).
Defined.

(** One new message makes three unread ones in s_live. *)
Example new_count_on_sample :
  fst (check_inbox_endpoint Hashlib.sha256_hexdigest Sample.repr Sample.real_text
         Sample.str_exn Sample.clock
         (Response 200 (Some (VDict [("messages", VList [Sample.raw])])))
         (Some "live@example.com") (Some "s_live") Sample.world)
  = Ok (VDict [("success", VBool true); ("new_count", VInt 3); ("status", VStr "ok")]).
Proof. vm_compute. reflexivity. Qed.

(** The first page of two of s_live. *)
Lemma page_within_limit_witness :
  exists r,
    get_session_messages Sample.world "s_live" 2 0 true = Ok r
    /\ (0 <= 2 -> Z.of_nat (List.length (listed r)) <= 2)
    /\ Z.of_nat (List.length (listed r)) <= total r
    /\ 0 <= unread r <= total r
    /\ (true = true -> Forall (fun v => msg_is_read v = false) (listed r)).
Proof.
  eexists. split; [reflexivity|].
  exact (page_within_limit Sample.world "s_live" 2 0 true _ eq_refl).
Defined.

(** No session "nobody" in the sample store. *)
Lemma export_of_empty_session_witness :
  filter (fun m => String.eqb (m_session_id m) "nobody") (messages Sample.world) = []
  /\ export_messages Sample.json_dumps Sample.world "nobody" "csv"
     = Ok ("Sender,Recipient,Subject,Preview,Received At,Read"
           ++ String "013" (String "010" EmptyString))
  /\ export_messages Sample.json_dumps Sample.world "nobody" "txt" = Ok ""
  /\ export_messages Sample.json_dumps Sample.world "nobody" "json"
     = Ok (Sample.json_dumps []).
Proof.
  assert (H1 : filter (fun m => String.eqb (m_session_id m) "nobody")
                      (messages Sample.world) = []) by reflexivity.
  split; [assumption|].
  exact (export_of_empty_session Sample.json_dumps Sample.world "nobody" H1).
Defined.

(** A message of five lines, after a blank line and with spaces at its
    end. *)
Lemma text_message_fields_witness :
  let msg := String "010"%char
               ("NEW alice@example.com"
                ++ String "010"%char ("2 minutes ago"
                ++ String "010"%char (" Your code "
                ++ String "010"%char ("Use 1234" ++ String "010"%char "Bye  ")))) in
  PyStr.split_lines "NEW alice@example.com" = ["NEW alice@example.com"]
  /\ PyStr.split_lines "2 minutes ago" = ["2 minutes ago"]
  /\ PyStr.split_lines " Your code " = [" Your code "]
  /\ PyStr.strip msg
     = "NEW alice@example.com"
       ++ String "010"%char ("2 minutes ago"
       ++ String "010"%char (" Your code "
       ++ String "010"%char ("Use 1234" ++ String "010"%char "Bye")))
  /\ extract Sample.repr (VStr msg)
     = (VStr (PyStr.strip (PyStr.remove_NEW "NEW alice@example.com")),
        VStr (PyStr.strip " Your code "),
        VStr (PyStr.strip (nth 0 (PyStr.split_lines ("Use 1234" ++ String "010"%char "Bye"))
                               "")),
        msg).
Proof.
  intros msg.
  assert (H0 : PyStr.split_lines "NEW alice@example.com" = ["NEW alice@example.com"])
    by reflexivity.
  assert (H1 : PyStr.split_lines "2 minutes ago" = ["2 minutes ago"]) by reflexivity.
  assert (H2 : PyStr.split_lines " Your code " = [" Your code "]) by reflexivity.
  assert (H3 : PyStr.strip msg
               = "NEW alice@example.com"
                 ++ String "010"%char ("2 minutes ago"
                 ++ String "010"%char (" Your code "
                 ++ String "010"%char ("Use 1234" ++ String "010"%char "Bye"))))
    by reflexivity.
  repeat (split; [assumption|]).
  exact (text_message_fields Sample.repr msg "NEW alice@example.com" "2 minutes ago"
           " Your code " ("Use 1234" ++ String "010"%char "Bye") H0 H1 H2 H3).
Defined.

(** The fields of that message. *)
Example text_message_on_sample :
  extract Sample.repr
    (VStr (String "010"%char
             ("NEW alice@example.com"
              ++ String "010"%char ("2 minutes ago"
              ++ String "010"%char (" Your code "
              ++ String "010"%char ("Use 1234" ++ String "010"%char "Bye  "))))))
  = (VStr "alice@example.com", VStr "Your code", VStr "Use 1234",
     String "010"%char
       ("NEW alice@example.com"
        ++ String "010"%char ("2 minutes ago"
        ++ String "010"%char (" Your code "
        ++ String "010"%char ("Use 1234" ++ String "010"%char "Bye  "))))).
Proof. reflexivity. Qed.

(** A text of four lines of which the last two are blank is a text of
    two lines, and is not parsed. *)
Example blank_lines_do_not_count :
  extract Sample.repr
    (VStr ("A" ++ String "010"%char ("B" ++ String "010"%char
                                         (" " ++ String "010"%char " "))))
  = (VStr "Unknown", VStr "No Subject", VStr "No preview",
     "A" ++ String "010"%char ("B" ++ String "010"%char (" " ++ String "010"%char " "))).
Proof. reflexivity. Qed.

(** Messages of three, two and one line; the first ends in a blank
    line, the second starts with one. *)
Lemma short_text_message_fields_witness :
  let three := "bob" ++ String "010"%char ("now" ++ String "010"%char
                                                 ("Hi" ++ String "010"%char "")) in
  let two := String "010"%char ("bob" ++ String "010"%char "now") in
  PyStr.split_lines "bob" = ["bob"] /\ PyStr.split_lines "now" = ["now"]
  /\ PyStr.split_lines "Hi" = ["Hi"]
  /\ PyStr.strip three = "bob" ++ String "010"%char ("now" ++ String "010"%char "Hi")
  /\ PyStr.strip two = "bob" ++ String "010"%char "now"
  /\ PyStr.strip " bob " = "bob"
  /\ extract Sample.repr (VStr three)
     = (VStr (PyStr.strip (PyStr.remove_NEW "bob")), VStr (PyStr.strip "Hi"),
        VStr "No preview", three)
  /\ extract Sample.repr (VStr two)
     = (VStr "Unknown", VStr "No Subject", VStr "No preview", two)
  /\ extract Sample.repr (VStr " bob ")
     = (VStr "Unknown", VStr "No Subject", VStr "No preview", " bob ").
Proof.
  intros three two.
  assert (H0 : PyStr.split_lines "bob" = ["bob"]) by reflexivity.
  assert (H1 : PyStr.split_lines "now" = ["now"]) by reflexivity.
  assert (H2 : PyStr.split_lines "Hi" = ["Hi"]) by reflexivity.
  assert (H3 : PyStr.strip three
               = "bob" ++ String "010"%char ("now" ++ String "010"%char "Hi"))
    by reflexivity.
  assert (H4 : PyStr.strip two = "bob" ++ String "010"%char "now") by reflexivity.
  assert (H5 : PyStr.strip " bob " = "bob") by reflexivity.
  repeat (split; [assumption|]).
  exact (short_text_message_fields Sample.repr three two " bob " "bob" "now" "Hi"
           H0 H1 H2 H3 H4 H5).
Defined.

(** The state after one /generate-email with the gateway down. *)
Lemma reachable_wf_witness :
  let w1 := snd (generate_email_endpoint Hashlib.sha256_hexdigest Hashlib.md5_hexdigest
                   Sample.repr Sample.real_text Sample.clock Sample.api_down
                   Sample.uuid_str Sample.uuid_hex 1704153600 VNone init_world) in
  reachable Hashlib.sha256_hexdigest Hashlib.md5_hexdigest Sample.repr Sample.real_text
            Sample.str_exn Sample.clock w1
  /\ wf w1.
Proof.
  intros w1.
  assert (H1 : reachable Hashlib.sha256_hexdigest Hashlib.md5_hexdigest Sample.repr
                 Sample.real_text Sample.str_exn Sample.clock w1).
  { eapply reachable_step; [apply reachable_init|].
    eapply step_generate_email. apply surjective_pairing. }
  split; [assumption|].
  exact (reachable_wf Hashlib.sha256_hexdigest Hashlib.md5_hexdigest Sample.repr
           Sample.real_text Sample.str_exn Sample.clock w1 H1).
Defined.

(** Emptying session s_live of the sample. *)
Lemma delete_all_messages_is_local_witness :
  let w' := snd (delete_all_messages_endpoint (Some "s_live") Sample.world) in
  "s_live" <> ""
  /\ fst (delete_all_messages_endpoint (Some "s_live") Sample.world)
     = VDict [("success", VBool true)]
  /\ sessions w' = sessions Sample.world
  /\ active_sessions w' = active_sessions Sample.world
  /\ (forall limit offset unread_only r,
        get_session_messages w' "s_live" limit offset unread_only = Ok r ->
        listed r = [] /\ total r = 0 /\ unread r = 0 /\ has_more r = (0 >? offset + limit))
  /\ (forall other limit offset unread_only,
        other <> "s_live" ->
        get_session_messages w' other limit offset unread_only
        = get_session_messages Sample.world other limit offset unread_only).
Proof.
  intros w'.
  assert (H : "s_live" <> "") by discriminate.
  split; [assumption|].
  exact (delete_all_messages_is_local Sample.world "s_live" H).
Defined.

(** The first message of the first page of session s_live. *)
Lemma listed_message_can_be_fetched_witness :
  let v := view (Sample.row "m4" "s_live" 63839600000000000 0) in
  let r := mkListing (map view [Sample.row "m4" "s_live" 63839600000000000 0;
                                Sample.row "m2" "s_live" 63839500000000000 0;
                                Sample.row "m5" "s_live" 63839500000000000 1])
                     3 2 false in
  messages_pk Sample.world /\ "s_live" <> "" /\ msg_id v <> ""
  /\ get_session_messages Sample.world "s_live" 25 0 false = Ok r
  /\ In v (listed r)
  /\ get_message_endpoint (Some "s_live") (Some (msg_id v)) Sample.world
     = VDict [("success", VBool true);
              ("message", VDict [("sender", of_text (msg_sender v));
                                 ("recipient", VStr (msg_recipient v));
                                 ("subject", of_text (msg_subject v));
                                 ("preview", of_text (msg_preview v));
                                 ("content", VStr (msg_content v));
                                 ("time", VStr (msg_time v))])].
Proof.
  intros v r.
  assert (H1 : messages_pk Sample.world) by (unfold messages_pk; distinct_strings).
  assert (H2 : "s_live" <> "") by discriminate.
  assert (H3 : msg_id v <> "") by discriminate.
  assert (H4 : get_session_messages Sample.world "s_live" 25 0 false = Ok r)
    by reflexivity.
  assert (H5 : In v (listed r)) by (left; reflexivity).
  repeat (split; [assumption|]).
  exact (listed_message_can_be_fetched Sample.world "s_live" 25 0 false r v
           H1 H2 H3 H4 H5).
Defined.

(** SQLite stores a NaN as NULL.  As an address it breaks
    [email TEXT NOT NULL], so the except branch answers; as a sender it
    gives a row whose sender is NULL. *)
Example nan_is_stored_as_null :
  fst (generate_email_endpoint Hashlib.sha256_hexdigest Hashlib.md5_hexdigest
         Sample.repr Sample.real_text Sample.clock
         (fun _ => Response 200 (Some (VDict [("email", VFloat S754_nan)])))
         Sample.uuid_str Sample.uuid_hex 1704153600 VNone init_world)
  = Ok (VDict [("success", VBool true);
               ("email", VStr "temp_1704153600_123e45@fallback.tmp");
               ("session_id", VStr "c2c69d2ebf"); ("custom", VBool false);
               ("fallback", VBool true)])
  /\ map sender
       (messages (snd (store_messages_in_db Hashlib.sha256_hexdigest Sample.repr
                         Sample.real_text Sample.clock
                         (VList [VDict [("sender", VFloat S754_nan)]])
                         "s1" "box@example.com" init_world)))
     = [None].
Proof. vm_compute. split; reflexivity. Qed.
